(** * ace_hunter.splunk: a shallow embedding and its verified properties

    The module [src/ace_hunter/splunk.py] is a client of the Splunk REST
    interface: it builds a time-bounded search string, logs in, submits a
    search job, polls the job until it is done and downloads the rows.

    Modelling conventions.
    - A Python [str] is a [list ascii]; a character stands for the code
      point of the same number (U+0000 to U+00FF).
    - Python [int] is [Z]; [datetime.timedelta] is a record of normalised
      days, seconds and microseconds with the range check of the library.
    - A raised exception is the [Raise] constructor of [result].
    - The HTTP transport, the wall clock and the other thread that may call
      [cancel] are a scripted [world]; every request the code issues and
      every error it logs is appended to a trace.
    - Library functions whose implementation is outside the module
      ([ET.fromstring], [json.loads], [dateutil.parser.parse], [ZoneInfo],
      [local_time]) are [Variable]s of a [Section]. *)

From Stdlib Require Import ZArith List Bool Ascii String Lia.
From stdpp Require Import base option list gmap strings.
Import ListNotations.

Local Open Scope list_scope.

(** ** Exceptions and results *)

Inductive exn : Type :=
| AssertionError
| ValueError
| OverflowError
| IndexError
| KeyError
| TypeError
| ParserError.

Inductive result (A : Type) : Type :=
| Ok (a : A)
| Raise (e : exn).

Arguments Ok {A} a.
Arguments Raise {A} e.

Definition bind {A B : Type} (r : result A) (k : A -> result B) : result B :=
  match r with
  | Ok a => k a
  | Raise e => Raise e
  end.

Notation "'let*' x ':=' r 'in' k" := (bind r (fun x => k))
  (at level 10, x name, r at level 100, k at level 200).

(** ** Python strings *)

Module PyStr.

Definition t : Type := list ascii.

(** A literal of the source. *)
Definition str (s : string) : t := list_ascii_of_string s.

Definition code (c : ascii) : nat := nat_of_ascii c.

(** [str.isspace] on one character, which is also the class [\s] of a
    [str] pattern: the ASCII controls 9-13 and 28-31, the space, and in the
    Latin-1 range NEL (133) and NBSP (160). *)
Definition isspace (c : ascii) : bool :=
  let n := code c in
  ((9 <=? n) && (n <=? 13)) || ((28 <=? n) && (n <=? 32))
  || (n =? 133) || (n =? 160).

(** [str.lower] on one character: A-Z, and the Latin-1 capitals 192-222
    except the multiplication sign 215. *)
Definition lower_char (c : ascii) : ascii :=
  let n := code c in
  if ((65 <=? n) && (n <=? 90))
     || ((192 <=? n) && (n <=? 222) && negb (n =? 215))
  then ascii_of_nat (n + 32) else c.

Definition lower (s : t) : t := map lower_char s.

Fixpoint lstrip (s : t) : t :=
  match s with
  | c :: r => if isspace c then lstrip r else s
  | [] => []
  end.

Definition strip (s : t) : t := rev (lstrip (rev (lstrip s))).

Fixpoint startswith (p s : t) : bool :=
  match p, s with
  | [], _ => true
  | a :: p', b :: s' => Ascii.eqb a b && startswith p' s'
  | _ :: _, [] => false
  end.

(** [s.find(p)]: the index of the first occurrence of [p] in [s]. *)
Fixpoint find (p s : t) : option nat :=
  if startswith p s then Some 0
  else match s with
       | [] => None
       | _ :: r => option_map S (find p r)
       end.

(** [s.split(sep)] for a one-character separator: the pieces between the
    occurrences of [sep]; never the empty list. *)
Fixpoint split (sep : ascii) (s : t) : list t :=
  match s with
  | [] => [[]]
  | c :: r =>
      if Ascii.eqb c sep then [] :: split sep r
      else match split sep r with
           | piece :: pieces => (c :: piece) :: pieces
           | [] => [[c]]
           end
  end.

End PyStr.

Abbreviation pystr := PyStr.t.
Abbreviation str := PyStr.str.

Arguments PyStr.str : simpl never.

(** ** Python sequences *)

(** [l[-k]] for [k >= 1]: the [k]-th element from the end. *)
Definition from_end {A : Type} (l : list A) (k : nat) : result A :=
  match nth_error (rev l) (k - 1) with
  | Some a => Ok a
  | None => Raise IndexError
  end.

(** ** Integers: [int(s)] of a string *)

Module PyInt.

Definition is_digit (c : ascii) : bool :=
  let n := PyStr.code c in (48 <=? n) && (n <=? 57).

Definition digit_value (c : ascii) : Z := Z.of_nat (PyStr.code c - 48).

(** The digits of a literal: at least one digit, single underscores only
    between two digits. [prev] tells whether the previous character was a
    digit. *)
Fixpoint digits (acc : Z) (prev : bool) (s : pystr) : option Z :=
  match s with
  | [] => if prev then Some acc else None
  | c :: r =>
      if is_digit c then digits (10 * acc + digit_value c)%Z true r
      else if Ascii.eqb c "_"%char && prev then digits acc false r
      else None
  end.

(** The blanks [int] skips around an ASCII literal. *)
Definition isblank (c : ascii) : bool :=
  let n := PyStr.code c in ((9 <=? n) && (n <=? 13)) || (n =? 32).

Fixpoint lskip (s : pystr) : pystr :=
  match s with
  | c :: r => if isblank c then lskip r else s
  | [] => []
  end.

Definition is_ascii (c : ascii) : bool := PyStr.code c <? 128.

(** The characters outside ASCII are first rewritten: a white-space
    character becomes a space and every other one (none of them is a
    decimal digit below U+0100) a question mark. The ASCII characters are
    kept as they are, the controls 28-31 included, which are not blanks
    for [int]. *)
Definition to_ascii_literal (s : pystr) : pystr :=
  map (fun c => if is_ascii c then c
                else if PyStr.isspace c then " "%char else "?"%char) s.

(** The limit of the interpreter on the digits of a decimal literal
    ([sys.int_info.default_max_str_digits]). *)
Definition MAX_STR_DIGITS : nat := 4300.

Definition count_digits (s : pystr) : nat := length (List.filter is_digit s).

(** [int(s)]: [None] stands for [ValueError]. *)
Definition parse (s : pystr) : option Z :=
  let body := rev (lskip (rev (lskip (to_ascii_literal s)))) in
  if MAX_STR_DIGITS <? count_digits body then None
  else
    match body with
    | c :: r =>
        if Ascii.eqb c "-"%char then option_map Z.opp (digits 0 false r)
        else if Ascii.eqb c "+"%char then digits 0 false r
        else digits 0 false body
    | [] => None
    end.

End PyInt.

Definition int (s : pystr) : result Z :=
  match PyInt.parse s with
  | Some z => Ok z
  | None => Raise ValueError
  end.

(** ** [datetime.timedelta] *)

Record timedelta : Type := mk_timedelta {
  td_days : Z;
  td_seconds : Z;
  td_microseconds : Z
}.

Definition MAX_DELTA_DAYS : Z := 999999999.

(** [datetime.timedelta(days=, seconds=, minutes=, hours=)] on integers:
    everything is summed in seconds and normalised to
    [0 <= seconds < 86400]; more than [MAX_DELTA_DAYS] days in either
    direction is an [OverflowError]. *)
Definition timedelta_new (days seconds minutes hours : Z) : result timedelta :=
  let total := (days * 86400 + hours * 3600 + minutes * 60 + seconds)%Z in
  let d := (total / 86400)%Z in
  let s := (total mod 86400)%Z in
  if (Z.abs d <=? MAX_DELTA_DAYS)%Z then Ok (mk_timedelta d s 0)
  else Raise OverflowError.

(** [td.total_seconds()] of a duration without microseconds. *)
Definition total_seconds (td : timedelta) : Z :=
  (td_days td * 86400 + td_seconds td)%Z.

Definition total_microseconds (td : timedelta) : Z :=
  (total_seconds td * 1000000 + td_microseconds td)%Z.

(** ** [create_timedelta] (lines 27-42) *)

Definition create_timedelta (timespec : pystr) : result timedelta :=
  let duration := PyStr.split ":"%char timespec in
  let* seconds := bind (from_end duration 1) int in
  let* minutes :=
    if 1 <? length duration then bind (from_end duration 2) int else Ok 0%Z in
  let* hours :=
    if 2 <? length duration then bind (from_end duration 3) int else Ok 0%Z in
  let* days :=
    if 3 <? length duration then bind (from_end duration 4) int else Ok 0%Z in
  timedelta_new days seconds minutes hours.

(** ** [datetime.datetime] and [strftime] *)

(** The calendar fields of a [datetime]. Python keeps them in range:
    year 1-9999, month 1-12, day 1-31, hour 0-23, minute and second 0-59.
    The time zone plays no part in the directives used by this module. *)
Record datetime : Type := mk_datetime {
  year : nat;
  month : nat;
  day : nat;
  hour : nat;
  minute : nat;
  second : nat
}.

Definition digit_char (n : nat) : ascii := ascii_of_nat (48 + n mod 10).

(** The decimal digits of a number, the most significant first. The
    fuel is never used up: a number has fewer digits than its value plus
    one. *)
Fixpoint decimal_fuel (fuel n : nat) (acc : pystr) : pystr :=
  match fuel with
  | O => acc
  | S f =>
      if n <? 10 then digit_char n :: acc
      else decimal_fuel f (n / 10) (digit_char n :: acc)
  end.

Definition decimal (n : nat) : pystr := decimal_fuel (S n) n [].

(** A field written with at least two digits: the directives [%m], [%d],
    [%H], [%M] and [%S]. *)
Definition pad2 (n : nat) : pystr :=
  if n <? 10 then "0"%char :: decimal n else decimal n.

(** [d.strftime("%m/%d/%Y:%H:%M:%S")], the time format of the remote
    service. The directive [%Y] is the year as the C library writes it,
    without padding: four digits for the years 1000-9999, fewer for the
    years before 1000. *)
Definition strftime_splunk (d : datetime) : pystr :=
  pad2 (month d) ++ str "/" ++ pad2 (day d) ++ str "/" ++ decimal (year d)
  ++ str ":" ++ pad2 (hour d) ++ str ":" ++ pad2 (minute d)
  ++ str ":" ++ pad2 (second d).

(** ** The leading [search] keyword *)

Definition SEARCH : pystr := str "search".

(** The guard of lines 175, 199 and 286:
    [query.lstrip().lower().startswith("search")]. *)
Definition starts_with_search (query : pystr) : bool :=
  PyStr.startswith SEARCH (PyStr.lower (PyStr.lstrip query)).

(** Lines 175-177, 199-201 and 286-288: prepend the keyword when the guard
    fails. *)
Definition add_missing_search (query : pystr) : pystr :=
  if negb (starts_with_search query) then str "search " ++ query else query.

(** One pattern character against one subject character under [re.I]. *)
Definition ieq (p c : ascii) : bool := Ascii.eqb p (PyStr.lower_char c).

(** A literal lower-case pattern matched at the head of the subject under
    [re.I]; the result is the text after the match. *)
Fixpoint imatch (p s : pystr) : option pystr :=
  match p, s with
  | [], _ => Some s
  | a :: p', c :: s' => if ieq a c then imatch p' s' else None
  | _ :: _, [] => None
  end.

(** The pattern [^\s*search] under [re.I]: the white space is matched
    greedily and no shorter run of it can be followed by an [s]. *)
Definition match_search (query : pystr) : option pystr :=
  imatch SEARCH (PyStr.lstrip query).

(** [re.sub(r"^\s*search", repl, query, 1, re.I)] for a replacement
    without a backslash. *)
Definition sub_search (repl query : pystr) : pystr :=
  match match_search query with
  | Some rest => repl ++ rest
  | None => query
  end.

(** ** Building the time-bounded query (lines 170-189 and 194-213) *)

(** [assert isinstance(x, datetime.datetime)]; [debug] is Python's
    [__debug__], true unless the interpreter runs with [-O]. *)
Definition assert_datetime (debug : bool) (x : option datetime) : result unit :=
  match x with
  | Some _ => Ok tt
  | None => if debug then Raise AssertionError else Ok tt
  end.

(** The common body of [query_with_time] and [query_with_index_time] up to
    the call of [self.query]; [latest] and [earliest] are the two clause
    keywords, which are all the two functions differ in. *)
Definition bounded_query (latest earliest : pystr) (debug : bool)
    (query : pystr) (time_start time_end : option datetime) : result pystr :=
  let* _ := assert_datetime debug time_start in
  let* _ := assert_datetime debug time_end in
  let query := add_missing_search query in
  let query :=
    match time_end with
    | Some e =>
        sub_search (str "search " ++ latest ++ strftime_splunk e) query
    | None => query
    end in
  let query :=
    match time_start with
    | Some s =>
        sub_search (str "search " ++ earliest ++ strftime_splunk s) query
    | None => query
    end in
  Ok query.

(** The string [query_with_time] hands to [self.query]. *)
Definition query_with_time_text : bool -> pystr -> option datetime ->
    option datetime -> result pystr :=
  bounded_query (str "latest=") (str "earliest=").

(** The string [query_with_index_time] hands to [self.query]. *)
Definition query_with_index_time_text : bool -> pystr -> option datetime ->
    option datetime -> result pystr :=
  bounded_query (str "_index_latest=") (str "_index_earliest=").

Definition dt_2024_01_01_000000 : datetime := mk_datetime 2024 1 1 0 0 0.
Definition dt_2024_01_01_000010 : datetime := mk_datetime 2024 1 1 0 0 10.

(** ** The wall clock *)

(** A reading of [datetime.datetime.now()]: microseconds since
    0001-01-01T00:00:00. *)
Definition instant : Type := Z.

(** The last microsecond of the year 9999. *)
Definition MAX_INSTANT : instant := (3652059 * 86400 * 1000000 - 1)%Z.

(** [now + td]: a sum outside the years 1-9999 is an [OverflowError]. *)
Definition instant_add (now : instant) (td : timedelta) : result instant :=
  let r := (now + total_microseconds td)%Z in
  if (0 <=? r)%Z && (r <=? MAX_INSTANT)%Z then Ok r else Raise OverflowError.

(** ** The remote service and the trace of a run *)

(** What [requests.get] or [requests.post] gives back: a response with its
    [status_code] and [text], or an exception of the transport. *)
Inductive http_reply : Type :=
| Reply (status_code : Z) (text : pystr)
| TransportError.

Inductive request : Type :=
| Login
| Submit (query : pystr)
| Status
| Download.

(** The calls of [logging.error]. *)
Inductive error_log : Type :=
| LoginRejected (status_code : Z)
| LoginFailed
| SearchRejected (status_code : Z)
| SearchFailed
| StatusRejected (status_code : Z)
| StatusUnparseable
| StatusFailed
| QueryTimedOut (query : pystr)
| DownloadRejected (status_code : Z)
| DownloadUnparseable.

Inductive event : Type :=
| Sent (r : request)
| Logged (m : error_log).

(** The answer to [r.text] of a status request: the first match of
    [<s:key name="isDone">([01])</s:key>], as [re.search] finds it. *)
Definition dquote : ascii := ascii_of_nat 34.

Definition ISDONE_OPEN : pystr :=
  str "<s:key name=" ++ [dquote] ++ str "isDone" ++ [dquote] ++ str ">".

Definition ISDONE_CLOSE : pystr := str "</s:key>".

Definition match_isDone (text : pystr) : option ascii :=
  if PyStr.startswith ISDONE_OPEN text then
    match skipn (length ISDONE_OPEN) text with
    | d :: rest =>
        if (Ascii.eqb d "0"%char || Ascii.eqb d "1"%char)
           && PyStr.startswith ISDONE_CLOSE rest
        then Some d else None
    | [] => None
    end
  else None.

Fixpoint search_isDone (text : pystr) : option ascii :=
  match match_isDone text with
  | Some d => Some d
  | None => match text with
            | [] => None
            | _ :: r => search_isDone r
            end
  end.

Section Lifecycle.

(** The values of the cells of a result row. *)
Context {V : Type}.

(** The RawResultPayload: the decoded body of the [json_rows] output
    mode. *)
Record payload : Type := mk_payload {
  fields : list string;
  rows : list (list V)
}.

(** What [json.loads] returned, by what lines 394-395 and 410-420 do
    with it.
    - [RowsDoc p]: an object with the list of field names under
      ["fields"] and the list of rows, each a list of cells, under
      ["rows"].
    - [RowsOnlyDoc rs]: an object with such a list of rows and no
      ["fields"].
    - [NullDoc]: [null], which [json.loads] returns as [None].
    - [NoRowsDoc e]: a document on which [len(doc["rows"])] raises [e]:
      [KeyError] for an object without ["rows"], [TypeError] for a
      number, a string or a list, and for rows that have no length.
    - [OddRowsDoc r]: any other document, whose rows have a length but
      which has not one of the shapes above (rows or fields given as a
      string or an object, a row that is no list, a field name that is no
      string); [r] is what the loops of lines 413-420 make of it. *)
Inductive json_doc : Type :=
| RowsDoc (p : payload)
| RowsOnlyDoc (rs : list (list V))
| NullDoc
| NoRowsDoc (e : exn)
| OddRowsDoc (r : result (list (gmap string V))).

(** The Python value of a document, as the attribute holds it: [None] for
    [null]. *)
Definition python_value (doc : json_doc) : option json_doc :=
  match doc with
  | NullDoc => None
  | _ => Some doc
  end.

(** [ET.fromstring(text).find(tag).text]: [None] when the text is not XML
    or has no such element (an exception), [Some None] for an element
    without text. *)
Variable xml_find_text : pystr -> pystr -> option (option pystr).

(** [json.loads(text)]: [None] when decoding raises. *)
Variable json_loads : pystr -> option json_doc.

(** The attributes of a [SplunkQueryObject] that the query lifecycle reads
    or writes. *)
Record session : Type := mk_session {
  query_timeout : pystr;
  session_key : option pystr;
  search_id : option pystr;
  search_results : option json_doc;
  query_start_time : option instant;
  query_end_time : option instant;
  query_cancelled : bool
}.

Definition set_session_key (k : option pystr) (s : session) : session :=
  mk_session (query_timeout s) k (search_id s) (search_results s)
    (query_start_time s) (query_end_time s) (query_cancelled s).

Definition set_search_id (i : option pystr) (s : session) : session :=
  mk_session (query_timeout s) (session_key s) i (search_results s)
    (query_start_time s) (query_end_time s) (query_cancelled s).

Definition set_search_results (r : option json_doc) (s : session) : session :=
  mk_session (query_timeout s) (session_key s) (search_id s) r
    (query_start_time s) (query_end_time s) (query_cancelled s).

Definition set_query_start_time (t : instant) (s : session) : session :=
  mk_session (query_timeout s) (session_key s) (search_id s)
    (search_results s) (Some t) (query_end_time s) (query_cancelled s).

Definition set_query_end_time (t : instant) (s : session) : session :=
  mk_session (query_timeout s) (session_key s) (search_id s)
    (search_results s) (query_start_time s) (Some t) (query_cancelled s).

(** [cancel] (lines 144-146). *)
Definition cancel (s : session) : session :=
  mk_session (query_timeout s) (session_key s) (search_id s)
    (search_results s) (query_start_time s) (query_end_time s) true.

(** A call of [cancel] from another thread, if there is one. *)
Definition cancel_if (b : bool) (s : session) : session :=
  if b then cancel s else s.

(** [authenticate] (lines 256-281). *)
Definition authenticate (s : session) (reply : http_reply)
    : bool * session * list event :=
  match reply with
  | TransportError => (false, s, [Sent Login; Logged LoginFailed])
  | Reply code text =>
      if negb (code =? 200)%Z then
        (false, s, [Sent Login; Logged (LoginRejected code)])
      else match xml_find_text (str "sessionKey") text with
           | Some key => (true, set_session_key key s, [Sent Login])
           | None => (false, s, [Sent Login; Logged LoginFailed])
           end
  end.

(** [execute_query] (lines 283-322). *)
Definition execute_query (s : session) (reply : http_reply) (query : pystr)
    : bool * session * list event :=
  let query := add_missing_search query in
  match reply with
  | TransportError => (false, s, [Sent (Submit query); Logged SearchFailed])
  | Reply code text =>
      if negb (code =? 201)%Z then
        (false, s, [Sent (Submit query); Logged (SearchRejected code)])
      else match xml_find_text (str "sid") text with
           | Some sid => (true, set_search_id sid s, [Sent (Submit query)])
           | None => (false, s, [Sent (Submit query); Logged SearchFailed])
           end
  end.

(** [is_job_completed] (lines 324-365). The three results of the source
    are [None], [False] and [True]. *)
Definition is_job_completed (reply : http_reply)
    : option bool * list event :=
  match reply with
  | TransportError => (None, [Sent Status; Logged StatusFailed])
  | Reply code text =>
      if negb (code =? 200)%Z then
        (None, [Sent Status; Logged (StatusRejected code)])
      else match search_isDone text with
           | None => (Some false, [Sent Status; Logged StatusUnparseable])
           | Some d =>
               if Ascii.eqb d "1"%char then (Some true, [Sent Status])
               else (Some false, [Sent Status])
           end
  end.

(** [download_search_results] (lines 367-406). The result is [True],
    [False], or [None] when the outer handler swallows an exception. *)
Definition download_search_results (s : session) (reply : http_reply)
    : option bool * session * list event :=
  match reply with
  | TransportError => (None, s, [Sent Download])
  | Reply code text =>
      if negb (code =? 200)%Z then
        (Some false, s, [Sent Download; Logged (DownloadRejected code)])
      else match json_loads text with
           | None =>
               (Some false, s, [Sent Download; Logged DownloadUnparseable])
           | Some (RowsDoc p) =>
               (Some true, set_search_results (Some (RowsDoc p)) s,
                [Sent Download])
           | Some (RowsOnlyDoc rs) =>
               (Some true, set_search_results (Some (RowsOnlyDoc rs)) s,
                [Sent Download])
           | Some (OddRowsDoc r) =>
               (Some true, set_search_results (Some (OddRowsDoc r)) s,
                [Sent Download])
           | Some NullDoc =>
               (Some false, set_search_results (python_value NullDoc) s,
                [Sent Download; Logged DownloadUnparseable])
           | Some (NoRowsDoc e) =>
               (Some false, set_search_results (Some (NoRowsDoc e)) s,
                [Sent Download; Logged DownloadUnparseable])
           end
  end.

(** One turn of the polling loop as the outside world plays it. *)
Record poll_step : Type := mk_poll_step {
  cancel_called : bool;      (* [cancel] was called before the loop test *)
  status_reply : http_reply; (* the answer to the status request *)
  clock_after : instant      (* [now()] on line 239 or 243 *)
}.

(** Everything outside the object during one call of [query]. *)
Record world : Type := mk_world {
  clock_entry : instant;          (* [now()] on line 220 *)
  login_reply : http_reply;
  submit_reply : http_reply;
  clock_polling : instant;        (* [now()] on line 230 *)
  polls : list poll_step;
  cancel_after_polling : bool;    (* [cancel] called before line 250 *)
  download_reply : http_reply
}.

(** How the loop of lines 233-247 ends. *)
Inductive loop_end : Type :=
| LoopLeft            (* the loop test failed or [break] was reached *)
| LoopReturned (b : bool).

(** The loop of lines 233-247. [None]: the script of the world ended
    while the loop was still running. *)
Fixpoint poll (timeout_date : instant) (query : pystr) (s : session)
    (steps : list poll_step) : option (loop_end * session * list event) :=
  match steps with
  | [] => if query_cancelled s then Some (LoopLeft, s, []) else None
  | st :: rest =>
      let s := cancel_if (cancel_called st) s in
      if query_cancelled s then Some (LoopLeft, s, [])
      else
        let '(job_completed, tr) := is_job_completed (status_reply st) in
        match job_completed with
        | None => Some (LoopReturned false, s, tr)
        | Some true =>
            Some (LoopLeft, set_query_end_time (clock_after st) s, tr)
        | Some false =>
            if (timeout_date <? clock_after st)%Z then
              Some (LoopReturned false, s, tr ++ [Logged (QueryTimedOut query)])
            else
              match poll timeout_date query s rest with
              | Some (e, s', tr') => Some (e, s', tr ++ tr')
              | None => None
              end
        end
  end.

(** The outcome of a call: what it returned or raised, the object
    afterwards, and what it sent and logged. *)
Record outcome : Type := mk_outcome {
  returned : result bool;
  final : session;
  trace : list event
}.

(** Line 220: [datetime.datetime.now() + create_timedelta(...)]. *)
Definition timeout_date (s : session) (w : world) : result instant :=
  let* td := create_timedelta (query_timeout s) in
  instant_add (clock_entry w) td.

(** [query] (lines 217-254). [None]: the script of the world is too short
    for the run. *)
Definition query (s : session) (w : world) (text : pystr) : option outcome :=
  match timeout_date s w with
  | Raise e => Some (mk_outcome (Raise e) s [])
  | Ok timeout_date =>
      let '(ok, s, tr1) := authenticate s (login_reply w) in
      if negb ok then Some (mk_outcome (Ok false) s tr1)
      else
        let '(ok, s, tr2) := execute_query s (submit_reply w) text in
        if negb ok then Some (mk_outcome (Ok false) s (tr1 ++ tr2))
        else
          let s := set_query_start_time (clock_polling w) s in
          match poll timeout_date text s (polls w) with
          | None => None
          | Some (LoopReturned b, s, tr3) =>
              Some (mk_outcome (Ok b) s (tr1 ++ tr2 ++ tr3))
          | Some (LoopLeft, s, tr3) =>
              let s := cancel_if (cancel_after_polling w) s in
              if negb (query_cancelled s) then
                let '(_, s, tr4) := download_search_results s (download_reply w) in
                Some (mk_outcome (Ok true) s (tr1 ++ tr2 ++ tr3 ++ tr4))
              else Some (mk_outcome (Ok true) s (tr1 ++ tr2 ++ tr3))
          end
  end.

(** [query_with_time] (lines 169-191) and [query_with_index_time]
    (lines 193-215). *)
Definition query_with_time (debug : bool) (s : session) (w : world)
    (text : pystr) (time_start time_end : option datetime) : option outcome :=
  match query_with_time_text debug text time_start time_end with
  | Raise e => Some (mk_outcome (Raise e) s [])
  | Ok q => query s w q
  end.

Definition query_with_index_time (debug : bool) (s : session) (w : world)
    (text : pystr) (time_start time_end : option datetime) : option outcome :=
  match query_with_index_time_text debug text time_start time_end with
  | Raise e => Some (mk_outcome (Raise e) s [])
  | Ok q => query s w q
  end.

(** [json] (lines 408-420). *)

(** The inner loop of lines 416-417: [obj[fields[index]] = row[index]] for
    the indices of [fields]; a row that is too short raises. *)
Definition record_of_row (fields : list string) (row : list V)
    : result (gmap string V) :=
  foldl (fun acc index =>
           let* obj := acc in
           match fields !! index, row !! index with
           | Some f, Some v => Ok (<[f := v]> obj)
           | _, _ => Raise IndexError
           end)
        (Ok ∅) (seq 0 (length fields)).

Fixpoint records_of_rows (fields : list string) (rows : list (list V))
    : result (list (gmap string V)) :=
  match rows with
  | [] => Ok []
  | row :: rest =>
      let* obj := record_of_row fields row in
      let* result := records_of_rows fields rest in
      Ok (obj :: result)
  end.

(** [Ok None] is the [None] the source returns when nothing is stored. *)
Definition json (s : session) : result (option (list (gmap string V))) :=
  match search_results s with
  | None | Some NullDoc => Ok None
  | Some (RowsDoc p) =>
      let* result := records_of_rows (fields p) (rows p) in
      Ok (Some result)
  | Some (RowsOnlyDoc []) => Ok (Some [])
  | Some (RowsOnlyDoc (_ :: _)) => Raise KeyError
  | Some (NoRowsDoc e) => Raise e
  | Some (OddRowsDoc r) =>
      let* result := r in
      Ok (Some result)
  end.

End Lifecycle.

Arguments payload : clear implicits.
Arguments json_doc : clear implicits.
Arguments session : clear implicits.
Arguments outcome : clear implicits.

(** ** [extract_event_timestamp] (lines 45-78) *)

(** The legacy pattern of lines 66-69,
    [^(\d{4})-(\d{2})-(\d{2})T(\d{2}):(\d{2}):(\d{2})\.\d{3}[-+]\d{2}:\d{2}$]
    with [\d] written [[0-9]]; the result is the six groups. *)
Module Legacy.

(** [n] digits at the head of the text: the digits and what follows. *)
Fixpoint take_digits (n : nat) (s : pystr) : option (pystr * pystr) :=
  match n with
  | O => Some ([], s)
  | S n' =>
      match s with
      | c :: r =>
          if PyInt.is_digit c then
            match take_digits n' r with
            | Some (ds, rest) => Some (c :: ds, rest)
            | None => None
            end
          else None
      | [] => None
      end
  end.

(** One character of a set at the head of the text. *)
Definition take_char (set : pystr) (s : pystr) : option pystr :=
  match s with
  | c :: r => if existsb (Ascii.eqb c) set then Some r else None
  | [] => None
  end.

(** [$] without [re.M]: the end of the text, or just before a final
    newline. *)
Definition at_end (s : pystr) : bool :=
  match s with
  | [] => true
  | [c] => Ascii.eqb c (ascii_of_nat 10)
  | _ => false
  end.

Definition groups (s : pystr) : option (list pystr) :=
  '(g1, s) ← take_digits 4 s;
  s ← take_char (str "-") s;
  '(g2, s) ← take_digits 2 s;
  s ← take_char (str "-") s;
  '(g3, s) ← take_digits 2 s;
  s ← take_char (str "T") s;
  '(g4, s) ← take_digits 2 s;
  s ← take_char (str ":") s;
  '(g5, s) ← take_digits 2 s;
  s ← take_char (str ":") s;
  '(g6, s) ← take_digits 2 s;
  s ← take_char (str ".") s;
  '(_, s) ← take_digits 3 s;
  s ← take_char (str "-+") s;
  '(_, s) ← take_digits 2 s;
  s ← take_char (str ":") s;
  '(_, s) ← take_digits 2 s;
  if at_end s then Some [g1; g2; g3; g4; g5; g6] else None.

(** ["{0}-{1}-{2} {3}:{4}:{5}".format(...)] of the six groups. *)
Definition reformat (g : list pystr) : pystr :=
  match g with
  | [g1; g2; g3; g4; g5; g6] =>
      g1 ++ str "-" ++ g2 ++ str "-" ++ g3 ++ str " " ++ g4 ++ str ":"
      ++ g5 ++ str ":" ++ g6
  | _ => []
  end.

End Legacy.

Inductive timestamp_log : Type :=
| WarnMissingTime
| ErrorUnknownZone (name : pystr)
| ErrorTimeFormat (text : pystr).

Section Timestamp.

(** [datetime.tzinfo] objects. *)
Variable tzinfo : Type.

(** A [datetime] value together with its [tzinfo] attribute. *)
Record stamp : Type := mk_stamp {
  fields_of : datetime;
  tz_of : option tzinfo
}.

(** [d.replace(tzinfo=tz)]. *)
Definition replace_tzinfo (d : stamp) (tz : tzinfo) : stamp :=
  mk_stamp (fields_of d) (Some tz).

(** What [ZoneInfo(name)] does. *)
Inductive zone_lookup : Type :=
| ZoneFound (tz : tzinfo)
| ZoneNotFound               (* [ZoneInfoNotFoundError] *)
| ZoneRaises (e : exn).      (* any other exception, e.g. a malformed key *)

(** What [dateutil.parser.parse(text)] does. *)
Inductive parse_result : Type :=
| Parsed (d : stamp)
| ParsedOther                (* a value that is not a [datetime] *)
| ParseRaises (e : exn).

Variable ZoneInfo : pystr -> zone_lookup.
Variable LOCAL_TIMEZONE : tzinfo.
(** The reading [local_time()] returns during the call. *)
Variable local_time : stamp.
Variable parse : pystr -> parse_result.
(** [d.astimezone(tz)] of an aware [d]. *)
Variable astimezone : stamp -> tzinfo -> stamp.
(** [datetime.datetime.strptime(text, "%Y-%m-%d %H:%M:%S")]. *)
Variable strptime : pystr -> result datetime.

(** The result and the log records of the call. [timezone] is [Some name]
    when the argument is a [str]. *)
Definition extract_event_timestamp (event : gmap string pystr)
    (timezone : option pystr) : result stamp * list timestamp_log :=
  match event !! "_time"%string with
  | None => (Ok local_time, [WarnMissingTime])
  | Some time_text =>
      let resolved :=
        match timezone with
        | Some name =>
            match ZoneInfo name with
            | ZoneFound tz => (Ok tz, [])
            | ZoneNotFound => (Ok LOCAL_TIMEZONE, [ErrorUnknownZone name])
            | ZoneRaises e => (Raise e, [])
            end
        | None => (Ok LOCAL_TIMEZONE, [])
        end in
      match resolved with
      | (Raise e, log) => (Raise e, log)
      | (Ok tz, log) =>
          match parse time_text with
          | ParseRaises e => (Raise e, log)
          | Parsed event_time =>
              match tz_of event_time with
              | None => (Ok (replace_tzinfo event_time tz), log)
              | Some _ => (Ok (astimezone event_time tz), log)
              end
          | ParsedOther =>
              match Legacy.groups time_text with
              | None => (Ok local_time, log ++ [ErrorTimeFormat time_text])
              | Some g =>
                  match strptime (Legacy.reformat g) with
                  | Ok d => (Ok (mk_stamp d (Some tz)), log)
                  | Raise e => (Raise e, log)
                  end
              end
          end
      end
  end.

End Timestamp.

(** ** Notions used to state the properties *)

(** The text that follows the leading keyword once the keyword is there:
    what follows it in a query that has it, and a space and the whole
    query otherwise. *)
Definition after_search (query : pystr) : pystr :=
  if starts_with_search query then skipn (length SEARCH) (PyStr.lstrip query)
  else str " " ++ query.

(** [a] occurs in [s] and its first occurrence is before the first
    occurrence of [b]. *)
Definition appears_before (a b s : pystr) : Prop :=
  exists i j, PyStr.find a s = Some i /\ PyStr.find b s = Some j /\ i < j.

(** The fields of a [datetime] are within the ranges of the library. *)
Definition fields_in_range (d : datetime) : Prop :=
  (1 <= Z.of_nat (year d) <= 9999)%Z
  /\ 1 <= month d <= 12 /\ 1 <= day d <= 31
  /\ hour d <= 23 /\ minute d <= 59 /\ second d <= 59.

(** The text MM/DD/YYYY:HH:MM:SS of a [datetime]: two digits for the
    month, the day, the hour, the minute and the second, four for the
    year. *)
Definition two_digits (n : nat) : pystr := [digit_char (n / 10); digit_char n].

Definition four_digits (n : nat) : pystr :=
  [digit_char (n / 1000); digit_char (n / 100); digit_char (n / 10);
   digit_char n].

Definition mm_dd_yyyy_hh_mm_ss (d : datetime) : pystr :=
  two_digits (month d) ++ str "/" ++ two_digits (day d) ++ str "/"
  ++ four_digits (year d) ++ str ":" ++ two_digits (hour d) ++ str ":"
  ++ two_digits (minute d) ++ str ":" ++ two_digits (second d).

(** The words of the claim on the prefix, without the functions of the
    source: white space is one of the characters Python strips, and a
    spelling of the keyword has each letter of [search] in either case. *)
Definition WHITESPACE_CODES : list nat :=
  [9; 10; 11; 12; 13; 28; 29; 30; 31; 32; 133; 160].

Definition is_white (c : ascii) : Prop := In (nat_of_ascii c) WHITESPACE_CODES.

Definition either_case (lower upper : string) (c : ascii) : Prop :=
  [c] = str lower \/ [c] = str upper.

Definition spells_search (kw : pystr) : Prop :=
  exists c1 c2 c3 c4 c5 c6,
    kw = [c1; c2; c3; c4; c5; c6]
    /\ either_case "s" "S" c1 /\ either_case "e" "E" c2
    /\ either_case "a" "A" c3 /\ either_case "r" "R" c4
    /\ either_case "c" "C" c5 /\ either_case "h" "H" c6.

(** The query, after its leading white space, begins with the keyword in
    some spelling; [rest] is what follows the keyword. *)
Definition begins_with_search (query rest : pystr) : Prop :=
  exists ws kw, query = ws ++ kw ++ rest
                /\ Forall is_white ws /\ spells_search kw.

(** The search strings of the job submissions in a trace. *)
Definition submitted (tr : list event) : list pystr :=
  flat_map (fun ev => match ev with
                      | Sent (Submit q) => [q]
                      | _ => []
                      end) tr.

(** Up to four values read from the right as seconds, minutes, hours and
    days, the missing leading ones being zero: (days, hours, minutes,
    seconds). *)
Definition dhms (values : list Z) : option (Z * Z * Z * Z) :=
  match values with
  | [s] => Some (0, 0, 0, s)
  | [m; s] => Some (0, 0, m, s)
  | [h; m; s] => Some (0, h, m, s)
  | [d; h; m; s] => Some (d, h, m, s)
  | _ => None
  end%Z.

(** The number of events of a kind in a trace. *)
Definition count (kind : event -> bool) (tr : list event) : nat :=
  length (List.filter kind tr).

Definition is_status (ev : event) : bool :=
  match ev with Sent Status => true | _ => false end.

Definition is_download (ev : event) : bool :=
  match ev with Sent Download => true | _ => false end.

Definition status_checks (tr : list event) : nat := count is_status tr.
Definition downloads (tr : list event) : nat := count is_download tr.

(** The status reply says the job is running, or done. *)
Definition reports_running (reply : http_reply) : Prop :=
  exists text, reply = Reply 200 text /\ search_isDone text = Some "0"%char.

Definition reports_done (reply : http_reply) : Prop :=
  exists text, reply = Reply 200 text /\ search_isDone text = Some "1"%char.

(** The status request is answered with another code than 200, or not
    answered at all. *)
Definition status_rejected (reply : http_reply) : Prop :=
  match reply with
  | Reply code _ => code <> 200%Z
  | TransportError => True
  end.

(** A turn of the loop after which the loop goes on: no cancellation, a
    status result of [False], and the deadline not passed. *)
Definition goes_on (t : instant) (st : poll_step) : Prop :=
  cancel_called st = false
  /\ (is_job_completed (status_reply st)).1 = Some false
  /\ (clock_after st <= t)%Z.

(** A turn of the loop in which a running job is seen before the
    deadline. *)
Definition runs_on (t : instant) (st : poll_step) : Prop :=
  cancel_called st = false
  /\ reports_running (status_reply st)
  /\ (clock_after st <= t)%Z.

(** What the turns after which the loop goes on add to the trace. *)
Definition turns_trace (pre : list poll_step) : list event :=
  flat_map (fun st => (is_job_completed (status_reply st)).2) pre.

Section Accepted.

Context {V : Type}.
Variable xml_find_text : pystr -> pystr -> option (option pystr).
Variable json_loads : pystr -> option (json_doc V).

(** The login is answered 200 with a session key. *)
Definition login_accepted (w : world) (key : option pystr) : Prop :=
  exists text, login_reply w = Reply 200 text
               /\ xml_find_text (str "sessionKey") text = Some key.

(** The submission is answered 201 with a search id. *)
Definition submit_accepted (w : world) (sid : option pystr) : Prop :=
  exists text, submit_reply w = Reply 201 text
               /\ xml_find_text (str "sid") text = Some sid.

(** The download is answered with another code than 200, or with a body
    that [json.loads] rejects. *)
Definition download_fails (w : world) : Prop :=
  exists code text, download_reply w = Reply code text
                    /\ (code <> 200%Z \/ json_loads text = None).

End Accepted.

(** The object when polling begins, after a login that gave [key] and a
    submission that gave [sid]. *)
Definition polling_session {V : Type} (key sid : option pystr) (w : world)
    (s : session V) : session V :=
  set_query_start_time (clock_polling w)
    (set_search_id sid (set_session_key key s)).

(** The status of the job is never reported done within [window]
    microseconds of the beginning of polling. *)
Definition never_done_within (window : Z) (w : world) : Prop :=
  forall st, In st (polls w) ->
    (clock_after st <= clock_polling w + window)%Z ->
    reports_running (status_reply st).

(** The assignment [obj[f] = v] of line 417. *)
Definition assign {V : Type} (obj : gmap string V) (fv : string * V)
    : gmap string V :=
  <[fv.1 := fv.2]> obj.

(** ** A sample service *)

Definition quoted (s : string) : pystr := [dquote] ++ str s ++ [dquote].

Definition LOGIN_BODY : pystr :=
  str "<response><sessionKey>k3y</sessionKey></response>".

Definition SUBMIT_BODY : pystr :=
  str "<response><sid>1704067200.42</sid></response>".

Definition RUNNING_BODY : pystr :=
  str "<entry><content><s:dict>" ++ ISDONE_OPEN ++ str "0" ++ ISDONE_CLOSE
  ++ str "</s:dict></content></entry>".

Definition DONE_BODY : pystr :=
  str "<entry><content><s:dict>" ++ ISDONE_OPEN ++ str "1" ++ ISDONE_CLOSE
  ++ str "</s:dict></content></entry>".

(** The body [{"fields":["a","b"],"rows":[["1","x"],["2","y"]]}]. *)
Definition ROWS_BODY : pystr :=
  str "{" ++ quoted "fields" ++ str ":[" ++ quoted "a" ++ str ","
  ++ quoted "b" ++ str "]," ++ quoted "rows" ++ str ":[[" ++ quoted "1"
  ++ str "," ++ quoted "x" ++ str "],[" ++ quoted "2" ++ str ","
  ++ quoted "y" ++ str "]]}".

Definition sample_payload : payload pystr :=
  mk_payload ["a"; "b"]%string [[str "1"; str "x"]; [str "2"; str "y"]].

(** The two library functions on the bodies above; every other text used
    with them below is neither XML nor JSON. *)
Definition sample_xml (tag text : pystr) : option (option pystr) :=
  if bool_decide (tag = str "sessionKey" /\ text = LOGIN_BODY)
  then Some (Some (str "k3y"))
  else if bool_decide (tag = str "sid" /\ text = SUBMIT_BODY)
  then Some (Some (str "1704067200.42"))
  else None.

Definition sample_json (text : pystr) : option (json_doc pystr) :=
  if bool_decide (text = ROWS_BODY) then Some (RowsDoc sample_payload)
  else None.

(** The object after [__init__] with the given [query_timeout]. *)
Definition new_session (timeout : pystr) : session pystr :=
  mk_session timeout None None None None None false.

(** 2024-01-01T00:00:00 and a number of seconds, in microseconds. *)
Definition T0 : instant := (738885 * 86400 * 1000000)%Z.
Definition sec (n : Z) : Z := (n * 1000000)%Z.

Definition sample_world (steps : list poll_step) (download : http_reply)
    : world :=
  mk_world T0 (Reply 200 LOGIN_BODY) (Reply 201 SUBMIT_BODY) T0 steps false
    download.

(** A session that holds the given payload. *)
Definition session_with (p : payload pystr) : session pystr :=
  set_search_results (Some (RowsDoc p)) (new_session (str "00:30:00")).

(** One status check says running, the job is done at the next one, and
    the download is answered 503. *)
Definition world_download_503 : world :=
  sample_world
    [mk_poll_step false (Reply 200 RUNNING_BODY) (T0 + sec 1)%Z;
     mk_poll_step false (Reply 200 DONE_BODY) (T0 + sec 2)%Z]
    (Reply 503 (str "Service Unavailable")).

(** The same, the download being answered 200 with a body that is not
    JSON. *)
Definition world_download_not_json : world :=
  sample_world
    [mk_poll_step false (Reply 200 RUNNING_BODY) (T0 + sec 1)%Z;
     mk_poll_step false (Reply 200 DONE_BODY) (T0 + sec 2)%Z]
    (Reply 200 (str "<html>proxy error</html>")).

(** The first status body has no [isDone] key; the second says done. *)
Definition world_status_unparsed : world :=
  sample_world
    [mk_poll_step false (Reply 200 (str "<html>busy</html>")) (T0 + sec 1)%Z;
     mk_poll_step false (Reply 200 DONE_BODY) (T0 + sec 2)%Z]
    (Reply 200 ROWS_BODY).

(** A status check that finds the job running, read [n] seconds after
    the call of [query]. *)
Definition running_at (n : Z) : poll_step :=
  mk_poll_step false (Reply 200 RUNNING_BODY) (T0 + sec n)%Z.

Definition done_at (n : Z) : poll_step :=
  mk_poll_step false (Reply 200 DONE_BODY) (T0 + sec n)%Z.

Definition ten_seconds_running : list poll_step :=
  map running_at [1; 2; 3; 4; 5; 6; 7; 8; 9; 10]%Z.

(** With a timeout of ten seconds: the job is running at each of the ten
    checks of the first ten seconds and is reported done at the eleventh
    second. *)
Definition world_done_late : world :=
  sample_world (ten_seconds_running ++ [done_at 11]) (Reply 200 ROWS_BODY).

(** With a timeout of ten seconds: the job is still running at the
    eleventh second. *)
Definition world_never_done : world :=
  sample_world (ten_seconds_running ++ [running_at 11; running_at 12])
    (Reply 200 ROWS_BODY).

(** The second status request is answered 500. *)
Definition status_500_at (n : Z) : poll_step :=
  mk_poll_step false (Reply 500 (str "Internal Server Error")) (T0 + sec n)%Z.

Definition world_status_500 : world :=
  sample_world [running_at 1; status_500_at 2; done_at 3]
    (Reply 200 ROWS_BODY).

(** [cancel] is called before the first turn of the loop. *)
Definition world_cancelled_at_once : world :=
  sample_world [mk_poll_step true (Reply 200 DONE_BODY) (T0 + sec 1)%Z]
    (Reply 200 ROWS_BODY).

(** The job is running at the first check and [cancel] is called before
    the second. *)
Definition world_cancelled : world :=
  sample_world
    [mk_poll_step false (Reply 200 RUNNING_BODY) (T0 + sec 1)%Z;
     mk_poll_step true (Reply 200 RUNNING_BODY) (T0 + sec 2)%Z]
    (Reply 200 ROWS_BODY).

(** ** A sample of the collaborators of [extract_event_timestamp] *)

(** Zones of a fixed offset from UTC, in minutes. *)
Definition sample_zone : Type := Z.

Definition sample_ZoneInfo (name : pystr) : zone_lookup sample_zone :=
  if bool_decide (name = str "UTC") then ZoneFound sample_zone 0%Z
  else ZoneNotFound sample_zone.

(** The sample host runs in UTC. *)
Definition sample_LOCAL_TIMEZONE : sample_zone := 0%Z.

Definition sample_local_time : stamp sample_zone :=
  mk_stamp sample_zone (mk_datetime 2024 6 1 12 0 0)
    (Some sample_LOCAL_TIMEZONE).

Definition TIME_10H : pystr := str "2024-01-01T10:00:00.000+00:00".

Definition stamp_10h_utc : stamp sample_zone :=
  mk_stamp sample_zone (mk_datetime 2024 1 1 10 0 0) (Some 0%Z).

(** The parser on the one date of the examples; every other text used
    with it below is not a date, on which the parser raises. *)
Definition sample_parse (text : pystr) : parse_result sample_zone :=
  if bool_decide (text = TIME_10H) then Parsed sample_zone stamp_10h_utc
  else ParseRaises sample_zone ParserError.

(** A parser that returns something else than a [datetime]. *)
Definition other_parse (text : pystr) : parse_result sample_zone :=
  ParsedOther sample_zone.

(** The conversion between two zones of the same offset, which is all the
    examples convert. *)
Definition sample_astimezone (d : stamp sample_zone) (tz : sample_zone)
    : stamp sample_zone :=
  mk_stamp sample_zone (fields_of sample_zone d) (Some tz).

Definition sample_strptime (text : pystr) : result datetime :=
  if bool_decide (text = str "2024-01-01 10:00:00")
  then Ok (mk_datetime 2024 1 1 10 0 0) else Raise ValueError.

(** [json.loads] on the bodies of the sample service, on the empty
    object, which has no rows, and on [null]. *)
Definition sample_json_objects (text : pystr) : option (json_doc pystr) :=
  if bool_decide (text = str "{}") then Some (NoRowsDoc KeyError)
  else if bool_decide (text = str "null") then Some NullDoc
  else sample_json text.

(** [ZoneInfo] also refuses a key that is an absolute path, with
    [ValueError]. *)
Definition strict_ZoneInfo (name : pystr) : zone_lookup sample_zone :=
  if bool_decide (name = str "/etc/localtime")
  then ZoneRaises sample_zone ValueError else sample_ZoneInfo name.

(** ** Calendar arithmetic of [datetime] *)

(** The proleptic Gregorian calendar of the library, on whole seconds:
    [date.toordinal], [date.fromordinal] and the sum of a [datetime] and a
    [timedelta]. *)
Module Calendar.

Local Open Scope Z_scope.

Definition is_leap (y : Z) : bool :=
  (y mod 4 =? 0) && (negb (y mod 100 =? 0) || (y mod 400 =? 0)).

Definition days_before_year (y : Z) : Z :=
  let y := y - 1 in y * 365 + y / 4 - y / 100 + y / 400.

Definition DAYS_IN_MONTH : list Z :=
  [0; 31; 28; 31; 30; 31; 30; 31; 31; 30; 31; 30; 31].

Definition DAYS_BEFORE_MONTH : list Z :=
  [0; 0; 31; 59; 90; 120; 151; 181; 212; 243; 273; 304; 334].

Definition days_in_month (y m : Z) : Z :=
  if (m =? 2) && is_leap y then 29 else nth (Z.to_nat m) DAYS_IN_MONTH 0.

Definition days_before_month (y m : Z) : Z :=
  nth (Z.to_nat m) DAYS_BEFORE_MONTH 0
  + (if (2 <? m) && is_leap y then 1 else 0).

(** [_ymd2ord]: 0001-01-01 is day 1. *)
Definition ymd2ord (y m d : Z) : Z :=
  days_before_year y + days_before_month y m + d.

(** [_ord2ymd]. *)
Definition ord2ymd (n : Z) : Z * Z * Z :=
  let n := n - 1 in
  let n400 := n / 146097 in
  let n := n mod 146097 in
  let n100 := n / 36524 in
  let n := n mod 36524 in
  let n4 := n / 1461 in
  let n := n mod 1461 in
  let n1 := n / 365 in
  let n := n mod 365 in
  let y := n400 * 400 + 1 + n100 * 100 + n4 * 4 + n1 in
  if (n1 =? 4) || (n100 =? 4) then (y - 1, 12, 31)
  else
    let leapyear := (n1 =? 3) && (negb (n4 =? 24) || (n100 =? 3)) in
    let m := (n + 50) / 32 in
    let preceding :=
      nth (Z.to_nat m) DAYS_BEFORE_MONTH 0
      + (if (2 <? m) && leapyear then 1 else 0) in
    if n <? preceding then
      let m := m - 1 in
      let preceding :=
        preceding - (nth (Z.to_nat m) DAYS_IN_MONTH 0
                     + (if (m =? 2) && leapyear then 1 else 0)) in
      (y, m, n - preceding + 1)
    else (y, m, n - preceding + 1).

Definition MAXORDINAL : Z := 3652059.

(** The seconds of a [datetime] since the midnight before 0001-01-01. *)
Definition to_seconds (d : datetime) : Z :=
  ymd2ord (Z.of_nat (year d)) (Z.of_nat (month d)) (Z.of_nat (day d)) * 86400
  + Z.of_nat (hour d) * 3600 + Z.of_nat (minute d) * 60 + Z.of_nat (second d).

(** The [datetime] of a number of seconds; outside the years 1-9999 the
    library raises [OverflowError]. *)
Definition of_seconds (total : Z) : result datetime :=
  let days := total / 86400 in
  let rest := total mod 86400 in
  if (0 <? days) && (days <=? MAXORDINAL) then
    let (ym, d) := ord2ymd days in
    let (y, m) := ym in
    Ok (mk_datetime (Z.to_nat y) (Z.to_nat m) (Z.to_nat d)
          (Z.to_nat (rest / 3600)) (Z.to_nat (rest mod 3600 / 60))
          (Z.to_nat (rest mod 60)))
  else Raise OverflowError.

(** [d + td] and [d - td] for a [td] of whole seconds. *)
Definition add (d : datetime) (td : timedelta) : result datetime :=
  of_seconds (to_seconds d + total_seconds td).

Definition sub (d : datetime) (td : timedelta) : result datetime :=
  of_seconds (to_seconds d - total_seconds td).

End Calendar.

(** ** [query_relative] (lines 148-167) *)

(** The attributes [relative_duration_before] and
    [relative_duration_after] of the object (lines 109-110). *)
Record relative_defaults : Type := mk_relative_defaults {
  relative_duration_before : pystr;
  relative_duration_after : pystr
}.

(** The defaults of [__init__]. *)
Definition default_relative : relative_defaults :=
  mk_relative_defaults (str "00:00:15") (str "00:00:05").

(** Lines 154-166: the two bounds. [now] is the reading of
    [datetime.datetime.now()] on line 156. *)
Definition relative_bounds (defaults : relative_defaults) (now : datetime)
    (event_time : option datetime) (before after : option pystr)
    : result (datetime * datetime) :=
  let event_time := default now event_time in
  let before := default (relative_duration_before defaults) before in
  let after := default (relative_duration_after defaults) after in
  let* td_before := create_timedelta before in
  let* time_start := Calendar.sub event_time td_before in
  let* td_after := create_timedelta after in
  let* time_end := Calendar.add event_time td_after in
  Ok (time_start, time_end).

Section Relative.

Context {V : Type}.
Variable xml_find_text : pystr -> pystr -> option (option pystr).
Variable json_loads : pystr -> option (json_doc V).

Definition query_relative (debug : bool) (defaults : relative_defaults)
    (now : datetime) (s : session V) (w : world) (text : pystr)
    (event_time : option datetime) (before after : option pystr)
    : option (outcome V) :=
  match relative_bounds defaults now event_time before after with
  | Raise e => Some (mk_outcome (Raise e) s [])
  | Ok (time_start, time_end) =>
      query_with_time xml_find_text json_loads debug s w text
        (Some time_start) (Some time_end)
  end.

End Relative.

(** The components [create_timedelta] reads: the last four at most, the
    last one first. *)
Definition used_components (timespec : pystr) : list pystr :=
  take 4 (rev (PyStr.split ":"%char timespec)).

(** The number of requests in a trace. *)
Definition is_request (ev : event) : bool :=
  match ev with Sent _ => true | Logged _ => false end.

Definition requests (tr : list event) : nat := count is_request tr.

(** The text has the status key with the digit [d] somewhere. *)
Definition has_isDone (d : ascii) (text : pystr) : Prop :=
  exists pre post, text = pre ++ ISDONE_OPEN ++ d :: ISDONE_CLOSE ++ post.

(** A text of the legacy shape
    [YYYY-MM-DDTHH:MM:SS.mmm+HH:MM] made of the given digit groups. *)
Definition legacy_text (Y M D h m s f : pystr) (sign : ascii) (oh om : pystr)
    : pystr :=
  Y ++ str "-" ++ M ++ str "-" ++ D ++ str "T" ++ h ++ str ":" ++ m
  ++ str ":" ++ s ++ str "." ++ f ++ sign :: oh ++ str ":" ++ om.

Definition digits_of (n : nat) (ds : pystr) : Prop :=
  length ds = n /\ Forall (fun c => PyInt.is_digit c = true) ds.

(** * Properties *)

(** ** Strings *)

Lemma startswith_app (p s : pystr) : PyStr.startswith p (p ++ s) = true.
Proof.
  induction p as [|a p IH]; simpl; [reflexivity|].
  rewrite Ascii.eqb_refl. exact IH.
Qed.

Lemma find_here (p s : pystr) : PyStr.find p (p ++ s) = Some 0.
Proof.
  destruct p; simpl; [destruct s; reflexivity|].
  rewrite Ascii.eqb_refl, startswith_app. reflexivity.
Qed.

Lemma find_later (p : pystr) (c : ascii) (s : pystr) :
  PyStr.startswith p (c :: s) = false ->
  PyStr.find p (c :: s) = option_map S (PyStr.find p s).
Proof.
  intros H. change (PyStr.find p (c :: s)) with
    (if PyStr.startswith p (c :: s) then Some 0
     else option_map S (PyStr.find p s)).
  rewrite H. reflexivity.
Qed.

Lemma imatch_startswith (p s : pystr) :
  imatch p s =
  if PyStr.startswith p (PyStr.lower s) then Some (skipn (length p) s)
  else None.
Proof.
  revert s. induction p as [|a p IH]; intros s; [reflexivity|].
  destruct s as [|c s]; [reflexivity|]. simpl. unfold ieq.
  destruct (Ascii.eqb a (PyStr.lower_char c)); [apply IH|reflexivity].
Qed.

(** The guard of the source and its pattern agree on every query. *)
Lemma match_search_guard (query : pystr) :
  match_search query =
  if starts_with_search query
  then Some (skipn (length SEARCH) (PyStr.lstrip query)) else None.
Proof. unfold match_search, starts_with_search. apply imatch_startswith. Qed.

Lemma match_search_keyword (x : pystr) :
  match_search (str "search " ++ x) = Some (str " " ++ x).
Proof. reflexivity. Qed.

Lemma starts_with_search_keyword (x : pystr) :
  starts_with_search (str "search " ++ x) = true.
Proof. reflexivity. Qed.

Lemma starts_with_search_added (query : pystr) :
  starts_with_search (add_missing_search query) = true.
Proof.
  unfold add_missing_search.
  destruct (starts_with_search query) eqn:E; simpl; [exact E|reflexivity].
Qed.

Lemma match_search_added (query : pystr) :
  match_search (add_missing_search query) = Some (after_search query).
Proof.
  unfold add_missing_search, after_search.
  destruct (starts_with_search query) eqn:E; simpl.
  - rewrite match_search_guard, E. reflexivity.
  - reflexivity.
Qed.

Lemma sub_search_keyword (repl x : pystr) :
  sub_search repl (str "search " ++ x) = repl ++ str " " ++ x.
Proof. reflexivity. Qed.

(** The query built from two bounds, for either pair of keywords. *)
Lemma bounded_query_both (latest earliest : pystr) (debug : bool)
    (query : pystr) (s e : datetime) :
  bounded_query latest earliest debug query (Some s) (Some e)
  = Ok (str "search " ++ earliest ++ strftime_splunk s ++ str " "
        ++ latest ++ strftime_splunk e ++ after_search query).
Proof.
  unfold bounded_query. cbv [assert_datetime bind].
  unfold sub_search at 2. rewrite match_search_added.
  rewrite <- !app_assoc. rewrite sub_search_keyword.
  rewrite <- !app_assoc. reflexivity.
Qed.

Lemma startswith_miss (a c : ascii) (p s : pystr) :
  Ascii.eqb a c = false -> PyStr.startswith (a :: p) (c :: s) = false.
Proof. intros H. simpl. rewrite H. reflexivity. Qed.

Lemma digit_char_cases (n : nat) :
  exists k, k < 10 /\ digit_char n = ascii_of_nat (48 + k).
Proof.
  exists (n mod 10). split; [|reflexivity].
  apply Nat.mod_upper_bound. discriminate.
Qed.

(** A digit is neither of the letters that start the two keywords. *)
Lemma digit_char_not_letter (a : ascii) (n : nat) :
  a = "l"%char \/ a = "e"%char -> Ascii.eqb a (digit_char n) = false.
Proof.
  intros Ha. destruct (digit_char_cases n) as (k & Hk & ->).
  do 10 (destruct k as [|k]; [destruct Ha as [-> | ->]; reflexivity|]).
  lia.
Qed.

(** *** The decimal digits *)

Lemma decimal_fuel_acc (f n : nat) (acc : pystr) :
  decimal_fuel f n acc = decimal_fuel f n [] ++ acc.
Proof.
  revert n acc. induction f as [|f IH]; intros n acc; [reflexivity|].
  cbn [decimal_fuel]. destruct (n <? 10); [reflexivity|].
  rewrite IH, (IH _ [digit_char n]), <- app_assoc. reflexivity.
Qed.

Lemma decimal_fuel_enough (f f' n : nat) :
  n < f -> n < f' -> decimal_fuel f n [] = decimal_fuel f' n [].
Proof.
  revert f' n. induction f as [|f IH]; intros f' n Hf Hf'; [lia|].
  destruct f' as [|f']; [lia|]. cbn [decimal_fuel].
  destruct (Nat.ltb_spec n 10) as [_|Hn]; [reflexivity|].
  assert (n / 10 < n) by (apply Nat.div_lt; lia).
  rewrite (decimal_fuel_acc f), (decimal_fuel_acc f').
  rewrite (IH f' (n / 10)) by lia. reflexivity.
Qed.

Lemma decimal_small (n : nat) : n < 10 -> decimal n = [digit_char n].
Proof.
  intros H. unfold decimal. cbn [decimal_fuel].
  destruct (Nat.ltb_spec n 10); [reflexivity|lia].
Qed.

Lemma decimal_step (n : nat) :
  10 <= n -> decimal n = decimal (n / 10) ++ [digit_char n].
Proof.
  intros H. unfold decimal at 1. cbn [decimal_fuel].
  destruct (Nat.ltb_spec n 10); [lia|].
  assert (n / 10 < n) by (apply Nat.div_lt; lia).
  rewrite decimal_fuel_acc. unfold decimal.
  rewrite (decimal_fuel_enough n (S (n / 10)) (n / 10)) by lia. reflexivity.
Qed.

Lemma decimal_fuel_chars (P : ascii -> Prop) (f n : nat) (acc : pystr) :
  (forall k, P (digit_char k)) -> Forall P acc ->
  Forall P (decimal_fuel f n acc).
Proof.
  intros Hd. revert n acc. induction f as [|f IH]; intros n acc Hacc;
    [exact Hacc|].
  cbn [decimal_fuel]. destruct (n <? 10).
  - constructor; [apply Hd|exact Hacc].
  - apply IH. constructor; [apply Hd|exact Hacc].
Qed.

Lemma decimal_chars (P : ascii -> Prop) (n : nat) :
  (forall k, P (digit_char k)) -> Forall P (decimal n).
Proof. intros Hd. apply decimal_fuel_chars; [exact Hd|constructor]. Qed.

Lemma pad2_chars (P : ascii -> Prop) (n : nat) :
  (forall k, P (digit_char k)) -> Forall P (pad2 n).
Proof.
  intros Hd. unfold pad2. destruct (n <? 10).
  - constructor; [exact (Hd 0)|apply decimal_chars; exact Hd].
  - apply decimal_chars; exact Hd.
Qed.

(** Every character of a time text is a digit, a slash or a colon. *)
Lemma strftime_splunk_chars (P : ascii -> Prop) (d : datetime) :
  (forall k, P (digit_char k)) -> P "/"%char -> P ":"%char ->
  Forall P (strftime_splunk d).
Proof.
  intros Hd Hs Hc. unfold strftime_splunk.
  repeat (apply Forall_app; split);
    first [ apply pad2_chars; exact Hd
          | apply decimal_chars; exact Hd
          | repeat constructor; assumption ].
Qed.

Lemma pad2_two_digits (n : nat) : n < 100 -> pad2 n = two_digits n.
Proof.
  intros H. unfold pad2, two_digits.
  destruct (Nat.ltb_spec n 10) as [Hn|Hn].
  - rewrite decimal_small by exact Hn.
    rewrite (Nat.div_small n 10) by exact Hn. reflexivity.
  - rewrite decimal_step by exact Hn.
    rewrite decimal_small; [reflexivity|].
    apply Nat.Div0.div_lt_upper_bound. lia.
Qed.

Lemma decimal_four_digits (n : nat) :
  1000 <= n -> (Z.of_nat n <= 9999)%Z -> decimal n = four_digits n.
Proof.
  intros Hlo Hhi. unfold four_digits.
  assert (H1 : 100 <= n / 10) by (apply Nat.div_le_lower_bound; lia).
  assert (H2 : 10 <= n / 10 / 10) by (apply Nat.div_le_lower_bound; lia).
  assert (H3 : n / 10 / 10 / 10 < 10).
  { apply Nat.Div0.div_lt_upper_bound, Nat.Div0.div_lt_upper_bound,
      Nat.Div0.div_lt_upper_bound. lia. }
  rewrite (decimal_step n) by lia.
  rewrite (decimal_step (n / 10)) by lia.
  rewrite (decimal_step (n / 10 / 10)) by lia.
  rewrite (decimal_small _ H3).
  rewrite !Nat.Div0.div_div. reflexivity.
Qed.

(** For a year of four digits the time text has the fixed width of
    MM/DD/YYYY:HH:MM:SS. *)
Lemma strftime_splunk_fixed (d : datetime) :
  fields_in_range d -> 1000 <= year d ->
  strftime_splunk d = mm_dd_yyyy_hh_mm_ss d
  /\ length (strftime_splunk d) = 19.
Proof.
  intros (Hy & Hm & Hd & Hh & Hmi & Hs) Hwide.
  assert (E : strftime_splunk d = mm_dd_yyyy_hh_mm_ss d).
  { unfold strftime_splunk, mm_dd_yyyy_hh_mm_ss.
    rewrite !pad2_two_digits by lia.
    rewrite decimal_four_digits by lia. reflexivity. }
  split; [exact E|]. rewrite E. reflexivity.
Qed.

(** *** Where the clauses are in the built query *)

Ltac expose_text := cbv [str PyStr.str list_ascii_of_string app].

Ltac skip_position := rewrite find_later; [|reflexivity].

Lemma find_skip (a : ascii) (p pre r : pystr) :
  Forall (fun c => Ascii.eqb a c = false) pre ->
  PyStr.find (a :: p) (pre ++ r)
  = option_map (Nat.add (length pre)) (PyStr.find (a :: p) r).
Proof.
  induction 1 as [|c pre Hc _ IH].
  - simpl. destruct (PyStr.find (a :: p) r); reflexivity.
  - rewrite <- app_comm_cons, find_later by (apply startswith_miss; exact Hc).
    rewrite IH. destruct (PyStr.find (a :: p) r); reflexivity.
Qed.

Lemma find_earliest_after_search (q x : pystr) :
  PyStr.find (str "earliest=" ++ q) (str "search " ++ x)
  = option_map (Nat.add 7) (PyStr.find (str "earliest=" ++ q) x).
Proof.
  expose_text. do 7 skip_position.
  destruct (PyStr.find _ x); reflexivity.
Qed.

Lemma find_latest_after_earliest (q x : pystr) :
  PyStr.find (str "latest=" ++ q) (str "search " ++ str "earliest=" ++ x)
  = option_map (Nat.add 16) (PyStr.find (str "latest=" ++ q) x).
Proof.
  expose_text. do 16 skip_position.
  destruct (PyStr.find _ x); reflexivity.
Qed.

Lemma find_earliest (q tail : pystr) :
  PyStr.find (str "earliest=" ++ q)
    (str "search " ++ str "earliest=" ++ q ++ tail) = Some 7.
Proof.
  rewrite find_earliest_after_search.
  rewrite (app_assoc (str "earliest=") q tail), find_here. reflexivity.
Qed.

Lemma find_latest (s : datetime) (q tail : pystr) :
  PyStr.find (str "latest=" ++ q)
    (str "search " ++ str "earliest=" ++ strftime_splunk s ++ str " "
     ++ str "latest=" ++ q ++ tail)
  = Some (17 + length (strftime_splunk s)).
Proof.
  rewrite find_latest_after_earliest.
  rewrite (app_assoc (strftime_splunk s) (str " ")).
  change (str "latest=" ++ q) with ("l"%char :: str "atest=" ++ q) at 1.
  rewrite find_skip.
  - change ("l"%char :: str "atest=" ++ q) with (str "latest=" ++ q).
    rewrite (app_assoc (str "latest=") q tail), find_here.
    rewrite length_app. simpl. f_equal. lia.
  - apply Forall_app. split; [|repeat constructor].
    apply strftime_splunk_chars; [|reflexivity|reflexivity].
    intros k. apply digit_char_not_letter. left. reflexivity.
Qed.

(** ** Building the time-bounded query *)

Example strftime_splunk_example :
  strftime_splunk dt_2024_01_01_000010 = str "01/01/2024:00:00:10".
Proof. reflexivity. Qed.

(** A year before 1000 is written with its own digits only. *)
Example strftime_splunk_year_999 :
  strftime_splunk (mk_datetime 999 1 1 0 0 0) = str "01/01/999:00:00:00".
Proof. reflexivity. Qed.

Example query_with_time_text_example :
  query_with_time_text true (str "index=main")
    (Some dt_2024_01_01_000000) (Some dt_2024_01_01_000010)
  = Ok (str "search earliest=01/01/2024:00:00:00 latest=01/01/2024:00:00:10 index=main").
Proof. reflexivity. Qed.

(** C1, as stated, fails on the dates of the specification: the built
    query has [earliest=] at index 7 and [latest=] at index 36, so
    [latest=] does not appear before [earliest=]. *)
Lemma query_with_time_latest_not_first :
  query_with_time_text true (str "index=main")
    (Some dt_2024_01_01_000000) (Some dt_2024_01_01_000010)
  = Ok (str "search earliest=01/01/2024:00:00:00 latest=01/01/2024:00:00:10 index=main")
  /\ ~ appears_before (str "latest=") (str "earliest=")
       (str "search earliest=01/01/2024:00:00:00 latest=01/01/2024:00:00:10 index=main").
Proof.
  split; [reflexivity|].
  intros (i & j & Hi & Hj & Hlt).
  vm_compute in Hi, Hj. injection Hi as <-. injection Hj as <-. lia.
Qed.

(** C1 (amended). For every base query and every two datetimes,
    [query_with_time] builds the keyword, then [earliest=<start>], a space,
    [latest=<end>], then the rest of the query, each time being written by
    [strftime("%m/%d/%Y:%H:%M:%S")]: as MM/DD/YYYY:HH:MM:SS for a year of
    four digits, and with the shorter year of the C library before the
    year 1000. The end bound is injected first and the start bound is
    injected in front of it, so [earliest=] (index 7) appears before
    [latest=] (right after the start time and a space: index 36 when the
    start year has four digits). *)
Theorem query_with_time_earliest_then_latest (debug : bool) (query : pystr)
    (s e : datetime) :
  fields_in_range s -> fields_in_range e ->
  let built :=
    str "search " ++ str "earliest=" ++ strftime_splunk s ++ str " "
    ++ str "latest=" ++ strftime_splunk e ++ after_search query in
  query_with_time_text debug query (Some s) (Some e) = Ok built
  /\ PyStr.find (str "earliest=" ++ strftime_splunk s) built = Some 7
  /\ PyStr.find (str "latest=" ++ strftime_splunk e) built
     = Some (17 + length (strftime_splunk s))
  /\ appears_before (str "earliest=") (str "latest=") built
  /\ (1000 <= year s ->
      strftime_splunk s = mm_dd_yyyy_hh_mm_ss s
      /\ PyStr.find (str "latest=" ++ strftime_splunk e) built = Some 36)
  /\ (1000 <= year e -> strftime_splunk e = mm_dd_yyyy_hh_mm_ss e).
Proof.
  intros Hs He built.
  assert (Hl : PyStr.find (str "latest=" ++ strftime_splunk e) built
               = Some (17 + length (strftime_splunk s)))
    by apply find_latest.
  split; [apply bounded_query_both|].
  split; [apply (find_earliest (strftime_splunk s))|].
  split; [exact Hl|]. split; [|split].
  - exists 7, (17 + length (strftime_splunk s)).
    split; [apply (find_earliest [])|].
    split; [|lia].
    rewrite <- (app_nil_r (str "latest=")).
    apply (find_latest s [] (strftime_splunk e ++ after_search query)).
  - intros Hwide. destruct (strftime_splunk_fixed s Hs Hwide) as [E L].
    split; [exact E|]. rewrite Hl, L. reflexivity.
  - intros Hwide. apply (strftime_splunk_fixed e He Hwide).
Qed.

Lemma query_with_time_earliest_then_latest_witness :
  let built :=
    str "search " ++ str "earliest=" ++ strftime_splunk dt_2024_01_01_000000
    ++ str " " ++ str "latest=" ++ strftime_splunk dt_2024_01_01_000010
    ++ after_search (str "  Search index=main") in
  query_with_time_text true (str "  Search index=main")
    (Some dt_2024_01_01_000000) (Some dt_2024_01_01_000010) = Ok built
  /\ PyStr.find (str "earliest=" ++ strftime_splunk dt_2024_01_01_000000)
       built = Some 7
  /\ PyStr.find (str "latest=" ++ strftime_splunk dt_2024_01_01_000010) built
     = Some (17 + length (strftime_splunk dt_2024_01_01_000000))
  /\ appears_before (str "earliest=") (str "latest=") built
  /\ (1000 <= year dt_2024_01_01_000000 ->
      strftime_splunk dt_2024_01_01_000000
      = mm_dd_yyyy_hh_mm_ss dt_2024_01_01_000000
      /\ PyStr.find (str "latest=" ++ strftime_splunk dt_2024_01_01_000010)
           built = Some 36)
  /\ (1000 <= year dt_2024_01_01_000010 ->
      strftime_splunk dt_2024_01_01_000010
      = mm_dd_yyyy_hh_mm_ss dt_2024_01_01_000010).
Proof.
  apply (query_with_time_earliest_then_latest true
           (str "  Search index=main")
           dt_2024_01_01_000000 dt_2024_01_01_000010);
    unfold fields_in_range; simpl; lia.
Defined.

(** ** The [search] prefix *)

Lemma add_missing_search_idempotent (query : pystr) :
  add_missing_search (add_missing_search query) = add_missing_search query.
Proof.
  unfold add_missing_search at 1.
  rewrite starts_with_search_added. reflexivity.
Qed.

Lemma execute_query_submitted {V : Type} xml_find_text (s : session V)
    (reply : http_reply) (query : pystr) :
  submitted (execute_query xml_find_text s reply query).2
  = [add_missing_search query].
Proof.
  unfold execute_query. destruct reply as [code text|]; [|reflexivity].
  destruct (negb (code =? 201)%Z); [reflexivity|].
  destruct (xml_find_text (str "sid") text); reflexivity.
Qed.

Lemma lstrip_spaces (ws q : pystr) :
  Forall (fun c => PyStr.isspace c = true) ws ->
  PyStr.lstrip (ws ++ q) = PyStr.lstrip q.
Proof.
  induction 1 as [|c ws Hc _ IH]; [reflexivity|].
  simpl. rewrite Hc. exact IH.
Qed.

(** *** The guard of the source and the words of the claim *)

Definition is_white_b (c : ascii) : bool :=
  existsb (Nat.eqb (nat_of_ascii c)) WHITESPACE_CODES.

Lemma isspace_is_white_b (c : ascii) : PyStr.isspace c = is_white_b c.
Proof. destruct c as [[] [] [] [] [] [] [] []]; reflexivity. Qed.

Lemma isspace_is_white (c : ascii) : PyStr.isspace c = true <-> is_white c.
Proof.
  rewrite isspace_is_white_b. unfold is_white_b, is_white.
  rewrite existsb_exists. split.
  - intros (n & Hin & Hn). apply Nat.eqb_eq in Hn. subst n. exact Hin.
  - intros Hin. exists (nat_of_ascii c). split; [exact Hin|].
    apply Nat.eqb_refl.
Qed.

Ltac letter_cases c :=
  destruct c as [[] [] [] [] [] [] [] []]; unfold either_case;
  (split;
   [ intros H; first [ discriminate H | left; reflexivity | right; reflexivity ]
   | intros [H|H]; first [ discriminate H | reflexivity ] ]).

Lemma ieq_s (c : ascii) : ieq "s" c = true <-> either_case "s" "S" c.
Proof. letter_cases c. Qed.
Lemma ieq_e (c : ascii) : ieq "e" c = true <-> either_case "e" "E" c.
Proof. letter_cases c. Qed.
Lemma ieq_a (c : ascii) : ieq "a" c = true <-> either_case "a" "A" c.
Proof. letter_cases c. Qed.
Lemma ieq_r (c : ascii) : ieq "r" c = true <-> either_case "r" "R" c.
Proof. letter_cases c. Qed.
Lemma ieq_c (c : ascii) : ieq "c" c = true <-> either_case "c" "C" c.
Proof. letter_cases c. Qed.
Lemma ieq_h (c : ascii) : ieq "h" c = true <-> either_case "h" "H" c.
Proof. letter_cases c. Qed.

(** The pattern of the source matches a spelling of the keyword, and
    nothing else. *)
Lemma imatch_spells (t rest : pystr) :
  imatch SEARCH t = Some rest <-> exists kw, t = kw ++ rest /\ spells_search kw.
Proof.
  change SEARCH with ["s"; "e"; "a"; "r"; "c"; "h"]%char. split.
  - destruct t as [|c1 [|c2 [|c3 [|c4 [|c5 [|c6 t]]]]]]; cbn [imatch];
      repeat match goal with
             | |- context [ieq ?a ?c] => destruct (ieq a c) eqn:?
             end; try discriminate.
    intros [= <-]. exists [c1; c2; c3; c4; c5; c6]. split; [reflexivity|].
    exists c1, c2, c3, c4, c5, c6. split; [reflexivity|].
    repeat split;
      [apply ieq_s|apply ieq_e|apply ieq_a|apply ieq_r|apply ieq_c|apply ieq_h];
      assumption.
  - intros (kw & -> & c1 & c2 & c3 & c4 & c5 & c6 & -> & H1 & H2 & H3 & H4
            & H5 & H6).
    apply ieq_s in H1. apply ieq_e in H2. apply ieq_a in H3.
    apply ieq_r in H4. apply ieq_c in H5. apply ieq_h in H6.
    cbn [imatch app]. rewrite H1, H2, H3, H4, H5, H6. reflexivity.
Qed.

Lemma lstrip_split (q : pystr) :
  exists ws, q = ws ++ PyStr.lstrip q
             /\ Forall (fun c => PyStr.isspace c = true) ws.
Proof.
  induction q as [|c q (ws & Hq & Hws)]; [exists []; split; [reflexivity|constructor]|].
  simpl. destruct (PyStr.isspace c) eqn:E.
  - exists (c :: ws). split; [simpl; f_equal; exact Hq|].
    constructor; assumption.
  - exists []. split; [reflexivity|constructor].
Qed.

Lemma spelling_not_white (kw rest : pystr) :
  spells_search kw -> PyStr.lstrip (kw ++ rest) = kw ++ rest.
Proof.
  intros (c1 & c2 & c3 & c4 & c5 & c6 & -> & H1 & _).
  simpl. destruct H1 as [[= ->]|[= ->]]; reflexivity.
Qed.

(** The refinement: the guard and the pattern of the source hold exactly
    of the queries that begin, after white space, with a spelling of the
    keyword, and the text after the match is what follows the keyword. *)
Lemma match_search_begins (query rest : pystr) :
  match_search query = Some rest <-> begins_with_search query rest.
Proof.
  unfold match_search, begins_with_search. split.
  - intros H. apply imatch_spells in H as (kw & Ht & Hkw).
    destruct (lstrip_split query) as (ws & Hq & Hws).
    exists ws, kw. split; [rewrite <- Ht; exact Hq|]. split; [|exact Hkw].
    eapply Forall_impl; [exact Hws|]. intros c. apply isspace_is_white.
  - intros (ws & kw & -> & Hws & Hkw).
    rewrite lstrip_spaces, (spelling_not_white _ _ Hkw).
    + apply imatch_spells. exists kw. split; [reflexivity|exact Hkw].
    + eapply Forall_impl; [exact Hws|]. intros c. apply isspace_is_white.
Qed.

Lemma starts_with_search_begins (query : pystr) :
  starts_with_search query = true <-> exists rest, begins_with_search query rest.
Proof.
  pose proof (match_search_guard query) as G. split.
  - intros H. rewrite H in G. eexists. apply match_search_begins. exact G.
  - intros [rest H]. apply match_search_begins in H. rewrite H in G.
    destruct (starts_with_search query); [reflexivity|discriminate].
Qed.

Lemma after_search_begins (query rest : pystr) :
  begins_with_search query rest -> after_search query = rest.
Proof.
  intros H. pose proof (match_search_added query) as A.
  assert (Hs : starts_with_search query = true)
    by (apply starts_with_search_begins; eauto).
  unfold add_missing_search in A. rewrite Hs in A. simpl in A.
  apply match_search_begins in H. congruence.
Qed.

(** C5. For every query that, after its leading white space, begins with
    the keyword [search] in any mix of upper and lower case, the search
    [execute_query] submits is the query itself and the time-bounded query
    carries the keyword once, followed by the clauses and by what
    followed the keyword; for every other query exactly one ["search "]
    is put in front. The time-bounded query is submitted by
    [execute_query] as it is, without a second prefix. *)
Theorem search_prefix_exactly_once {V : Type} xml_find_text (sess : session V)
    (reply : http_reply) (debug : bool) (query : pystr) (s e : datetime) :
  (forall rest,
     begins_with_search query rest ->
     submitted (execute_query xml_find_text sess reply query).2 = [query]
     /\ query_with_time_text debug query (Some s) (Some e)
        = Ok (str "search " ++ str "earliest=" ++ strftime_splunk s
              ++ str " " ++ str "latest=" ++ strftime_splunk e ++ rest))
  /\ ((forall rest, ~ begins_with_search query rest) ->
      submitted (execute_query xml_find_text sess reply query).2
      = [str "search " ++ query]
      /\ query_with_time_text debug query (Some s) (Some e)
         = Ok (str "search " ++ str "earliest=" ++ strftime_splunk s
               ++ str " " ++ str "latest=" ++ strftime_splunk e
               ++ str " " ++ query))
  /\ (forall built,
        query_with_time_text debug query (Some s) (Some e) = Ok built ->
        submitted (execute_query xml_find_text sess reply built).2 = [built])
  /\ (starts_with_search query = true
      <-> exists rest, begins_with_search query rest).
Proof.
  split; [|split; [|split]].
  - intros rest H.
    assert (Hs : starts_with_search query = true)
      by (apply starts_with_search_begins; eauto).
    split.
    + rewrite execute_query_submitted. unfold add_missing_search.
      rewrite Hs. reflexivity.
    + unfold query_with_time_text. rewrite bounded_query_both.
      rewrite (after_search_begins _ _ H). reflexivity.
  - intros H.
    assert (Hs : starts_with_search query = false).
    { destruct (starts_with_search query) eqn:E; [|reflexivity].
      apply starts_with_search_begins in E as [rest E].
      destruct (H rest E). }
    split.
    + rewrite execute_query_submitted. unfold add_missing_search.
      rewrite Hs. reflexivity.
    + unfold query_with_time_text. rewrite bounded_query_both.
      unfold after_search. rewrite Hs. reflexivity.
  - intros built. unfold query_with_time_text. rewrite bounded_query_both.
    intros [= <-]. rewrite execute_query_submitted.
    unfold add_missing_search.
    match goal with
    | |- context [starts_with_search ?x] =>
        replace (starts_with_search x) with true by reflexivity
    end.
    reflexivity.
  - apply starts_with_search_begins.
Qed.

Lemma search_prefix_exactly_once_witness :
  (submitted (execute_query sample_xml (new_session (str "00:30:00"))
                (Reply 201 SUBMIT_BODY) (str "  Search index=main")).2
   = [str "  Search index=main"]
   /\ query_with_time_text true (str "  Search index=main")
        (Some dt_2024_01_01_000000) (Some dt_2024_01_01_000010)
      = Ok (str "search " ++ str "earliest="
            ++ strftime_splunk dt_2024_01_01_000000 ++ str " "
            ++ str "latest=" ++ strftime_splunk dt_2024_01_01_000010
            ++ str " index=main"))
  /\ (submitted (execute_query sample_xml (new_session (str "00:30:00"))
                   (Reply 201 SUBMIT_BODY) (str "index=main")).2
      = [str "search " ++ str "index=main"]
      /\ query_with_time_text true (str "index=main")
           (Some dt_2024_01_01_000000) (Some dt_2024_01_01_000010)
         = Ok (str "search " ++ str "earliest="
               ++ strftime_splunk dt_2024_01_01_000000 ++ str " "
               ++ str "latest=" ++ strftime_splunk dt_2024_01_01_000010
               ++ str " " ++ str "index=main")).
Proof.
  split.
  - apply (proj1 (search_prefix_exactly_once sample_xml
                    (new_session (str "00:30:00")) (Reply 201 SUBMIT_BODY)
                    true (str "  Search index=main")
                    dt_2024_01_01_000000 dt_2024_01_01_000010)).
    exists (str "  "), (str "Search"). split; [reflexivity|].
    split.
    + repeat constructor; unfold is_white; simpl; tauto.
    + exists "S"%char, "e"%char, "a"%char, "r"%char, "c"%char, "h"%char.
      unfold either_case. repeat split; auto.
  - apply (proj1 (proj2 (search_prefix_exactly_once sample_xml
                           (new_session (str "00:30:00"))
                           (Reply 201 SUBMIT_BODY) true (str "index=main")
                           dt_2024_01_01_000000 dt_2024_01_01_000010))).
    intros rest H.
    assert (E : starts_with_search (str "index=main") = true)
      by (apply starts_with_search_begins; eauto).
    discriminate E.
Defined.

(** ** Null bounds *)

Lemma bounded_query_null_rejected (latest earliest query : pystr)
    (time_start time_end : option datetime) :
  time_start = None \/ time_end = None ->
  bounded_query latest earliest true query time_start time_end
  = Raise AssertionError.
Proof.
  intros [-> | ->]; [reflexivity|]. destruct time_start; reflexivity.
Qed.

Lemma bounded_query_no_end (latest earliest query : pystr) (s : datetime) :
  bounded_query latest earliest false query (Some s) None
  = Ok (str "search " ++ earliest ++ strftime_splunk s ++ after_search query).
Proof.
  unfold bounded_query. cbv [assert_datetime bind].
  unfold sub_search. rewrite match_search_added.
  rewrite <- !app_assoc. reflexivity.
Qed.

Lemma bounded_query_no_start (latest earliest query : pystr) (e : datetime) :
  bounded_query latest earliest false query None (Some e)
  = Ok (str "search " ++ latest ++ strftime_splunk e ++ after_search query).
Proof.
  unfold bounded_query. cbv [assert_datetime bind].
  unfold sub_search. rewrite match_search_added.
  rewrite <- !app_assoc. reflexivity.
Qed.

(** C7, as stated, fails: under the default interpreter the assertions of
    lines 171-172 and 195-196 reject a null bound with [AssertionError]. *)
Lemma null_bound_raises :
  query_with_time_text true (str "index=main")
    None (Some dt_2024_01_01_000010) = Raise AssertionError
  /\ query_with_time_text true (str "index=main")
       (Some dt_2024_01_01_000000) None = Raise AssertionError
  /\ query_with_index_time_text true (str "index=main")
       None (Some dt_2024_01_01_000010) = Raise AssertionError
  /\ query_with_index_time_text true (str "index=main")
       (Some dt_2024_01_01_000000) None = Raise AssertionError.
Proof. repeat split; reflexivity. Qed.

(** C7 (amended). With assertions enabled, [query_with_time] and
    [query_with_index_time] reject a null start or end bound with
    [AssertionError] before anything is built. With assertions disabled
    ([python -O]) a null bound is permitted: its clause is left out and the
    clause of the other bound is injected after the keyword as usual; with
    both bounds null only the missing keyword is added. *)
Theorem null_bound_needs_assertions_off (query : pystr) (s e : datetime)
    (other : option datetime) :
  (query_with_time_text true query None other = Raise AssertionError
   /\ query_with_time_text true query other None = Raise AssertionError
   /\ query_with_index_time_text true query None other = Raise AssertionError
   /\ query_with_index_time_text true query other None = Raise AssertionError)
  /\ (query_with_time_text false query None (Some e)
      = Ok (str "search latest=" ++ strftime_splunk e ++ after_search query)
      /\ query_with_time_text false query (Some s) None
         = Ok (str "search earliest=" ++ strftime_splunk s
               ++ after_search query)
      /\ query_with_time_text false query None None
         = Ok (add_missing_search query))
  /\ (query_with_index_time_text false query None (Some e)
      = Ok (str "search _index_latest=" ++ strftime_splunk e
            ++ after_search query)
      /\ query_with_index_time_text false query (Some s) None
         = Ok (str "search _index_earliest=" ++ strftime_splunk s
               ++ after_search query)
      /\ query_with_index_time_text false query None None
         = Ok (add_missing_search query)).
Proof.
  unfold query_with_time_text, query_with_index_time_text.
  split; [|split].
  - repeat split; apply bounded_query_null_rejected; tauto.
  - split; [apply bounded_query_no_start|].
    split; [apply bounded_query_no_end|reflexivity].
  - split; [apply bounded_query_no_start|].
    split; [apply bounded_query_no_end|reflexivity].
Qed.

(** ** [create_timedelta] *)

Example create_timedelta_05 :
  option_map total_seconds
    (match create_timedelta (str "05") with Ok td => Some td | _ => None end)
  = Some 5%Z.
Proof. reflexivity. Qed.

Example create_timedelta_10_05 :
  create_timedelta (str "10:05") = Ok (mk_timedelta 0 605 0).
Proof. reflexivity. Qed.

Example create_timedelta_02_10_05 :
  create_timedelta (str "02:10:05") = Ok (mk_timedelta 0 7805 0).
Proof. reflexivity. Qed.

Example create_timedelta_1_02_10_05 :
  create_timedelta (str "1:02:10:05") = Ok (mk_timedelta 1 7805 0)
  /\ total_seconds (mk_timedelta 1 7805 0) = 94205%Z.
Proof. split; reflexivity. Qed.

Lemma total_seconds_new (days seconds minutes hours : Z) (td : timedelta) :
  timedelta_new days seconds minutes hours = Ok td ->
  total_seconds td
  = (days * 86400 + hours * 3600 + minutes * 60 + seconds)%Z.
Proof.
  unfold timedelta_new.
  destruct (Z.abs _ <=? MAX_DELTA_DAYS)%Z; [|discriminate].
  intros [= <-]. unfold total_seconds; simpl.
  set (total := (days * 86400 + hours * 3600 + minutes * 60 + seconds)%Z).
  pose proof (Z.div_mod total 86400). lia.
Qed.

Lemma int_parsed (c : pystr) (v : Z) : PyInt.parse c = Some v -> int c = Ok v.
Proof. unfold int. intros ->. reflexivity. Qed.

(** What [create_timedelta] computes from components that are integer
    literals. *)
Lemma create_timedelta_components (timespec : pystr) (values : list Z)
    (d h m s : Z) :
  Forall2 (fun c v => PyInt.parse c = Some v)
    (PyStr.split ":"%char timespec) values ->
  dhms values = Some (d, h, m, s) ->
  create_timedelta timespec = timedelta_new d s m h.
Proof.
  intros Hparse Hdhms. unfold create_timedelta.
  destruct (PyStr.split ":"%char timespec) as [|c1 comps];
    inversion Hparse as [|? v1 ? vs P1 Hrest]; subst; [discriminate|].
  destruct comps as [|c2 comps];
    inversion Hrest as [|? v2 ? vs2 P2 Hrest2]; subst.
  { injection Hdhms as <- <- <- <-. cbn. rewrite (int_parsed _ _ P1).
    reflexivity. }
  destruct comps as [|c3 comps];
    inversion Hrest2 as [|? v3 ? vs3 P3 Hrest3]; subst.
  { injection Hdhms as <- <- <- <-. cbn.
    rewrite (int_parsed _ _ P1), (int_parsed _ _ P2). reflexivity. }
  destruct comps as [|c4 comps];
    inversion Hrest3 as [|? v4 ? vs4 P4 Hrest4]; subst.
  { injection Hdhms as <- <- <- <-. cbn.
    rewrite (int_parsed _ _ P1), (int_parsed _ _ P2), (int_parsed _ _ P3).
    reflexivity. }
  destruct comps as [|c5 comps];
    inversion Hrest4 as [|? v5 ? vs5 P5 Hrest5]; subst; [|discriminate].
  injection Hdhms as <- <- <- <-. cbn.
  rewrite (int_parsed _ _ P1), (int_parsed _ _ P2), (int_parsed _ _ P3),
    (int_parsed _ _ P4).
  reflexivity.
Qed.

(** What [int] accepts: blanks around the literal, a sign, single
    underscores between digits, a no-break space; and what it refuses: a
    control 28-31, more than 4300 digits. *)
Example int_examples :
  int (str " +1_000 ") = Ok 1000%Z
  /\ int (str "5" ++ [ascii_of_nat 160]) = Ok 5%Z
  /\ int ([ascii_of_nat 28] ++ str "5" ++ [ascii_of_nat 160])
     = Raise ValueError
  /\ int (str "0x10") = Raise ValueError
  /\ int (repeat "0"%char 4300) = Ok 0%Z
  /\ int (repeat "0"%char 4301) = Raise ValueError.
Proof. repeat split; vm_compute; reflexivity. Qed.

(** C4, as stated, fails on four integer components whose days exceed
    what a [timedelta] holds: the constructor raises [OverflowError] and
    no duration is returned. *)
Lemma create_timedelta_overflow :
  Forall2 (fun c v => PyInt.parse c = Some v)
    (PyStr.split ":"%char (str "1000000000:00:00:00"))
    [1000000000; 0; 0; 0]%Z
  /\ create_timedelta (str "1000000000:00:00:00") = Raise OverflowError.
Proof. split; [repeat constructor|reflexivity]. Qed.

(** C4 (amended). For every string of up to four colon-separated integer
    components, read from the right as seconds, minutes, hours and days
    with the missing leading ones zero, whose total
    [days*86400 + hours*3600 + minutes*60 + seconds] amounts to at most
    999999999 whole days in either direction, [create_timedelta] returns
    a duration of that many seconds in total. *)
Theorem create_timedelta_total_seconds (timespec : pystr) (values : list Z)
    (d h m s : Z) :
  Forall2 (fun c v => PyInt.parse c = Some v)
    (PyStr.split ":"%char timespec) values ->
  dhms values = Some (d, h, m, s) ->
  (Z.abs ((d * 86400 + h * 3600 + m * 60 + s) / 86400) <= MAX_DELTA_DAYS)%Z ->
  exists td,
    create_timedelta timespec = Ok td
    /\ total_seconds td = (d * 86400 + h * 3600 + m * 60 + s)%Z.
Proof.
  intros Hparse Hdhms Hrange.
  rewrite (create_timedelta_components _ _ _ _ _ _ Hparse Hdhms).
  destruct (timedelta_new d s m h) as [td|e] eqn:E.
  - exists td. split; [reflexivity|]. exact (total_seconds_new _ _ _ _ _ E).
  - exfalso. unfold timedelta_new in E.
    apply Z.leb_le in Hrange. rewrite Hrange in E. discriminate.
Qed.

Lemma create_timedelta_total_seconds_witness :
  exists td,
    create_timedelta (str "1:02:10:05") = Ok td
    /\ total_seconds td = (1 * 86400 + 2 * 3600 + 10 * 60 + 5)%Z.
Proof.
  apply (create_timedelta_total_seconds (str "1:02:10:05")
           [1; 2; 10; 5]%Z 1 2 10 5).
  - repeat constructor.
  - reflexivity.
  - vm_compute. discriminate.
Defined.

(** ** The query lifecycle *)

Lemma count_app (kind : event -> bool) (a b : list event) :
  count kind (a ++ b) = count kind a + count kind b.
Proof. unfold count. rewrite List.filter_app, length_app. reflexivity. Qed.

Lemma is_job_completed_trace (reply : http_reply) :
  status_checks (is_job_completed reply).2 = 1
  /\ downloads (is_job_completed reply).2 = 0.
Proof.
  unfold is_job_completed. destruct reply as [code text|]; [|split; reflexivity].
  destruct (negb (code =? 200)%Z); [split; reflexivity|].
  destruct (search_isDone text) as [d|]; [|split; reflexivity].
  destruct (Ascii.eqb d "1"%char); split; reflexivity.
Qed.

Lemma is_job_completed_running (reply : http_reply) :
  reports_running reply -> is_job_completed reply = (Some false, [Sent Status]).
Proof. intros (text & -> & H). simpl. rewrite H. reflexivity. Qed.

Lemma is_job_completed_done (reply : http_reply) :
  reports_done reply -> is_job_completed reply = (Some true, [Sent Status]).
Proof. intros (text & -> & H). simpl. rewrite H. reflexivity. Qed.

Lemma is_job_completed_rejected (reply : http_reply) :
  status_rejected reply ->
  exists m, is_job_completed reply = (None, [Sent Status; Logged m]).
Proof.
  destruct reply as [code text|]; simpl; intros H.
  - destruct (Z.eqb_spec code 200) as [->|_]; [contradiction|].
    eexists; reflexivity.
  - eexists; reflexivity.
Qed.

Lemma runs_on_goes_on (t : instant) (st : poll_step) :
  runs_on t st -> goes_on t st.
Proof.
  intros (Hc & Hr & Ht). repeat split; [exact Hc| |exact Ht].
  rewrite (is_job_completed_running _ Hr). reflexivity.
Qed.

Section LifecycleFacts.

Context {V : Type}.
Variable xml_find_text : pystr -> pystr -> option (option pystr).
Variable json_loads : pystr -> option (json_doc V).

Implicit Types (s : session V) (w : world) (t : instant).

Lemma turns_trace_counts (pre : list poll_step) :
  status_checks (turns_trace pre) = length pre
  /\ downloads (turns_trace pre) = 0.
Proof.
  induction pre as [|st pre [IH1 IH2]]; [split; reflexivity|].
  change (turns_trace (st :: pre))
    with ((is_job_completed (status_reply st)).2 ++ turns_trace pre).
  unfold status_checks, downloads in *. rewrite !count_app, IH1, IH2.
  destruct (is_job_completed_trace (status_reply st)) as [H1 H2].
  unfold status_checks, downloads in *. rewrite H1, H2. split; reflexivity.
Qed.

(** The turns after which the loop goes on only add their status checks
    to the trace. *)
Lemma poll_goes_on t (text : pystr) s (pre rest : list poll_step) :
  query_cancelled s = false ->
  Forall (goes_on t) pre ->
  poll t text s (pre ++ rest)
  = match poll t text s rest with
    | Some (e, s', tr) => Some (e, s', turns_trace pre ++ tr)
    | None => None
    end.
Proof.
  intros Hs Hpre. induction Hpre as [|st pre (Hc & Hj & Ht) _ IH].
  - simpl. destruct (poll t text s rest) as [[[e s'] tr]|]; reflexivity.
  - simpl. rewrite Hc; simpl. rewrite Hs.
    destruct (is_job_completed (status_reply st)) as [j tr0] eqn:E.
    simpl in Hj. subst j.
    apply Z.ltb_ge in Ht. rewrite Ht, IH.
    destruct (poll t text s rest) as [[[e s'] tr]|]; [|reflexivity].
    simpl. rewrite <- app_assoc. reflexivity.
Qed.

End LifecycleFacts.

Section QueryFacts.

Context {V : Type}.
Variable xml_find_text : pystr -> pystr -> option (option pystr).
Variable json_loads : pystr -> option (json_doc V).

Implicit Types (s : session V) (w : world) (t : instant).

(** [query] after an accepted login and an accepted submission. *)
Lemma query_polling s w (text : pystr) t (key sid : option pystr) :
  timeout_date s w = Ok t ->
  login_accepted xml_find_text w key ->
  submit_accepted xml_find_text w sid ->
  query xml_find_text json_loads s w text
  = let head := [Sent Login; Sent (Submit (add_missing_search text))] in
    match poll t text (polling_session key sid w s) (polls w) with
    | None => None
    | Some (LoopReturned b, s', tr) => Some (mk_outcome (Ok b) s' (head ++ tr))
    | Some (LoopLeft, s', tr) =>
        let s' := cancel_if (cancel_after_polling w) s' in
        if negb (query_cancelled s') then
          let '(_, s'', tr') :=
            download_search_results json_loads s' (download_reply w) in
          Some (mk_outcome (Ok true) s'' (head ++ tr ++ tr'))
        else Some (mk_outcome (Ok true) s' (head ++ tr))
    end.
Proof.
  intros Ht (ltext & Hl & Hkey) (stext & Hs & Hsid).
  unfold query, authenticate, execute_query. rewrite Ht, Hl, Hs. simpl.
  rewrite Hkey. simpl. rewrite Hsid. simpl.
  fold (polling_session key sid w s).
  destruct (poll t text (polling_session key sid w s) (polls w))
    as [[[[|b] s'] tr]|]; [|reflexivity|reflexivity].
  destruct (negb (query_cancelled (cancel_if (cancel_after_polling w) s')));
    [|reflexivity].
  destruct (download_search_results json_loads _ (download_reply w))
    as [[r s''] tr']. reflexivity.
Qed.

(** The loop never touches the stored results. *)
Lemma poll_search_results t (text : pystr) s (steps : list poll_step)
    (e : loop_end) s' (tr : list event) :
  poll t text s steps = Some (e, s', tr) ->
  search_results s' = search_results s.
Proof.
  revert s e tr. induction steps as [|st steps IH]; intros s e tr; simpl.
  - destruct (query_cancelled s); [|discriminate]. intros [= _ <- _].
    reflexivity.
  - assert (Hc : search_results (cancel_if (cancel_called st) s)
                 = search_results s)
      by (destruct (cancel_called st); reflexivity).
    destruct (query_cancelled (cancel_if (cancel_called st) s)).
    { intros [= _ <- _]. exact Hc. }
    destruct (is_job_completed (status_reply st)) as [[[|]|] tr0].
    + intros [= _ <- _]. exact Hc.
    + destruct (t <? clock_after st)%Z.
      * intros [= _ <- _]. exact Hc.
      * destruct (poll t text _ steps) as [[[e1 s1] tr1]|] eqn:E;
          [|discriminate].
        intros [= _ <- _]. rewrite (IH _ _ _ E). exact Hc.
    + intros [= _ <- _]. exact Hc.
Qed.

End QueryFacts.

Lemma polling_session_fields {V : Type} (key sid : option pystr) (w : world)
    (s : session V) :
  query_cancelled (polling_session key sid w s) = query_cancelled s
  /\ search_results (polling_session key sid w s) = search_results s.
Proof. split; reflexivity. Qed.

Lemma timeout_date_origin {V : Type} (s : session V) (w : world) (t : instant) :
  timeout_date s w = Ok t ->
  exists td, create_timedelta (query_timeout s) = Ok td
             /\ t = (clock_entry w + total_microseconds td)%Z.
Proof.
  unfold timeout_date, instant_add.
  destruct (create_timedelta (query_timeout s)) as [td|]; [|discriminate].
  simpl. destruct (_ && _); [|discriminate].
  intros [= <-]. exists td. split; reflexivity.
Qed.

Lemma head_counts (q : pystr) :
  status_checks [Sent Login; Sent (Submit q)] = 0
  /\ downloads [Sent Login; Sent (Submit q)] = 0.
Proof. split; reflexivity. Qed.

(** C3, as stated, fails for a status body without the [isDone] key:
    [is_job_completed] answers [False], the very result of a job that is
    still running, the loop goes on, and here the next check finds the job
    done and the rows are downloaded. *)
Lemma status_unparsed_is_not_an_error :
  (is_job_completed (Reply 200 (str "<html>busy</html>"))).1
  = (is_job_completed (Reply 200 RUNNING_BODY)).1
  /\ exists o,
       query sample_xml sample_json (new_session (str "00:30:00"))
         world_status_unparsed (str "index=main") = Some o
       /\ returned o = Ok true
       /\ status_checks (trace o) = 2
       /\ downloads (trace o) = 1.
Proof.
  split; [reflexivity|].
  eexists. split; [vm_compute; reflexivity|].
  repeat split; reflexivity.
Qed.

(** C3 (amended). In every polling iteration, a status request that is
    answered with a code other than 200, or not answered at all, makes
    [is_job_completed] return [None], which is distinct from the [False]
    of a job that is not yet done; the loop stops at once and [query]
    returns [False]: no further status check, no download, the stored
    results untouched. *)
Theorem status_rejected_aborts {V : Type} xml_find_text json_loads
    (s : session V) (w : world) (text : pystr) (t : instant)
    (key sid : option pystr) (pre rest : list poll_step) (st : poll_step) :
  timeout_date s w = Ok t ->
  login_accepted xml_find_text w key ->
  submit_accepted xml_find_text w sid ->
  query_cancelled s = false ->
  polls w = pre ++ st :: rest ->
  Forall (goes_on t) pre ->
  cancel_called st = false ->
  status_rejected (status_reply st) ->
  (is_job_completed (status_reply st)).1 = None
  /\ (is_job_completed (status_reply st)).1 <> Some false
  /\ exists o,
       query xml_find_text json_loads s w text = Some o
       /\ returned o = Ok false
       /\ status_checks (trace o) = length pre + 1
       /\ downloads (trace o) = 0
       /\ search_results (final o) = search_results s.
Proof.
  intros Ht Hl Hsub Hs Hpolls Hpre Hc Hrej.
  destruct (is_job_completed_rejected _ Hrej) as [m Hm].
  split; [rewrite Hm; reflexivity|]. split; [rewrite Hm; discriminate|].
  rewrite (query_polling _ _ _ _ _ _ _ _ Ht Hl Hsub), Hpolls.
  rewrite poll_goes_on by assumption.
  simpl. rewrite Hc. simpl. rewrite Hs, Hm.
  eexists. split; [reflexivity|]. simpl.
  destruct (turns_trace_counts pre) as [H1 H2].
  unfold status_checks, downloads in *.
  repeat split.
  - change (count is_status
              ([Sent Login; Sent (Submit (add_missing_search text))]
               ++ turns_trace pre ++ [Sent Status; Logged m])
            = length pre + 1).
    rewrite !count_app, H1. reflexivity.
  - change (count is_download
              ([Sent Login; Sent (Submit (add_missing_search text))]
               ++ turns_trace pre ++ [Sent Status; Logged m]) = 0).
    rewrite !count_app, H2. reflexivity.
Qed.

Ltac sample_accepted :=
  match goal with
  | |- login_accepted _ _ _ => exists LOGIN_BODY; split; reflexivity
  | |- submit_accepted _ _ _ => exists SUBMIT_BODY; split; reflexivity
  end.

Ltac sample_goes_on :=
  repeat split; first [ reflexivity | vm_compute; discriminate ].

Lemma status_rejected_aborts_witness :
  (is_job_completed (status_reply (status_500_at 2))).1 = None
  /\ (is_job_completed (status_reply (status_500_at 2))).1 <> Some false
  /\ exists o,
       query sample_xml sample_json (new_session (str "00:30:00"))
         world_status_500 (str "index=main") = Some o
       /\ returned o = Ok false
       /\ status_checks (trace o) = length [running_at 1] + 1
       /\ downloads (trace o) = 0
       /\ search_results (final o)
          = search_results (new_session (str "00:30:00")).
Proof.
  apply (status_rejected_aborts sample_xml sample_json
           (new_session (str "00:30:00")) world_status_500 (str "index=main")
           (T0 + sec 1800)%Z (Some (str "k3y")) (Some (str "1704067200.42"))
           [running_at 1] [done_at 3] (status_500_at 2)).
  - reflexivity.
  - sample_accepted.
  - sample_accepted.
  - reflexivity.
  - reflexivity.
  - repeat constructor. vm_compute. discriminate.
  - reflexivity.
  - vm_compute. discriminate.
Defined.

(** C6, as stated, fails in two runs with a timeout of ten seconds. In the
    first the job is running at every check of the first ten seconds of
    polling and is reported done at the eleventh: the deadline is only
    looked at after an answer that says running, so the late answer is
    accepted, the rows are downloaded and [query] returns [True]. In the
    second [cancel] is called while the job is running: [query] returns
    [True]. *)
Lemma never_done_yet_true :
  (never_done_within (sec 10) world_done_late
   /\ exists o,
        query sample_xml sample_json (new_session (str "00:00:10"))
          world_done_late (str "index=main") = Some o
        /\ returned o = Ok true
        /\ downloads (trace o) = 1)
  /\ (never_done_within (sec 10) world_cancelled
      /\ exists o,
           query sample_xml sample_json (new_session (str "00:00:10"))
             world_cancelled (str "index=main") = Some o
           /\ returned o = Ok true).
Proof.
  split; split.
  - intros st Hin Hwin. simpl in Hin.
    repeat (destruct Hin as [<- | Hin];
            [first [ exists RUNNING_BODY; split; reflexivity
                   | exfalso; vm_compute in Hwin; apply Hwin; reflexivity ]|]).
    destruct Hin.
  - eexists. split; [vm_compute; reflexivity|]. split; reflexivity.
  - intros st Hin _. simpl in Hin.
    repeat (destruct Hin as [<- | Hin];
            [exists RUNNING_BODY; split; reflexivity|]).
    destruct Hin.
  - eexists. split; [vm_compute; reflexivity|]. reflexivity.
Qed.

(** C6 (amended). For every run in which the login and the submission are
    accepted, [cancel] is not called, and every status check finds the job
    running (200, isDone 0) up to and including the first check after
    which the clock is past the deadline, [query] returns [False] at that
    check with the time-out logged last, no download is attempted and the
    stored results are untouched. The deadline is the clock at the entry
    of [query], before the login, plus the configured query timeout. *)
Theorem running_until_deadline_fails {V : Type} xml_find_text json_loads
    (s : session V) (w : world) (text : pystr) (t : instant)
    (key sid : option pystr) (pre rest : list poll_step) (st : poll_step) :
  timeout_date s w = Ok t ->
  login_accepted xml_find_text w key ->
  submit_accepted xml_find_text w sid ->
  query_cancelled s = false ->
  polls w = pre ++ st :: rest ->
  Forall (runs_on t) pre ->
  cancel_called st = false ->
  reports_running (status_reply st) ->
  (t < clock_after st)%Z ->
  (exists td, create_timedelta (query_timeout s) = Ok td
              /\ t = (clock_entry w + total_microseconds td)%Z)
  /\ exists o,
       query xml_find_text json_loads s w text = Some o
       /\ returned o = Ok false
       /\ last (trace o) = Some (Logged (QueryTimedOut text))
       /\ status_checks (trace o) = length pre + 1
       /\ downloads (trace o) = 0
       /\ search_results (final o) = search_results s.
Proof.
  intros Ht Hl Hsub Hs Hpolls Hpre Hc Hrun Hlate.
  split; [exact (timeout_date_origin _ _ _ Ht)|].
  rewrite (query_polling _ _ _ _ _ _ _ _ Ht Hl Hsub), Hpolls.
  rewrite poll_goes_on;
    [|assumption|eapply Forall_impl; [exact Hpre|apply runs_on_goes_on]].
  simpl. rewrite Hc. simpl.
  rewrite Hs, (is_job_completed_running _ Hrun).
  apply Z.ltb_lt in Hlate. rewrite Hlate.
  eexists. split; [reflexivity|]. simpl.
  destruct (turns_trace_counts pre) as [H1 H2].
  unfold status_checks, downloads in *.
  set (head := [Sent Login; Sent (Submit (add_missing_search text))]).
  repeat split.
  - change (last (head ++ turns_trace pre
                  ++ [Sent Status] ++ [Logged (QueryTimedOut text)])
            = Some (Logged (QueryTimedOut text))).
    rewrite !app_assoc. apply last_snoc.
  - change (count is_status
              (head ++ turns_trace pre
               ++ [Sent Status; Logged (QueryTimedOut text)])
            = length pre + 1).
    rewrite !count_app, H1. reflexivity.
  - change (count is_download
              (head ++ turns_trace pre
               ++ [Sent Status; Logged (QueryTimedOut text)]) = 0).
    rewrite !count_app, H2. reflexivity.
Qed.

Lemma running_until_deadline_fails_witness :
  (exists td, create_timedelta (query_timeout (new_session (str "00:00:10")))
              = Ok td
              /\ (T0 + sec 10)%Z
                 = (clock_entry world_never_done + total_microseconds td)%Z)
  /\ exists o,
       query sample_xml sample_json (new_session (str "00:00:10"))
         world_never_done (str "index=main") = Some o
       /\ returned o = Ok false
       /\ last (trace o) = Some (Logged (QueryTimedOut (str "index=main")))
       /\ status_checks (trace o) = length ten_seconds_running + 1
       /\ downloads (trace o) = 0
       /\ search_results (final o)
          = search_results (new_session (str "00:00:10")).
Proof.
  apply (running_until_deadline_fails sample_xml sample_json
           (new_session (str "00:00:10")) world_never_done (str "index=main")
           (T0 + sec 10)%Z (Some (str "k3y")) (Some (str "1704067200.42"))
           ten_seconds_running [running_at 12] (running_at 11)).
  - reflexivity.
  - sample_accepted.
  - sample_accepted.
  - reflexivity.
  - reflexivity.
  - repeat (constructor;
            [split; [reflexivity|split;
               [exists RUNNING_BODY; split; reflexivity
               |vm_compute; discriminate]]|]).
    constructor.
  - reflexivity.
  - exists RUNNING_BODY. split; reflexivity.
  - reflexivity.
Defined.

(** The result of [download_search_results] on a failing download: the
    function itself reports [False] and stores nothing. *)
Lemma download_search_results_fails {V : Type}
    (json_loads : pystr -> option (json_doc V)) (s : session V) (w : world) :
  download_fails json_loads w ->
  exists m,
    download_search_results json_loads s (download_reply w)
    = (Some false, s, [Sent Download; Logged m]).
Proof.
  intros (code & text & -> & H). simpl.
  destruct (Z.eqb_spec code 200) as [->|Hne]; simpl.
  - destruct H as [H|H]; [contradiction|]. rewrite H. eexists; reflexivity.
  - eexists; reflexivity.
Qed.

(** C2. What the code does where the claim asks for a negative outcome:
    when the job is reported done and the download is answered with a code
    other than 200, or with a body that is not JSON, [query] drops the
    [False] of [download_search_results] and returns [True], the stored
    results being those of before the call. *)
Theorem failed_download_returns_true {V : Type} xml_find_text json_loads
    (s : session V) (w : world) (text : pystr) (t : instant)
    (key sid : option pystr) (pre rest : list poll_step) (st : poll_step) :
  timeout_date s w = Ok t ->
  login_accepted xml_find_text w key ->
  submit_accepted xml_find_text w sid ->
  query_cancelled s = false ->
  polls w = pre ++ st :: rest ->
  Forall (goes_on t) pre ->
  cancel_called st = false ->
  reports_done (status_reply st) ->
  cancel_after_polling w = false ->
  download_fails json_loads w ->
  exists o,
    query xml_find_text json_loads s w text = Some o
    /\ returned o = Ok true
    /\ downloads (trace o) = 1
    /\ search_results (final o) = search_results s.
Proof.
  intros Ht Hl Hsub Hs Hpolls Hpre Hc Hdone Hca Hfail.
  rewrite (query_polling _ _ _ _ _ _ _ _ Ht Hl Hsub), Hpolls.
  rewrite poll_goes_on by assumption.
  simpl. rewrite Hc. simpl.
  rewrite Hs, (is_job_completed_done _ Hdone), Hca. simpl. rewrite Hs. simpl.
  destruct (download_search_results_fails json_loads
              (set_query_end_time (clock_after st)
                 (polling_session key sid w s)) w Hfail) as [m Hm].
  rewrite Hm. eexists. split; [reflexivity|]. simpl.
  destruct (turns_trace_counts pre) as [_ H2].
  unfold downloads in *. repeat split.
  change (count is_download
            ([Sent Login; Sent (Submit (add_missing_search text))]
             ++ (turns_trace pre ++ [Sent Status])
             ++ [Sent Download; Logged m]) = 1).
  rewrite !count_app, H2. reflexivity.
Qed.

Lemma failed_download_returns_true_witness :
  exists o,
    query sample_xml sample_json (new_session (str "00:30:00"))
      world_download_503 (str "index=main") = Some o
    /\ returned o = Ok true
    /\ downloads (trace o) = 1
    /\ search_results (final o)
       = search_results (new_session (str "00:30:00")).
Proof.
  apply (failed_download_returns_true sample_xml sample_json
           (new_session (str "00:30:00")) world_download_503
           (str "index=main") (T0 + sec 1800)%Z
           (Some (str "k3y")) (Some (str "1704067200.42"))
           [running_at 1] [] (done_at 2)).
  - reflexivity.
  - sample_accepted.
  - sample_accepted.
  - reflexivity.
  - reflexivity.
  - repeat constructor. vm_compute. discriminate.
  - reflexivity.
  - exists DONE_BODY. split; reflexivity.
  - reflexivity.
  - exists 503%Z, (str "Service Unavailable"). split; [reflexivity|].
    left. discriminate.
Defined.

Example query_download_not_json :
  option_map (fun o => (returned o, search_results (final o)))
    (query sample_xml sample_json (new_session (str "00:30:00"))
       world_download_not_json (str "index=main"))
  = Some (Ok true, None).
Proof. vm_compute. reflexivity. Qed.

Example query_download_ok :
  option_map (fun o => (returned o, search_results (final o)))
    (query sample_xml sample_json (new_session (str "00:30:00"))
       (sample_world [running_at 1; done_at 2] (Reply 200 ROWS_BODY))
       (str "index=main"))
  = Some (Ok true, Some (RowsDoc sample_payload)).
Proof. vm_compute. reflexivity. Qed.

(** C10. When the cancellation flag is set when the loop is first tested
    (it was set before the call, or [cancel] is called before the first
    turn), after an accepted login and an accepted submission, [query]
    makes no status check and no download, leaves [search_results] as it
    was before the call, and returns [True], as a fully successful query
    does. *)
Theorem cancelled_before_polling_returns_true {V : Type} xml_find_text
    json_loads (s : session V) (w : world) (text : pystr) (t : instant)
    (key sid : option pystr) :
  timeout_date s w = Ok t ->
  login_accepted xml_find_text w key ->
  submit_accepted xml_find_text w sid ->
  query_cancelled s = true
  \/ (exists st rest, polls w = st :: rest /\ cancel_called st = true) ->
  exists o,
    query xml_find_text json_loads s w text = Some o
    /\ returned o = Ok true
    /\ status_checks (trace o) = 0
    /\ downloads (trace o) = 0
    /\ search_results (final o) = search_results s.
Proof.
  intros Ht Hl Hsub Hflag.
  rewrite (query_polling _ _ _ _ _ _ _ _ Ht Hl Hsub).
  assert (Hpoll : exists s',
             poll t text (polling_session key sid w s) (polls w)
             = Some (LoopLeft, s', [])
             /\ query_cancelled s' = true
             /\ search_results s' = search_results s).
  { destruct Hflag as [Hs | (st & rest & -> & Hc)].
    - destruct (polls w) as [|st rest]; simpl.
      + rewrite Hs. eexists. repeat split; assumption.
      + assert (Hk : query_cancelled
                       (cancel_if (cancel_called st)
                          (polling_session key sid w s)) = true)
          by (destruct (cancel_called st); [reflexivity|exact Hs]).
        rewrite Hk. eexists. split; [reflexivity|]. split; [exact Hk|].
        destruct (cancel_called st); reflexivity.
    - simpl. rewrite Hc. simpl. eexists. repeat split. }
  destruct Hpoll as (s' & -> & Hk & Hr).
  assert (Hk' : query_cancelled (cancel_if (cancel_after_polling w) s') = true)
    by (destruct (cancel_after_polling w); [reflexivity|exact Hk]).
  cbv zeta. rewrite Hk'. simpl.
  eexists. split; [reflexivity|]. simpl. repeat split.
  rewrite <- Hr. destruct (cancel_after_polling w); reflexivity.
Qed.

Lemma cancelled_before_polling_returns_true_witness :
  exists o,
    query sample_xml sample_json (new_session (str "00:30:00"))
      world_cancelled_at_once (str "index=main") = Some o
    /\ returned o = Ok true
    /\ status_checks (trace o) = 0
    /\ downloads (trace o) = 0
    /\ search_results (final o)
       = search_results (new_session (str "00:30:00")).
Proof.
  apply (cancelled_before_polling_returns_true sample_xml sample_json
           (new_session (str "00:30:00")) world_cancelled_at_once
           (str "index=main") (T0 + sec 1800)%Z
           (Some (str "k3y")) (Some (str "1704067200.42"))).
  - reflexivity.
  - sample_accepted.
  - sample_accepted.
  - right. eexists _, _. split; reflexivity.
Defined.

(** ** [json] *)

Section JsonFacts.

Context {V : Type}.

Implicit Types (F : list string) (row : list V) (obj : gmap string V).

(** The loop of lines 416-417 over a row that is long enough performs the
    assignments of the zipped fields and cells in order. *)
Lemma record_of_row_zip F row :
  length F <= length row ->
  record_of_row F row = Ok (foldl assign ∅ (zip F row)).
Proof.
  intros Hlen. unfold record_of_row.
  set (step := fun acc index => _).
  assert (G : forall n a obj,
             a + n = length F ->
             foldl step (Ok obj) (seq a n)
             = Ok (foldl assign obj (zip (drop a F) (drop a row)))).
  { induction n as [|n IH]; intros a obj Ha.
    - simpl. rewrite drop_ge by lia. reflexivity.
    - destruct (lookup_lt_is_Some_2 F a) as [f Hf]; [lia|].
      destruct (lookup_lt_is_Some_2 row a) as [v Hv]; [lia|].
      rewrite (drop_S _ _ _ Hf), (drop_S _ _ _ Hv).
      cbn [seq foldl zip zip_with]. unfold step at 2. cbn [bind].
      rewrite Hf, Hv. rewrite IH by lia. reflexivity. }
  rewrite (G (length F) 0 ∅) by lia. reflexivity.
Qed.

Lemma assign_other obj (l : list (string * V)) (k : string) :
  k ∉ l.*1 -> foldl assign obj l !! k = obj !! k.
Proof.
  revert obj. induction l as [|[f v] l IH]; intros obj Hk; [reflexivity|].
  change (((f, v) :: l).*1) with (f :: l.*1) in Hk.
  apply not_elem_of_cons in Hk as [Hne Hk].
  cbn [foldl]. rewrite (IH _ Hk).
  unfold assign; simpl. apply lookup_insert_ne. congruence.
Qed.

Lemma fst_zip_subset F row (k : string) : k ∈ (zip F row).*1 -> k ∈ F.
Proof.
  revert row. induction F as [|f F IH]; intros row H.
  - apply elem_of_nil in H. contradiction.
  - destruct row as [|v row]; [apply elem_of_nil in H; contradiction|].
    change ((zip (f :: F) (v :: row)).*1) with (f :: (zip F row).*1) in H.
    apply elem_of_cons in H as [->|H]; apply elem_of_cons;
      [left; reflexivity|right; exact (IH _ H)].
Qed.

(** The value a record holds for a field name: the cell at the last
    position of the name. *)
Lemma assign_last F row obj (i : nat) (f : string) :
  length F <= length row ->
  F !! i = Some f ->
  (forall j, i < j -> F !! j <> Some f) ->
  foldl assign obj (zip F row) !! f = row !! i.
Proof.
  revert row obj i. induction F as [|f0 F IH]; intros row obj i Hlen Hi Hlast;
    [discriminate|].
  destruct row as [|v0 row]; [simpl in Hlen; lia|].
  simpl in Hlen. cbn [zip zip_with foldl].
  destruct i as [|i].
  - injection Hi as ->. rewrite assign_other.
    + unfold assign; simpl. apply lookup_insert_eq.
    + intros Hin%fst_zip_subset. apply list_elem_of_lookup in Hin as [j Hj].
      apply (Hlast (S j)); [lia|exact Hj].
  - change ((v0 :: row) !! S i) with (row !! i).
    apply IH; [lia|exact Hi|].
    intros j Hj. apply (Hlast (S j)). lia.
Qed.

Lemma records_of_rows_zip F (R : list (list V)) :
  Forall (fun row => length row = length F) R ->
  records_of_rows F R = Ok (map (fun row => foldl assign ∅ (zip F row)) R).
Proof.
  induction 1 as [|row R Hrow _ IH]; [reflexivity|].
  cbn [records_of_rows map]. rewrite record_of_row_zip by lia.
  cbn [bind]. rewrite IH. reflexivity.
Qed.

(** The records of a well-shaped payload. *)
Lemma json_well_shaped (s : session V) (p : payload V) :
  search_results s = Some (RowsDoc p) ->
  Forall (fun row => length row = length (fields p)) (rows p) ->
  exists records,
    json s = Ok (Some records)
    /\ length records = length (rows p)
    /\ forall r row, rows p !! r = Some row ->
         exists obj,
           records !! r = Some obj
           /\ (forall i f, fields p !! i = Some f ->
                 (forall j, i < j -> fields p !! j <> Some f) ->
                 obj !! f = row !! i)
           /\ (forall k, k ∉ fields p -> obj !! k = None).
Proof.
  intros Hs Hshape. unfold json. rewrite Hs.
  rewrite (records_of_rows_zip _ _ Hshape). cbn [bind].
  eexists. split; [reflexivity|]. split; [apply length_map|].
  intros r row Hr. eexists. split.
  { rewrite list_lookup_fmap, Hr. reflexivity. }
  assert (Hlen : length (fields p) <= length row).
  { rewrite Forall_forall in Hshape.
    rewrite (Hshape row); [lia|]. apply list_elem_of_lookup. eauto. }
  split.
  - intros i f Hi Hlast. apply assign_last; assumption.
  - intros k Hk. rewrite assign_other; [apply lookup_empty|].
    intros Hin%fst_zip_subset. contradiction.
Qed.

End JsonFacts.

Example json_sample :
  json (session_with sample_payload)
  = Ok (Some [ {[ "a"%string := str "1"; "b"%string := str "x" ]};
               {[ "a"%string := str "2"; "b"%string := str "y" ]} ]).
Proof. vm_compute. reflexivity. Qed.

(** C8. For every stored payload with fields list F, of distinct names,
    and rows list R, each row of the length of F, [json] returns one
    record per row, in the order of R, and the record of a row maps F[i]
    to row[i] for every index i and holds no other key. When no payload
    is stored, [json] returns [None] instead of a list. *)
Theorem json_records {V : Type} (s : session V) :
  (search_results s = None -> json s = Ok None)
  /\ (forall p,
        search_results s = Some (RowsDoc p) ->
        NoDup (fields p) ->
        Forall (fun row => length row = length (fields p)) (rows p) ->
        exists records,
          json s = Ok (Some records)
          /\ length records = length (rows p)
          /\ forall r row, rows p !! r = Some row ->
               exists obj,
                 records !! r = Some obj
                 /\ (forall i f, fields p !! i = Some f -> obj !! f = row !! i)
                 /\ (forall k, k ∉ fields p -> obj !! k = None)).
Proof.
  split.
  - intros H. unfold json. rewrite H. reflexivity.
  - intros p Hs Hnodup Hshape.
    destruct (json_well_shaped s p Hs Hshape) as (records & J1 & J2 & J3).
    exists records. split; [exact J1|]. split; [exact J2|].
    intros r row Hr. destruct (J3 r row Hr) as (obj & O1 & O2 & O3).
    exists obj. split; [exact O1|]. split; [|exact O3].
    intros i f Hi. apply (O2 i f Hi).
    intros j Hlt Hj. pose proof (NoDup_lookup _ _ _ _ Hnodup Hi Hj). lia.
Qed.

Lemma json_records_witness :
  json (new_session (str "00:30:00")) = Ok None
  /\ exists records,
       json (session_with sample_payload) = Ok (Some records)
       /\ length records = length (rows sample_payload)
       /\ forall r row, rows sample_payload !! r = Some row ->
            exists obj,
              records !! r = Some obj
              /\ (forall i f, fields sample_payload !! i = Some f ->
                    obj !! f = row !! i)
              /\ (forall k, k ∉ fields sample_payload -> obj !! k = None).
Proof.
  split.
  - apply (proj1 (json_records (new_session (str "00:30:00")))).
    reflexivity.
  - apply (proj2 (json_records (session_with sample_payload)) sample_payload).
    + reflexivity.
    + apply NoDup_cons_2; [|apply NoDup_singleton].
      intros H. apply list_elem_of_singleton in H. discriminate H.
    + repeat constructor.
Defined.

(** ** [extract_event_timestamp] *)

Section TimestampFacts.

Variable tzinfo : Type.
Variable ZoneInfo : pystr -> zone_lookup tzinfo.
Variable LOCAL_TIMEZONE : tzinfo.
Variable local_time : stamp tzinfo.
Variable parse : pystr -> parse_result tzinfo.
Variable astimezone : stamp tzinfo -> tzinfo -> stamp tzinfo.
Variable strptime : pystr -> result datetime.

Abbreviation extract :=
  (extract_event_timestamp tzinfo ZoneInfo LOCAL_TIMEZONE local_time parse
     astimezone strptime).

(** A record without [_time] yields the local time and a warning. *)
Lemma extract_missing_time (event : gmap string pystr)
    (timezone : option pystr) :
  event !! "_time"%string = None ->
  extract event timezone = (Ok local_time, [WarnMissingTime]).
Proof. intros H. unfold extract_event_timestamp. rewrite H. reflexivity. Qed.

(** An aware time in a known zone is converted to that zone. *)
Lemma extract_aware (event : gmap string pystr) (name text : pystr)
    (tz tz0 : tzinfo) (fields : datetime) :
  event !! "_time"%string = Some text ->
  ZoneInfo name = ZoneFound tzinfo tz ->
  parse text = Parsed tzinfo (mk_stamp tzinfo fields (Some tz0)) ->
  extract event (Some name)
  = (Ok (astimezone (mk_stamp tzinfo fields (Some tz0)) tz), []).
Proof.
  intros He Hz Hp. unfold extract_event_timestamp.
  rewrite He, Hz, Hp. reflexivity.
Qed.

(** An exception of the parser leaves the function. *)
Lemma extract_parse_raises (event : gmap string pystr)
    (timezone : option pystr) (text : pystr) (e : exn) :
  event !! "_time"%string = Some text ->
  parse text = ParseRaises tzinfo e ->
  exists e', (extract event timezone).1 = Raise e'.
Proof.
  intros He Hp. unfold extract_event_timestamp. rewrite He, Hp.
  destruct timezone as [name|]; [|eexists; reflexivity].
  destruct (ZoneInfo name); eexists; reflexivity.
Qed.

End TimestampFacts.

Example legacy_groups_example :
  Legacy.groups TIME_10H
  = Some [str "2024"; str "01"; str "01"; str "10"; str "00"; str "00"]
  /\ option_map Legacy.reformat (Legacy.groups TIME_10H)
     = Some (str "2024-01-01 10:00:00").
Proof. split; reflexivity. Qed.

(** The record of the specification, by the parser and by the legacy
    pattern: 10:00:00 in the zone UTC either way. *)
Example extract_10h_utc :
  extract_event_timestamp sample_zone sample_ZoneInfo sample_LOCAL_TIMEZONE
    sample_local_time sample_parse sample_astimezone sample_strptime
    {[ "_time"%string := TIME_10H ]} (Some (str "UTC"))
  = (Ok stamp_10h_utc, [])
  /\ extract_event_timestamp sample_zone sample_ZoneInfo sample_LOCAL_TIMEZONE
       sample_local_time other_parse sample_astimezone sample_strptime
       {[ "_time"%string := TIME_10H ]} (Some (str "UTC"))
     = (Ok stamp_10h_utc, []).
Proof. split; vm_compute; reflexivity. Qed.

(** C9. What the code does where the claim says it never raises: the
    call of the parser on line 57 is outside every handler, so for a
    record whose [_time] the parser rejects the exception leaves
    [extract_event_timestamp]; the fallback to the local time of lines
    70-72 is not reached. *)
Theorem extract_event_timestamp_raises (tzinfo : Type)
    (ZoneInfo : pystr -> zone_lookup tzinfo) (LOCAL_TIMEZONE : tzinfo)
    (local_time : stamp tzinfo) (parse : pystr -> parse_result tzinfo)
    (astimezone : stamp tzinfo -> tzinfo -> stamp tzinfo)
    (strptime : pystr -> result datetime)
    (event : gmap string pystr) (timezone : option pystr) (text : pystr)
    (e : exn) :
  event !! "_time"%string = Some text ->
  parse text = ParseRaises tzinfo e ->
  exists e',
    (extract_event_timestamp tzinfo ZoneInfo LOCAL_TIMEZONE local_time parse
       astimezone strptime event timezone).1 = Raise e'.
Proof. apply extract_parse_raises. Qed.

Lemma extract_event_timestamp_raises_witness :
  exists e',
    (extract_event_timestamp sample_zone sample_ZoneInfo
       sample_LOCAL_TIMEZONE sample_local_time sample_parse
       sample_astimezone sample_strptime
       {[ "_time"%string := str "not a date" ]} (Some (str "UTC"))).1
    = Raise e'.
Proof.
  apply (extract_event_timestamp_raises sample_zone sample_ZoneInfo
           sample_LOCAL_TIMEZONE sample_local_time sample_parse
           sample_astimezone sample_strptime
           {[ "_time"%string := str "not a date" ]} (Some (str "UTC"))
           (str "not a date") ParserError).
  - reflexivity.
  - reflexivity.
Defined.

(** ** Calendar arithmetic on examples *)

Example calendar_examples :
  Calendar.sub (mk_datetime 2024 1 1 0 0 5) (mk_timedelta 0 15 0)
  = Ok (mk_datetime 2023 12 31 23 59 50)
  /\ Calendar.add (mk_datetime 2024 2 28 23 59 59) (mk_timedelta 0 1 0)
     = Ok (mk_datetime 2024 2 29 0 0 0)
  /\ Calendar.add (mk_datetime 2023 2 28 23 59 59) (mk_timedelta 0 1 0)
     = Ok (mk_datetime 2023 3 1 0 0 0)
  /\ Calendar.add (mk_datetime 1900 2 28 0 0 0) (mk_timedelta 1 0 0)
     = Ok (mk_datetime 1900 3 1 0 0 0)
  /\ Calendar.add (mk_datetime 2000 12 31 12 0 0) (mk_timedelta 366 0 0)
     = Ok (mk_datetime 2002 1 1 12 0 0)
  /\ Calendar.add (mk_datetime (Z.to_nat 9999) 12 31 23 59 59)
       (mk_timedelta 0 1 0)
     = Raise OverflowError
  /\ Calendar.sub (mk_datetime 1 1 1 0 0 0) (mk_timedelta 0 1 0)
     = Raise OverflowError
  /\ Calendar.ymd2ord 2024 1 1 = 738886%Z
  /\ Calendar.ord2ymd 738886 = (2024, 1, 1)%Z
  /\ Calendar.ord2ymd 3652059 = (9999, 12, 31)%Z
  /\ Calendar.ord2ymd 1 = (1, 1, 1)%Z
  /\ Calendar.ord2ymd 146097 = (400, 12, 31)%Z.
Proof. repeat split; vm_compute; reflexivity. Qed.

(** ** More on [create_timedelta] *)

Lemma split_not_nil (sep : ascii) (s : pystr) : PyStr.split sep s <> [].
Proof.
  induction s as [|c s IH]; simpl; [discriminate|].
  destruct (Ascii.eqb c sep); [discriminate|].
  destruct (PyStr.split sep s); discriminate.
Qed.

Lemma from_end_rev {A : Type} (l : list A) (k : nat) :
  from_end l (S k)
  = match nth_error (rev l) k with Some a => Ok a | None => Raise IndexError end.
Proof. unfold from_end. replace (S k - 1) with k by lia. reflexivity. Qed.

(** [create_timedelta] in terms of the components read from the end. *)
Lemma create_timedelta_used (timespec : pystr) :
  create_timedelta timespec
  = match used_components timespec with
    | [c1] => let* s := int c1 in timedelta_new 0 s 0 0
    | [c1; c2] =>
        let* s := int c1 in let* m := int c2 in timedelta_new 0 s m 0
    | [c1; c2; c3] =>
        let* s := int c1 in let* m := int c2 in let* h := int c3 in
        timedelta_new 0 s m h
    | [c1; c2; c3; c4] =>
        let* s := int c1 in let* m := int c2 in let* h := int c3 in
        let* d := int c4 in timedelta_new d s m h
    | _ => Raise IndexError
    end.
Proof.
  unfold create_timedelta, used_components.
  rewrite <- (length_rev (PyStr.split ":"%char timespec)), !from_end_rev.
  pose proof (split_not_nil ":"%char timespec) as Hne.
  destruct (rev (PyStr.split ":"%char timespec)) as [|c1 l] eqn:E.
  { apply (f_equal (@rev _)) in E. rewrite rev_involutive in E.
    contradiction. }
  destruct l as [|c2 l]; [cbn; destruct (int c1); reflexivity|].
  destruct l as [|c3 l];
    [cbn; destruct (int c1); [|reflexivity]; cbn;
     destruct (int c2); reflexivity|].
  destruct l as [|c4 l];
    [cbn; destruct (int c1); [|reflexivity]; cbn;
     destruct (int c2); [|reflexivity]; cbn; destruct (int c3); reflexivity|].
  cbn. destruct (int c1); [|reflexivity]. cbn.
  destruct (int c2); [|reflexivity]. cbn.
  destruct (int c3); [|reflexivity]. cbn.
  destruct (int c4); reflexivity.
Qed.

Lemma used_components_range (timespec : pystr) :
  1 <= length (used_components timespec) <= 4.
Proof.
  unfold used_components. rewrite length_take, length_rev.
  pose proof (split_not_nil ":"%char timespec).
  destruct (PyStr.split ":"%char timespec); [contradiction|].
  rewrite length_cons. lia.
Qed.

Lemma int_not_parsed (c : pystr) :
  PyInt.parse c = None -> int c = Raise ValueError.
Proof. unfold int. intros ->. reflexivity. Qed.

Lemma int_cases (c : pystr) :
  (exists v, int c = Ok v) \/ int c = Raise ValueError.
Proof. unfold int. destruct (PyInt.parse c); eauto. Qed.

(** X1. With more than four components, [create_timedelta] reads the
    last four only: what stands before them is ignored, integer or
    not. *)
Theorem create_timedelta_last_four (timespec : pystr) (ignored : list pystr)
    (c4 c3 c2 c1 : pystr) (d h m s : Z) :
  PyStr.split ":"%char timespec = ignored ++ [c4; c3; c2; c1] ->
  PyInt.parse c4 = Some d -> PyInt.parse c3 = Some h ->
  PyInt.parse c2 = Some m -> PyInt.parse c1 = Some s ->
  create_timedelta timespec = timedelta_new d s m h.
Proof.
  intros Hsplit H4 H3 H2 H1. rewrite create_timedelta_used.
  unfold used_components. rewrite Hsplit, rev_app_distr. cbn.
  rewrite (int_parsed _ _ H1), (int_parsed _ _ H2), (int_parsed _ _ H3),
    (int_parsed _ _ H4). reflexivity.
Qed.

Lemma create_timedelta_last_four_witness :
  create_timedelta (str "x:7:1:02:10:05") = timedelta_new 1 5 10 2.
Proof.
  apply (create_timedelta_last_four (str "x:7:1:02:10:05")
           [str "x"; str "7"] (str "1") (str "02") (str "10") (str "05"));
    reflexivity.
Defined.

(** X2. When one of the components it reads (the last four at most) is
    not an integer literal, [create_timedelta] raises [ValueError]. *)
Theorem create_timedelta_value_error (timespec : pystr) (c : pystr) :
  c ∈ used_components timespec ->
  PyInt.parse c = None ->
  create_timedelta timespec = Raise ValueError.
Proof.
  intros Hin Hc. rewrite create_timedelta_used.
  pose proof (used_components_range timespec) as Hlen.
  destruct (used_components timespec) as [|c1 [|c2 [|c3 [|c4 [|c5 l]]]]];
    simpl in Hlen; try lia;
    repeat (apply elem_of_cons in Hin as [->|Hin]);
    try (apply elem_of_nil in Hin; contradiction);
    repeat match goal with
           | |- context [int ?x] =>
               first [ rewrite (int_not_parsed x Hc)
                     | destruct (int_cases x) as [[? ->]| ->] ]; cbn
           end; reflexivity.
Qed.

Lemma create_timedelta_value_error_witness :
  create_timedelta (str "1:0x10:05") = Raise ValueError.
Proof.
  apply (create_timedelta_value_error (str "1:0x10:05") (str "0x10")).
  - vm_compute. apply list_elem_of_further, list_elem_of_here.
  - reflexivity.
Defined.

(** X3. Whatever the string, [create_timedelta] either returns a
    normalised duration of whole seconds (seconds in 0..86399, no
    microseconds, at most 999999999 days in either direction) or raises
    [ValueError] or [OverflowError]; it raises nothing else. *)
Theorem create_timedelta_outcomes (timespec : pystr) :
  match create_timedelta timespec with
  | Ok td =>
      (0 <= td_seconds td < 86400)%Z /\ td_microseconds td = 0%Z
      /\ (Z.abs (td_days td) <= MAX_DELTA_DAYS)%Z
  | Raise e => e = ValueError \/ e = OverflowError
  end.
Proof.
  assert (N : forall d s m h,
             match timedelta_new d s m h with
             | Ok td =>
                 (0 <= td_seconds td < 86400)%Z /\ td_microseconds td = 0%Z
                 /\ (Z.abs (td_days td) <= MAX_DELTA_DAYS)%Z
             | Raise e => e = ValueError \/ e = OverflowError
             end).
  { intros d s m h. unfold timedelta_new.
    destruct (Z.leb_spec (Z.abs ((d * 86400 + h * 3600 + m * 60 + s) / 86400))
                MAX_DELTA_DAYS); [|right; reflexivity].
    simpl. split; [apply Z.mod_pos_bound; lia|]. split; [reflexivity|lia]. }
  rewrite create_timedelta_used.
  pose proof (used_components_range timespec) as Hlen.
  destruct (used_components timespec) as [|c1 [|c2 [|c3 [|c4 [|c5 l]]]]];
    simpl in Hlen; try lia;
    repeat match goal with
           | |- context [int ?x] =>
               destruct (int_cases x) as [[? ->]| ->]; cbn
           end; try (left; reflexivity); apply N.
Qed.

(** ** More on the query lifecycle *)

Section MoreQueryFacts.

Context {V : Type}.
Variable xml_find_text : pystr -> pystr -> option (option pystr).
Variable json_loads : pystr -> option (json_doc V).

Implicit Types (s : session V) (w : world) (t : instant).

Lemma authenticate_keeps s (reply : http_reply) :
  let '(ok, s', tr) := authenticate xml_find_text s reply in
  search_results s' = search_results s
  /\ query_cancelled s' = query_cancelled s
  /\ downloads tr = 0 /\ status_checks tr = 0.
Proof.
  unfold authenticate. destruct reply as [code text|]; [|repeat split].
  destruct (negb (code =? 200)%Z); [repeat split|].
  destruct (xml_find_text (str "sessionKey") text); repeat split.
Qed.

Lemma execute_query_keeps s (reply : http_reply) (text : pystr) :
  let '(ok, s', tr) := execute_query xml_find_text s reply text in
  search_results s' = search_results s
  /\ query_cancelled s' = query_cancelled s
  /\ downloads tr = 0 /\ status_checks tr = 0.
Proof.
  unfold execute_query. destruct reply as [code body|]; [|repeat split].
  destruct (negb (code =? 201)%Z); [repeat split|].
  destruct (xml_find_text (str "sid") body); repeat split.
Qed.

Lemma poll_no_download t (text : pystr) s (steps : list poll_step)
    (e : loop_end) s' (tr : list event) :
  poll t text s steps = Some (e, s', tr) -> downloads tr = 0.
Proof.
  revert s e s' tr. induction steps as [|st steps IH]; intros s e s' tr; simpl.
  - destruct (query_cancelled s); [|discriminate]. intros [= _ _ <-].
    reflexivity.
  - destruct (query_cancelled (cancel_if (cancel_called st) s)).
    { intros [= _ _ <-]. reflexivity. }
    destruct (is_job_completed_trace (status_reply st)) as [_ Hd].
    destruct (is_job_completed (status_reply st)) as [[[|]|] tr0];
      simpl in Hd.
    + intros [= _ _ <-]. exact Hd.
    + destruct (t <? clock_after st)%Z.
      * intros [= _ _ <-]. unfold downloads in *.
        rewrite count_app, Hd. reflexivity.
      * destruct (poll t text _ steps) as [[[e1 s1] tr1]|] eqn:E;
          [|discriminate].
        intros [= _ _ <-]. unfold downloads in *.
        rewrite count_app, Hd. exact (IH _ _ _ _ E).
    + intros [= _ _ <-]. exact Hd.
Qed.

(** With the flag set the loop is left at its first test. *)
Lemma poll_cancelled t (text : pystr) s (steps : list poll_step) :
  query_cancelled s = true ->
  exists s', poll t text s steps = Some (LoopLeft, s', [])
             /\ query_cancelled s' = true
             /\ search_results s' = search_results s.
Proof.
  intros Hs. destruct steps as [|st steps]; simpl.
  - rewrite Hs. eauto.
  - assert (Hk : query_cancelled (cancel_if (cancel_called st) s) = true)
      by (destruct (cancel_called st); [reflexivity|exact Hs]).
    rewrite Hk. eexists. split; [reflexivity|]. split; [exact Hk|].
    destruct (cancel_called st); reflexivity.
Qed.

End MoreQueryFacts.

(** X4. A [query_timeout] with a component that is not an integer makes
    [query] raise [ValueError] on line 220, before the login: nothing is
    sent and the object is as before. *)
Theorem bad_timeout_raises_before_login {V : Type} xml_find_text json_loads
    (s : session V) (w : world) (text : pystr) (c : pystr) :
  c ∈ used_components (query_timeout s) ->
  PyInt.parse c = None ->
  query xml_find_text json_loads s w text
  = Some (mk_outcome (Raise ValueError) s []).
Proof.
  intros Hin Hc. unfold query, timeout_date.
  rewrite (create_timedelta_value_error _ _ Hin Hc). reflexivity.
Qed.

Lemma bad_timeout_raises_before_login_witness :
  query sample_xml sample_json (new_session (str "30m"))
    (sample_world [done_at 1] (Reply 200 ROWS_BODY)) (str "index=main")
  = Some (mk_outcome (Raise ValueError) (new_session (str "30m")) []).
Proof.
  apply (bad_timeout_raises_before_login sample_xml sample_json
           (new_session (str "30m")) _ (str "index=main") (str "30m")).
  - vm_compute. apply list_elem_of_here.
  - reflexivity.
Defined.

(** X5. When the login is not answered 200 with a [sessionKey] element,
    [query] returns [False] after that one request: no search is
    submitted and the object is as before. *)
Theorem login_refused_stops {V : Type} xml_find_text json_loads
    (s : session V) (w : world) (text : pystr) (t : instant) :
  timeout_date s w = Ok t ->
  (forall key, ~ login_accepted xml_find_text w key) ->
  exists m,
    query xml_find_text json_loads s w text
    = Some (mk_outcome (Ok false) s [Sent Login; Logged m]).
Proof.
  intros Ht Hno. unfold query, authenticate. rewrite Ht.
  destruct (login_reply w) as [code body|] eqn:El; [|eexists; reflexivity].
  destruct (Z.eqb_spec code 200) as [->|Hne]; simpl; [|eexists; reflexivity].
  destruct (xml_find_text (str "sessionKey") body) as [key|] eqn:Ek;
    [|eexists; reflexivity].
  exfalso. apply (Hno key). exists body. split; [exact El|exact Ek].
Qed.

Lemma login_refused_stops_witness :
  exists m,
    query sample_xml sample_json (new_session (str "00:30:00"))
      (mk_world T0 (Reply 401 (str "Unauthorized")) (Reply 201 SUBMIT_BODY)
         T0 [done_at 1] false (Reply 200 ROWS_BODY))
      (str "index=main")
    = Some (mk_outcome (Ok false) (new_session (str "00:30:00"))
              [Sent Login; Logged m]).
Proof.
  apply (login_refused_stops sample_xml sample_json
           (new_session (str "00:30:00")) _ (str "index=main")
           (T0 + sec 1800)%Z).
  - reflexivity.
  - intros key (body & Hl & _). discriminate Hl.
Defined.

(** X6. When the submission is not answered 201 with a [sid] element (a
    200 is a refusal too), [query] returns [False] without any status
    check or download; the session key of the login is kept, the search
    id and the stored results are as before. *)
Theorem submit_refused_stops {V : Type} xml_find_text json_loads
    (s : session V) (w : world) (text : pystr) (t : instant)
    (key : option pystr) :
  timeout_date s w = Ok t ->
  login_accepted xml_find_text w key ->
  (forall sid, ~ submit_accepted xml_find_text w sid) ->
  exists m,
    query xml_find_text json_loads s w text
    = Some (mk_outcome (Ok false) (set_session_key key s)
              [Sent Login; Sent (Submit (add_missing_search text)); Logged m]).
Proof.
  intros Ht (lbody & Hl & Hkey) Hno.
  unfold query, authenticate, execute_query. rewrite Ht, Hl. simpl.
  rewrite Hkey. simpl.
  destruct (submit_reply w) as [code body|] eqn:Es; [|eexists; reflexivity].
  destruct (Z.eqb_spec code 201) as [->|Hne]; simpl; [|eexists; reflexivity].
  destruct (xml_find_text (str "sid") body) as [sid|] eqn:Ei;
    [|eexists; reflexivity].
  exfalso. apply (Hno sid). exists body. split; [exact Es|exact Ei].
Qed.

Lemma submit_refused_stops_witness :
  exists m,
    query sample_xml sample_json (new_session (str "00:30:00"))
      (mk_world T0 (Reply 200 LOGIN_BODY) (Reply 200 SUBMIT_BODY)
         T0 [done_at 1] false (Reply 200 ROWS_BODY))
      (str "index=main")
    = Some (mk_outcome (Ok false)
              (set_session_key (Some (str "k3y"))
                 (new_session (str "00:30:00")))
              [Sent Login; Sent (Submit (add_missing_search (str "index=main")));
               Logged m]).
Proof.
  apply (submit_refused_stops sample_xml sample_json
           (new_session (str "00:30:00")) _ (str "index=main")
           (T0 + sec 1800)%Z (Some (str "k3y"))).
  - reflexivity.
  - sample_accepted.
  - intros sid (body & Hs & _). discriminate Hs.
Defined.

(** X7. A call of [query] that does not return [True] (it returned
    [False] or raised) has not downloaded anything and has left
    [search_results] as it was: the results of an earlier query stay in
    the object. *)
Theorem failed_query_keeps_results {V : Type} xml_find_text json_loads
    (s : session V) (w : world) (text : pystr) (o : outcome V) :
  query xml_find_text json_loads s w text = Some o ->
  returned o <> Ok true ->
  search_results (final o) = search_results s /\ downloads (trace o) = 0.
Proof.
  unfold query.
  destruct (timeout_date s w) as [t|e];
    [|intros [= <-] _; split; reflexivity].
  pose proof (authenticate_keeps xml_find_text s (login_reply w)) as HA.
  destruct (authenticate xml_find_text s (login_reply w)) as [[ok1 s1] tr1].
  destruct HA as (A1 & _ & A3 & _).
  destruct ok1; simpl; [|intros [= <-] _; split; assumption].
  pose proof (execute_query_keeps xml_find_text s1 (submit_reply w) text)
    as HE.
  destruct (execute_query xml_find_text s1 (submit_reply w) text)
    as [[ok2 s2] tr2].
  destruct HE as (E1 & _ & E3 & _).
  unfold downloads in *.
  destruct ok2; simpl.
  2:{ intros [= <-] _; simpl. split; [congruence|].
      rewrite count_app, A3, E3. reflexivity. }
  destruct (poll t text (set_query_start_time (clock_polling w) s2) (polls w))
    as [[[[|b] s3] tr3]|] eqn:EP; [| |discriminate].
  - intros Ho Hr. exfalso. apply Hr.
    destruct (negb (query_cancelled (cancel_if (cancel_after_polling w) s3))).
    + destruct (download_search_results json_loads _ (download_reply w))
        as [[r s4] tr4]. injection Ho as <-. reflexivity.
    + injection Ho as <-. reflexivity.
  - intros [= <-] _; simpl.
    pose proof (poll_search_results _ _ _ _ _ _ _ EP) as P1.
    pose proof (poll_no_download _ _ _ _ _ _ _ EP) as P2.
    unfold downloads in P2. split.
    + rewrite P1. simpl. congruence.
    + rewrite !count_app, A3, E3, P2. reflexivity.
Qed.

Lemma failed_query_keeps_results_witness :
  search_results
    (final (mk_outcome (Ok false) (session_with sample_payload)
              [Sent Login; Logged (LoginRejected 401)]))
  = search_results (session_with sample_payload)
  /\ downloads
       (trace (mk_outcome (Ok false) (session_with sample_payload)
                 [Sent Login; Logged (LoginRejected 401)])) = 0.
Proof.
  apply (failed_query_keeps_results sample_xml sample_json
           (session_with sample_payload)
           (mk_world T0 (Reply 401 (str "Unauthorized"))
              (Reply 201 SUBMIT_BODY) T0 [done_at 1] false
              (Reply 200 ROWS_BODY))
           (str "index=main")).
  - reflexivity.
  - discriminate.
Defined.

(** A cancelled object: every later call of [query] on it, whatever the
    service answers, makes no status check and no download. *)
Lemma query_on_cancelled {V : Type} xml_find_text json_loads
    (s : session V) (w : world) (text : pystr) :
  query_cancelled s = true ->
  exists o,
    query xml_find_text json_loads s w text = Some o
    /\ status_checks (trace o) = 0
    /\ downloads (trace o) = 0
    /\ query_cancelled (final o) = true
    /\ search_results (final o) = search_results s.
Proof.
  intros Hs. unfold query.
  destruct (timeout_date s w) as [t|e];
    [|eexists; split; [reflexivity|]; repeat split; exact Hs].
  pose proof (authenticate_keeps xml_find_text s (login_reply w)) as HA.
  destruct (authenticate xml_find_text s (login_reply w)) as [[ok1 s1] tr1].
  destruct HA as (A1 & A2 & A3 & A4).
  destruct ok1; simpl;
    [|eexists; split; [reflexivity|]; simpl; repeat split;
      [assumption|assumption|congruence|assumption]].
  pose proof (execute_query_keeps xml_find_text s1 (submit_reply w) text)
    as HE.
  destruct (execute_query xml_find_text s1 (submit_reply w) text)
    as [[ok2 s2] tr2].
  destruct HE as (E1 & E2 & E3 & E4).
  unfold downloads, status_checks in *.
  destruct ok2; simpl.
  2:{ eexists; split; [reflexivity|]; simpl.
      rewrite !count_app, A3, A4, E3, E4. repeat split; congruence. }
  destruct (poll_cancelled t text
              (set_query_start_time (clock_polling w) s2) (polls w))
    as (s3 & -> & P1 & P2); [simpl; congruence|].
  assert (Hk : query_cancelled (cancel_if (cancel_after_polling w) s3) = true)
    by (destruct (cancel_after_polling w); [reflexivity|exact P1]).
  rewrite Hk. simpl. eexists; split; [reflexivity|]; simpl.
  rewrite !count_app, A3, A4, E3, E4. repeat split; [exact Hk|].
  transitivity (search_results s3);
    [destruct (cancel_after_polling w); reflexivity|].
  rewrite P2. simpl. congruence.
Qed.

(** X8. Once [cancel] has been called the flag stays set: [query] never
    clears it, so every later call of [query] on that object, whatever
    the service answers, makes no status check and no download and leaves
    [search_results] as it was. *)
Theorem cancelled_object_never_polls {V : Type} xml_find_text json_loads
    (s : session V) (w : world) (text : pystr) :
  exists o,
    query xml_find_text json_loads (cancel s) w text = Some o
    /\ status_checks (trace o) = 0
    /\ downloads (trace o) = 0
    /\ query_cancelled (final o) = true
    /\ search_results (final o) = search_results s.
Proof. apply (query_on_cancelled _ _ (cancel s)). reflexivity. Qed.

(** [query] up to the download, when the job is seen done. *)
Lemma query_done {V : Type} xml_find_text json_loads
    (s : session V) (w : world) (text : pystr) (t : instant)
    (key sid : option pystr) (pre rest : list poll_step) (st : poll_step) :
  timeout_date s w = Ok t ->
  login_accepted xml_find_text w key ->
  submit_accepted xml_find_text w sid ->
  query_cancelled s = false ->
  polls w = pre ++ st :: rest ->
  Forall (goes_on t) pre ->
  cancel_called st = false ->
  reports_done (status_reply st) ->
  query xml_find_text json_loads s w text
  = let head := [Sent Login; Sent (Submit (add_missing_search text))] in
    let s1 := set_query_end_time (clock_after st)
                (polling_session key sid w s) in
    if cancel_after_polling w then
      Some (mk_outcome (Ok true) (cancel s1)
              (head ++ turns_trace pre ++ [Sent Status]))
    else
      let '(_, s2, tr) :=
        download_search_results json_loads s1 (download_reply w) in
      Some (mk_outcome (Ok true) s2
              (head ++ (turns_trace pre ++ [Sent Status]) ++ tr)).
Proof.
  intros Ht Hl Hsub Hs Hpolls Hpre Hc Hdone.
  rewrite (query_polling _ _ _ _ _ _ _ _ Ht Hl Hsub), Hpolls.
  rewrite poll_goes_on by assumption.
  simpl. rewrite Hc. simpl. rewrite Hs, (is_job_completed_done _ Hdone).
  destruct (cancel_after_polling w); simpl; [reflexivity|].
  rewrite Hs. reflexivity.
Qed.

Lemma trace_counts (text : pystr) (pre : list poll_step) (tail : list event) :
  status_checks
    ([Sent Login; Sent (Submit text)]
     ++ (turns_trace pre ++ [Sent Status]) ++ tail)
  = length pre + 1 + status_checks tail
  /\ downloads
       ([Sent Login; Sent (Submit text)]
        ++ (turns_trace pre ++ [Sent Status]) ++ tail)
     = downloads tail.
Proof.
  destruct (turns_trace_counts pre) as [H1 H2].
  unfold status_checks, downloads in *.
  rewrite !count_app, H1, H2. split; reflexivity.
Qed.

(** X9. The successful run: after an accepted login and submission, any
    number of status checks that say running before the deadline, a
    status check that says done (however late) and a download answered
    200 with a JSON document that has rows, [query] returns [True]; the
    document is stored in [search_results], the session key and search id
    are those the service gave, [query_end_time] is the clock at the done
    check, and exactly one download and one status check per turn were
    sent. *)
Theorem query_succeeds {V : Type} xml_find_text json_loads
    (s : session V) (w : world) (text : pystr) (t : instant)
    (key sid : option pystr) (pre rest : list poll_step) (st : poll_step)
    (body : pystr) (p : payload V) :
  timeout_date s w = Ok t ->
  login_accepted xml_find_text w key ->
  submit_accepted xml_find_text w sid ->
  query_cancelled s = false ->
  polls w = pre ++ st :: rest ->
  Forall (goes_on t) pre ->
  cancel_called st = false ->
  reports_done (status_reply st) ->
  cancel_after_polling w = false ->
  download_reply w = Reply 200 body ->
  json_loads body = Some (RowsDoc p) ->
  exists o,
    query xml_find_text json_loads s w text = Some o
    /\ returned o = Ok true
    /\ search_results (final o) = Some (RowsDoc p)
    /\ session_key (final o) = key
    /\ search_id (final o) = sid
    /\ query_start_time (final o) = Some (clock_polling w)
    /\ query_end_time (final o) = Some (clock_after st)
    /\ status_checks (trace o) = length pre + 1
    /\ downloads (trace o) = 1.
Proof.
  intros Ht Hl Hsub Hs Hpolls Hpre Hc Hdone Hca Hd Hj.
  rewrite (query_done _ _ _ _ _ _ _ _ _ _ _ Ht Hl Hsub Hs Hpolls Hpre Hc Hdone).
  cbv zeta. rewrite Hca, Hd. simpl. rewrite Hj.
  eexists. split; [reflexivity|]. cbn [returned final trace].
  destruct (trace_counts (add_missing_search text) pre [Sent Download])
    as [T1 T2].
  repeat split;
    [etransitivity;
       [exact T1|change (status_checks [Sent Download]) with 0; lia]
    |etransitivity; [exact T2|reflexivity]].
Qed.

Lemma query_succeeds_witness :
  exists o,
    query sample_xml sample_json (new_session (str "00:00:10"))
      world_done_late (str "index=main") = Some o
    /\ returned o = Ok true
    /\ search_results (final o) = Some (RowsDoc sample_payload)
    /\ session_key (final o) = Some (str "k3y")
    /\ search_id (final o) = Some (str "1704067200.42")
    /\ query_start_time (final o) = Some (clock_polling world_done_late)
    /\ query_end_time (final o) = Some (clock_after (done_at 11))
    /\ status_checks (trace o) = length ten_seconds_running + 1
    /\ downloads (trace o) = 1.
Proof.
  apply (query_succeeds sample_xml sample_json
           (new_session (str "00:00:10")) world_done_late (str "index=main")
           (T0 + sec 10)%Z (Some (str "k3y")) (Some (str "1704067200.42"))
           ten_seconds_running [] (done_at 11) ROWS_BODY sample_payload).
  - reflexivity.
  - sample_accepted.
  - sample_accepted.
  - reflexivity.
  - reflexivity.
  - repeat (constructor; [sample_goes_on|]). constructor.
  - reflexivity.
  - exists DONE_BODY. split; reflexivity.
  - reflexivity.
  - reflexivity.
  - reflexivity.
Defined.

(** X10. From [query] to [json]: after the successful run, when every
    downloaded row has the length of the fields list, [json] on the
    object returns one record per downloaded row, in order, the record of
    a row mapping each field name that does not occur again later to the
    cell at its index. *)
Theorem query_then_json {V : Type} xml_find_text json_loads
    (s : session V) (w : world) (text : pystr) (t : instant)
    (key sid : option pystr) (pre rest : list poll_step) (st : poll_step)
    (body : pystr) (p : payload V) :
  timeout_date s w = Ok t ->
  login_accepted xml_find_text w key ->
  submit_accepted xml_find_text w sid ->
  query_cancelled s = false ->
  polls w = pre ++ st :: rest ->
  Forall (goes_on t) pre ->
  cancel_called st = false ->
  reports_done (status_reply st) ->
  cancel_after_polling w = false ->
  download_reply w = Reply 200 body ->
  json_loads body = Some (RowsDoc p) ->
  Forall (fun row => length row = length (fields p)) (rows p) ->
  exists o records,
    query xml_find_text json_loads s w text = Some o
    /\ json (final o) = Ok (Some records)
    /\ length records = length (rows p)
    /\ forall r row, rows p !! r = Some row ->
         exists obj,
           records !! r = Some obj
           /\ forall i f, fields p !! i = Some f ->
                (forall j, i < j -> fields p !! j <> Some f) ->
                obj !! f = row !! i.
Proof.
  intros Ht Hl Hsub Hs Hpolls Hpre Hc Hdone Hca Hd Hj Hshape.
  rewrite (query_done _ _ _ _ _ _ _ _ _ _ _ Ht Hl Hsub Hs Hpolls Hpre Hc Hdone).
  cbv zeta. rewrite Hca, Hd. simpl. rewrite Hj.
  eexists. 
  edestruct (json_well_shaped
              (set_search_results (Some (RowsDoc p))
                 (set_query_end_time (clock_after st)
                    (polling_session key sid w s))) p eq_refl Hshape)
    as (records & J1 & J2 & J3).
  exists records. split; [reflexivity|]. split; [exact J1|].
  split; [exact J2|].
  intros r row Hr. destruct (J3 r row Hr) as (obj & O1 & O2 & _).
  exists obj. split; assumption.
Qed.

Lemma query_then_json_witness :
  exists o records,
    query sample_xml sample_json (new_session (str "00:00:10"))
      world_done_late (str "index=main") = Some o
    /\ json (final o) = Ok (Some records)
    /\ length records = length (rows sample_payload)
    /\ forall r row, rows sample_payload !! r = Some row ->
         exists obj,
           records !! r = Some obj
           /\ forall i f, fields sample_payload !! i = Some f ->
                (forall j, i < j -> fields sample_payload !! j <> Some f) ->
                obj !! f = row !! i.
Proof.
  apply (query_then_json sample_xml sample_json
           (new_session (str "00:00:10")) world_done_late (str "index=main")
           (T0 + sec 10)%Z (Some (str "k3y")) (Some (str "1704067200.42"))
           ten_seconds_running [] (done_at 11) ROWS_BODY sample_payload).
  - reflexivity.
  - sample_accepted.
  - sample_accepted.
  - reflexivity.
  - reflexivity.
  - repeat (constructor; [sample_goes_on|]). constructor.
  - reflexivity.
  - exists DONE_BODY. split; reflexivity.
  - reflexivity.
  - reflexivity.
  - reflexivity.
  - repeat constructor.
Defined.

(** X11. A download answered 200 with a JSON document on which
    [len(doc["rows"])] raises: [download_search_results] reports [False],
    yet line 394 has already replaced [search_results] by the document,
    and [query] returns [True]. For [null] the attribute becomes [None],
    so that an earlier result is gone and [json] returns [None]; for any
    other such document [json] raises what reading the rows raises. *)
Theorem download_without_rows {V : Type} xml_find_text json_loads
    (s : session V) (w : world) (text : pystr) (t : instant)
    (key sid : option pystr) (pre rest : list poll_step) (st : poll_step)
    (body : pystr) (doc : json_doc V) :
  timeout_date s w = Ok t ->
  login_accepted xml_find_text w key ->
  submit_accepted xml_find_text w sid ->
  query_cancelled s = false ->
  polls w = pre ++ st :: rest ->
  Forall (goes_on t) pre ->
  cancel_called st = false ->
  reports_done (status_reply st) ->
  cancel_after_polling w = false ->
  download_reply w = Reply 200 body ->
  json_loads body = Some doc ->
  doc = NullDoc \/ (exists e, doc = NoRowsDoc e) ->
  (forall s', (download_search_results json_loads s' (download_reply w)).1.1
              = Some false)
  /\ exists o,
       query xml_find_text json_loads s w text = Some o
       /\ returned o = Ok true
       /\ search_results (final o) = python_value doc
       /\ json (final o)
          = match doc with
            | NoRowsDoc e => Raise e
            | _ => Ok None
            end.
Proof.
  intros Ht Hl Hsub Hs Hpolls Hpre Hc Hdone Hca Hd Hj Hdoc. split.
  { intros s'. rewrite Hd. simpl. rewrite Hj.
    destruct Hdoc as [-> | [e ->]]; reflexivity. }
  rewrite (query_done _ _ _ _ _ _ _ _ _ _ _ Ht Hl Hsub Hs Hpolls Hpre Hc Hdone).
  cbv zeta. rewrite Hca, Hd. simpl. rewrite Hj.
  destruct Hdoc as [-> | [e ->]];
    (eexists; split; [reflexivity|]; repeat split).
Qed.

(** X12. [cancel] called during polling: the loop is left at its next
    test, before another status check; [query] returns [True] without a
    download, and neither [search_results] nor [query_end_time] is
    written. *)
Theorem cancel_during_polling {V : Type} xml_find_text json_loads
    (s : session V) (w : world) (text : pystr) (t : instant)
    (key sid : option pystr) (pre rest : list poll_step) (st : poll_step) :
  timeout_date s w = Ok t ->
  login_accepted xml_find_text w key ->
  submit_accepted xml_find_text w sid ->
  query_cancelled s = false ->
  polls w = pre ++ st :: rest ->
  Forall (goes_on t) pre ->
  cancel_called st = true ->
  exists o,
    query xml_find_text json_loads s w text = Some o
    /\ returned o = Ok true
    /\ status_checks (trace o) = length pre
    /\ downloads (trace o) = 0
    /\ query_cancelled (final o) = true
    /\ search_results (final o) = search_results s
    /\ query_end_time (final o) = query_end_time s.
Proof.
  intros Ht Hl Hsub Hs Hpolls Hpre Hc.
  rewrite (query_polling _ _ _ _ _ _ _ _ Ht Hl Hsub), Hpolls.
  rewrite poll_goes_on by assumption.
  simpl. rewrite Hc. simpl.
  assert (Hk : query_cancelled
                 (cancel_if (cancel_after_polling w)
                    (cancel (polling_session key sid w s))) = true)
    by (destruct (cancel_after_polling w); reflexivity).
  rewrite Hk. simpl. eexists. split; [reflexivity|].
  cbn [returned final trace].
  destruct (turns_trace_counts pre) as [H1 H2].
  unfold status_checks, downloads in *.
  split; [reflexivity|].
  split.
  { change (count is_status
              ([Sent Login; Sent (Submit (add_missing_search text))]
               ++ turns_trace pre ++ []) = length pre).
    rewrite !count_app, H1.
    change (count is_status
              [Sent Login; Sent (Submit (add_missing_search text))]) with 0.
    change (count is_status []) with 0. lia. }
  split.
  { change (count is_download
              ([Sent Login; Sent (Submit (add_missing_search text))]
               ++ turns_trace pre ++ []) = 0).
    rewrite !count_app, H2. reflexivity. }
  split; [exact Hk|].
  destruct (cancel_after_polling w); split; reflexivity.
Qed.

Lemma cancel_during_polling_witness :
  exists o,
    query sample_xml sample_json (new_session (str "00:30:00"))
      world_cancelled (str "index=main") = Some o
    /\ returned o = Ok true
    /\ status_checks (trace o) = length [running_at 1]
    /\ downloads (trace o) = 0
    /\ query_cancelled (final o) = true
    /\ search_results (final o)
       = search_results (new_session (str "00:30:00"))
    /\ query_end_time (final o)
       = query_end_time (new_session (str "00:30:00")).
Proof.
  apply (cancel_during_polling sample_xml sample_json
           (new_session (str "00:30:00")) world_cancelled (str "index=main")
           (T0 + sec 1800)%Z (Some (str "k3y")) (Some (str "1704067200.42"))
           [running_at 1] []
           (mk_poll_step true (Reply 200 RUNNING_BODY) (T0 + sec 2)%Z)).
  - reflexivity.
  - sample_accepted.
  - sample_accepted.
  - reflexivity.
  - reflexivity.
  - repeat (constructor; [sample_goes_on|]). constructor.
  - reflexivity.
Defined.

(** X13. [cancel] called after the job was seen done and before the test
    of line 250: the download is skipped and [query] still returns
    [True], with [query_end_time] set and [search_results] as before. *)
Theorem cancel_after_done_skips_download {V : Type} xml_find_text json_loads
    (s : session V) (w : world) (text : pystr) (t : instant)
    (key sid : option pystr) (pre rest : list poll_step) (st : poll_step) :
  timeout_date s w = Ok t ->
  login_accepted xml_find_text w key ->
  submit_accepted xml_find_text w sid ->
  query_cancelled s = false ->
  polls w = pre ++ st :: rest ->
  Forall (goes_on t) pre ->
  cancel_called st = false ->
  reports_done (status_reply st) ->
  cancel_after_polling w = true ->
  exists o,
    query xml_find_text json_loads s w text = Some o
    /\ returned o = Ok true
    /\ downloads (trace o) = 0
    /\ search_results (final o) = search_results s
    /\ query_end_time (final o) = Some (clock_after st).
Proof.
  intros Ht Hl Hsub Hs Hpolls Hpre Hc Hdone Hca.
  rewrite (query_done _ _ _ _ _ _ _ _ _ _ _ Ht Hl Hsub Hs Hpolls Hpre Hc Hdone).
  cbv zeta. rewrite Hca. eexists. split; [reflexivity|].
  cbn [returned final trace]. split; [reflexivity|]. split; [|split; reflexivity].
  destruct (turns_trace_counts pre) as [_ H2]. unfold downloads in *.
  rewrite !count_app, H2. reflexivity.
Qed.

Lemma cancel_after_done_skips_download_witness :
  exists o,
    query sample_xml sample_json (new_session (str "00:30:00"))
      (mk_world T0 (Reply 200 LOGIN_BODY) (Reply 201 SUBMIT_BODY) T0
         [done_at 1] true (Reply 200 ROWS_BODY))
      (str "index=main") = Some o
    /\ returned o = Ok true
    /\ downloads (trace o) = 0
    /\ search_results (final o)
       = search_results (new_session (str "00:30:00"))
    /\ query_end_time (final o) = Some (clock_after (done_at 1)).
Proof.
  apply (cancel_after_done_skips_download sample_xml sample_json
           (new_session (str "00:30:00")) _ (str "index=main")
           (T0 + sec 1800)%Z (Some (str "k3y")) (Some (str "1704067200.42"))
           [] [] (done_at 1)).
  - reflexivity.
  - sample_accepted.
  - sample_accepted.
  - reflexivity.
  - reflexivity.
  - constructor.
  - reflexivity.
  - exists DONE_BODY. split; reflexivity.
  - reflexivity.
Defined.

Lemma download_without_rows_witness :
  (forall s',
     (download_search_results sample_json_objects s'
        (download_reply (sample_world [done_at 1] (Reply 200 (str "null"))))).1.1
     = Some false)
  /\ exists o,
       query sample_xml sample_json_objects (session_with sample_payload)
         (sample_world [done_at 1] (Reply 200 (str "null")))
         (str "index=main") = Some o
       /\ returned o = Ok true
       /\ search_results (final o) = python_value NullDoc
       /\ json (final o) = Ok None.
Proof.
  apply (download_without_rows sample_xml sample_json_objects
           (session_with sample_payload)
           (sample_world [done_at 1] (Reply 200 (str "null")))
           (str "index=main") (T0 + sec 1800)%Z
           (Some (str "k3y")) (Some (str "1704067200.42"))
           [] [] (done_at 1) (str "null") NullDoc).
  - reflexivity.
  - sample_accepted.
  - sample_accepted.
  - reflexivity.
  - reflexivity.
  - constructor.
  - reflexivity.
  - exists DONE_BODY. split; reflexivity.
  - reflexivity.
  - reflexivity.
  - reflexivity.
  - left. reflexivity.
Defined.

Example download_empty_object :
  option_map (fun o => (returned o, search_results (final o), json (final o)))
    (query sample_xml sample_json_objects (session_with sample_payload)
       (sample_world [done_at 1] (Reply 200 (str "{}"))) (str "index=main"))
  = Some (Ok true, Some (NoRowsDoc KeyError), Raise KeyError).
Proof. vm_compute. reflexivity. Qed.

(** ** The status answer *)

Lemma startswith_inv (p s : pystr) :
  PyStr.startswith p s = true -> exists r, s = p ++ r.
Proof.
  revert s. induction p as [|a p IH]; intros s H; [exists s; reflexivity|].
  destruct s as [|c s]; [discriminate|]. simpl in H.
  apply andb_prop in H as [Ha Hp]. apply Ascii.eqb_eq in Ha as <-.
  destruct (IH _ Hp) as [r ->]. exists r. reflexivity.
Qed.

Lemma skipn_app_exact {A : Type} (p r : list A) : skipn (length p) (p ++ r) = r.
Proof. induction p; simpl; [reflexivity|assumption]. Qed.

Lemma match_isDone_inv (text : pystr) (d : ascii) :
  match_isDone text = Some d ->
  (d = "0"%char \/ d = "1"%char)
  /\ exists post, text = ISDONE_OPEN ++ d :: ISDONE_CLOSE ++ post.
Proof.
  unfold match_isDone.
  destruct (PyStr.startswith ISDONE_OPEN text) eqn:E; [|discriminate].
  apply startswith_inv in E as [r ->]. rewrite skipn_app_exact.
  destruct r as [|c r]; [discriminate|].
  destruct (Ascii.eqb c "0"%char || Ascii.eqb c "1"%char) eqn:Ec;
    [|discriminate].
  destruct (PyStr.startswith ISDONE_CLOSE r) eqn:Er; [|discriminate].
  simpl. intros [= <-].
  apply startswith_inv in Er as [post ->]. split.
  - apply orb_prop in Ec as [H|H]; apply Ascii.eqb_eq in H; auto.
  - exists post. reflexivity.
Qed.

Lemma match_isDone_here (d : ascii) (post : pystr) :
  d = "0"%char \/ d = "1"%char ->
  match_isDone (ISDONE_OPEN ++ d :: ISDONE_CLOSE ++ post) = Some d.
Proof.
  intros Hd. unfold match_isDone.
  rewrite startswith_app, skipn_app_exact, startswith_app.
  destruct Hd as [-> | ->]; reflexivity.
Qed.

(** X14. The scan of the status body finds a value exactly when the body
    contains [<s:key name="isDone">d</s:key>] with [d] the digit 0 or 1,
    and the value found is the digit of such a key; a key at the very
    start of the body is the one found. *)
Theorem search_isDone_contains (text : pystr) :
  (forall d, search_isDone text = Some d ->
             (d = "0"%char \/ d = "1"%char) /\ has_isDone d text)
  /\ (forall d, (d = "0"%char \/ d = "1"%char) -> has_isDone d text ->
                is_Some (search_isDone text))
  /\ (forall d post, (d = "0"%char \/ d = "1"%char) ->
        search_isDone (ISDONE_OPEN ++ d :: ISDONE_CLOSE ++ post) = Some d).
Proof.
  split; [|split].
  - induction text as [|c text IH]; intros d; simpl.
    + discriminate.
    + destruct (match_isDone (c :: text)) as [d'|] eqn:E.
      * intros [= ->]. apply match_isDone_inv in E as [Hd [post E]].
        split; [exact Hd|]. exists [], post. exact E.
      * intros H. destruct (IH _ H) as [Hd (pre & post & ->)].
        split; [exact Hd|]. exists (c :: pre), post. reflexivity.
  - intros d Hd (pre & post & ->). induction pre as [|c pre IH].
    + change ([] ++ ISDONE_OPEN ++ d :: ISDONE_CLOSE ++ post)
        with (ISDONE_OPEN ++ d :: ISDONE_CLOSE ++ post).
      exists d.
      change (search_isDone (ISDONE_OPEN ++ d :: ISDONE_CLOSE ++ post))
        with (match match_isDone (ISDONE_OPEN ++ d :: ISDONE_CLOSE ++ post)
              with Some d' => Some d' | None => search_isDone
                  (tl (ISDONE_OPEN ++ d :: ISDONE_CLOSE ++ post)) end).
      rewrite (match_isDone_here d post Hd). reflexivity.
    + change (search_isDone ((c :: pre) ++ ISDONE_OPEN ++ d :: ISDONE_CLOSE ++ post))
        with (match match_isDone
                      (c :: pre ++ ISDONE_OPEN ++ d :: ISDONE_CLOSE ++ post)
              with Some d' => Some d'
              | None => search_isDone
                          (pre ++ ISDONE_OPEN ++ d :: ISDONE_CLOSE ++ post)
              end).
      destruct (match_isDone _); [eexists; reflexivity|exact IH].
  - intros d post Hd.
    change (search_isDone (ISDONE_OPEN ++ d :: ISDONE_CLOSE ++ post))
      with (match match_isDone (ISDONE_OPEN ++ d :: ISDONE_CLOSE ++ post)
            with Some d' => Some d' | None => search_isDone
                (tl (ISDONE_OPEN ++ d :: ISDONE_CLOSE ++ post)) end).
    rewrite (match_isDone_here d post Hd). reflexivity.
Qed.

Lemma search_isDone_contains_witness :
  (("1"%char = "0"%char \/ "1"%char = "1"%char) /\ has_isDone "1" DONE_BODY)
  /\ is_Some (search_isDone RUNNING_BODY).
Proof.
  split.
  - apply (proj1 (search_isDone_contains DONE_BODY) "1"%char). reflexivity.
  - apply (proj1 (proj2 (search_isDone_contains RUNNING_BODY)) "0"%char).
    + left. reflexivity.
    + exists (str "<entry><content><s:dict>"),
        (str "</s:dict></content></entry>"). reflexivity.
Defined.

(** ** More on [json] *)

Section MoreJsonFacts.

Context {V : Type}.

Implicit Types (F : list string) (row : list V) (obj : gmap string V).

(** The loop of lines 416-417 raises [IndexError] on a short row. *)
Lemma record_of_row_short F row :
  length row < length F -> record_of_row F row = Raise IndexError.
Proof.
  intros Hlen. unfold record_of_row.
  set (step := fun acc index => _).
  assert (R : forall l, foldl step (Raise IndexError) l = Raise IndexError).
  { induction l as [|i l IH]; [reflexivity|]. simpl. exact IH. }
  assert (G : forall n a obj,
             a <= length row -> length row < a + n -> a + n <= length F ->
             foldl step (Ok obj) (seq a n) = Raise IndexError).
  { induction n as [|n IH]; intros a obj Ha Hn HF; [lia|].
    cbn [seq foldl]. unfold step at 2. cbn [bind].
    destruct (lookup_lt_is_Some_2 F a) as [f Hf]; [lia|]. rewrite Hf.
    destruct (row !! a) as [v|] eqn:Hv.
    - apply IH; [|lia|lia]. apply lookup_lt_Some in Hv. lia.
    - apply R. }
  apply (G (length F) 0 ∅); lia.
Qed.

Lemma record_of_row_cases F row :
  (exists obj, record_of_row F row = Ok obj)
  \/ record_of_row F row = Raise IndexError.
Proof.
  destruct (Nat.le_gt_cases (length F) (length row)) as [H|H].
  - left. eexists. apply record_of_row_zip. exact H.
  - right. apply record_of_row_short. exact H.
Qed.

Lemma records_of_rows_short F (R : list (list V)) :
  Exists (fun row => length row < length F) R ->
  records_of_rows F R = Raise IndexError.
Proof.
  induction 1 as [row R Hrow|row R _ IH]; cbn [records_of_rows].
  - rewrite (record_of_row_short _ _ Hrow). reflexivity.
  - destruct (record_of_row_cases F row) as [[obj ->]| ->]; [|reflexivity].
    cbn [bind]. rewrite IH. reflexivity.
Qed.

Lemma records_of_rows_take F (R : list (list V)) :
  Forall (fun row => length F <= length row) R ->
  records_of_rows F R = records_of_rows F (map (take (length F)) R).
Proof.
  induction 1 as [|row R Hrow _ IH]; [reflexivity|].
  cbn [records_of_rows map]. rewrite IH.
  rewrite (record_of_row_zip F row Hrow).
  rewrite (record_of_row_zip F (take (length F) row))
    by (rewrite length_take; lia).
  replace (zip F (take (length F) row)) with (zip F row); [reflexivity|].
  clear. revert row. induction F as [|f F IH]; intros [|v row];
    simpl; try reflexivity. f_equal. apply IH.
Qed.

End MoreJsonFacts.

(** X15. When a stored row is shorter than the fields list, [json] raises
    [IndexError] and returns no record at all, not even those of the
    rows before it. *)
Theorem json_short_row {V : Type} (s : session V) (p : payload V) :
  search_results s = Some (RowsDoc p) ->
  Exists (fun row => length row < length (fields p)) (rows p) ->
  json s = Raise IndexError.
Proof.
  intros Hs Hshort. unfold json. rewrite Hs.
  rewrite (records_of_rows_short _ _ Hshort). reflexivity.
Qed.

Lemma json_short_row_witness :
  json (session_with
          (mk_payload ["a"; "b"]%string [[str "1"; str "x"]; [str "2"]]))
  = Raise IndexError.
Proof.
  apply (json_short_row _
           (mk_payload ["a"; "b"]%string [[str "1"; str "x"]; [str "2"]])).
  - reflexivity.
  - apply Exists_cons_tl, Exists_cons_hd. simpl. lia.
Defined.

(** X16. The cells of a row beyond the length of the fields list are
    ignored: when every row is at least as long as the fields list,
    [json] returns what it returns for the rows cut to that length. *)
Theorem json_ignores_surplus_cells {V : Type} (s : session V) (p : payload V) :
  search_results s = Some (RowsDoc p) ->
  Forall (fun row => length (fields p) <= length row) (rows p) ->
  json s
  = json (set_search_results
            (Some (RowsDoc (mk_payload (fields p)
                              (map (take (length (fields p))) (rows p))))) s).
Proof.
  intros Hs Hlong. unfold json. rewrite Hs. simpl.
  rewrite (records_of_rows_take _ _ Hlong). reflexivity.
Qed.

Lemma json_ignores_surplus_cells_witness :
  json (session_with
          (mk_payload ["a"; "b"]%string [[str "1"; str "x"; str "extra"]]))
  = json (set_search_results
            (Some (RowsDoc (mk_payload ["a"; "b"]%string
                              (map (take 2) [[str "1"; str "x"; str "extra"]]))))
            (session_with
               (mk_payload ["a"; "b"]%string
                  [[str "1"; str "x"; str "extra"]]))).
Proof.
  apply (json_ignores_surplus_cells _
           (mk_payload ["a"; "b"]%string [[str "1"; str "x"; str "extra"]])).
  - reflexivity.
  - repeat constructor.
Defined.

(** ** More on the time-bounded query *)

(** X17. A query whose first word merely begins with the letters
    [search] counts as having the keyword: nothing is prepended, and the
    two clauses are put right after those six letters, in the middle of
    the word. *)
Theorem keyword_inside_word (latest earliest : pystr) (debug : bool)
    (x : pystr) (s e : datetime) :
  add_missing_search (str "search" ++ x) = str "search" ++ x
  /\ bounded_query latest earliest debug (str "search" ++ x) (Some s) (Some e)
     = Ok (str "search " ++ earliest ++ strftime_splunk s ++ str " "
           ++ latest ++ strftime_splunk e ++ x).
Proof.
  split; [reflexivity|]. rewrite bounded_query_both. reflexivity.
Qed.

Example keyword_inside_word_example :
  query_with_time_text true (str "searchable=1")
    (Some dt_2024_01_01_000000) (Some dt_2024_01_01_000010)
  = Ok (str "search earliest=01/01/2024:00:00:00 latest=01/01/2024:00:00:10able=1").
Proof. reflexivity. Qed.

(** X18. White space in front of a query that has the keyword is dropped
    from the time-bounded query, while [execute_query] alone submits such
    a query as it is, white space included. *)
Theorem leading_space_dropped {V : Type} xml_find_text (sess : session V)
    (reply : http_reply) (latest earliest : pystr) (debug : bool)
    (ws query : pystr) (s e : datetime) :
  Forall (fun c => PyStr.isspace c = true) ws ->
  starts_with_search query = true ->
  bounded_query latest earliest debug (ws ++ query) (Some s) (Some e)
  = bounded_query latest earliest debug query (Some s) (Some e)
  /\ submitted (execute_query xml_find_text sess reply (ws ++ query)).2
     = [ws ++ query].
Proof.
  intros Hws Hq.
  assert (Hq' : starts_with_search (ws ++ query) = true).
  { unfold starts_with_search. rewrite (lstrip_spaces _ _ Hws). exact Hq. }
  split.
  - rewrite !bounded_query_both. unfold after_search.
    rewrite Hq, Hq', (lstrip_spaces _ _ Hws). reflexivity.
  - rewrite execute_query_submitted. unfold add_missing_search.
    rewrite Hq'. reflexivity.
Qed.

Lemma leading_space_dropped_witness :
  bounded_query (str "latest=") (str "earliest=") true
    (str "  " ++ str "SEARCH index=main")
    (Some dt_2024_01_01_000000) (Some dt_2024_01_01_000010)
  = bounded_query (str "latest=") (str "earliest=") true
      (str "SEARCH index=main")
      (Some dt_2024_01_01_000000) (Some dt_2024_01_01_000010)
  /\ submitted (execute_query sample_xml (new_session (str "00:30:00"))
                  (Reply 201 SUBMIT_BODY)
                  (str "  " ++ str "SEARCH index=main")).2
     = [str "  " ++ str "SEARCH index=main"].
Proof.
  apply (leading_space_dropped sample_xml (new_session (str "00:30:00"))
           (Reply 201 SUBMIT_BODY) (str "latest=") (str "earliest=") true
           (str "  ") (str "SEARCH index=main")).
  - repeat constructor.
  - reflexivity.
Defined.

(** X19. [query_with_index_time] builds, from two datetimes, the keyword,
    [_index_earliest=<start>], a space, [_index_latest=<end>] and the rest
    of the query, each time being written by
    [strftime("%m/%d/%Y:%H:%M:%S")], that is as MM/DD/YYYY:HH:MM:SS when
    its year has four digits; [_index_earliest=] is at index 7 of the
    result, which begins with the keyword. *)
Theorem query_with_index_time_text_both (debug : bool) (query : pystr)
    (s e : datetime) :
  fields_in_range s -> fields_in_range e ->
  let built :=
    str "search " ++ str "_index_earliest=" ++ strftime_splunk s ++ str " "
    ++ str "_index_latest=" ++ strftime_splunk e ++ after_search query in
  query_with_index_time_text debug query (Some s) (Some e) = Ok built
  /\ PyStr.find (str "_index_earliest=") built = Some 7
  /\ starts_with_search built = true
  /\ (1000 <= year s -> strftime_splunk s = mm_dd_yyyy_hh_mm_ss s)
  /\ (1000 <= year e -> strftime_splunk e = mm_dd_yyyy_hh_mm_ss e).
Proof.
  intros Hs He built. split; [apply bounded_query_both|].
  split; [reflexivity|]. split; [reflexivity|].
  split; intros Hwide; apply strftime_splunk_fixed; assumption.
Qed.

Lemma query_with_index_time_text_both_witness :
  let built :=
    str "search " ++ str "_index_earliest="
    ++ strftime_splunk dt_2024_01_01_000000 ++ str " "
    ++ str "_index_latest=" ++ strftime_splunk dt_2024_01_01_000010
    ++ after_search (str "index=main") in
  query_with_index_time_text true (str "index=main")
    (Some dt_2024_01_01_000000) (Some dt_2024_01_01_000010) = Ok built
  /\ PyStr.find (str "_index_earliest=") built = Some 7
  /\ starts_with_search built = true
  /\ (1000 <= year dt_2024_01_01_000000 ->
      strftime_splunk dt_2024_01_01_000000
      = mm_dd_yyyy_hh_mm_ss dt_2024_01_01_000000)
  /\ (1000 <= year dt_2024_01_01_000010 ->
      strftime_splunk dt_2024_01_01_000010
      = mm_dd_yyyy_hh_mm_ss dt_2024_01_01_000010).
Proof.
  apply (query_with_index_time_text_both true (str "index=main")
           dt_2024_01_01_000000 dt_2024_01_01_000010);
    unfold fields_in_range; simpl; lia.
Defined.

Section SubmittedFacts.

Context {V : Type}.
Variable xml_find_text : pystr -> pystr -> option (option pystr).
Variable json_loads : pystr -> option (json_doc V).

Lemma submitted_app (a b : list event) :
  submitted (a ++ b) = submitted a ++ submitted b.
Proof. unfold submitted. apply flat_map_app. Qed.

Lemma is_job_completed_submitted (reply : http_reply) :
  submitted (is_job_completed reply).2 = [].
Proof.
  unfold is_job_completed. destruct reply as [code text|]; [|reflexivity].
  destruct (negb (code =? 200)%Z); [reflexivity|].
  destruct (search_isDone text) as [d|]; [|reflexivity].
  destruct (Ascii.eqb d "1"%char); reflexivity.
Qed.

Lemma poll_submitted (t : instant) (text : pystr) (s : session V)
    (steps : list poll_step) (e : loop_end) (s' : session V)
    (tr : list event) :
  poll t text s steps = Some (e, s', tr) -> submitted tr = [].
Proof.
  revert s e s' tr. induction steps as [|st steps IH]; intros s e s' tr; simpl.
  - destruct (query_cancelled s); [|discriminate]. intros [= _ _ <-].
    reflexivity.
  - destruct (query_cancelled (cancel_if (cancel_called st) s)).
    { intros [= _ _ <-]. reflexivity. }
    pose proof (is_job_completed_submitted (status_reply st)) as Hd.
    destruct (is_job_completed (status_reply st)) as [[[|]|] tr0];
      simpl in Hd.
    + intros [= _ _ <-]. exact Hd.
    + destruct (t <? clock_after st)%Z.
      * intros [= _ _ <-]. rewrite submitted_app, Hd. reflexivity.
      * destruct (poll t text _ steps) as [[[e1 s1] tr1]|] eqn:E;
          [|discriminate].
        intros [= _ _ <-]. rewrite submitted_app, Hd.
        exact (IH _ _ _ _ E).
    + intros [= _ _ <-]. exact Hd.
Qed.

Lemma download_submitted (s : session V) (reply : http_reply) :
  submitted (download_search_results json_loads s reply).2 = [].
Proof.
  unfold download_search_results. destruct reply as [code text|];
    [|reflexivity].
  destruct (negb (code =? 200)%Z); [reflexivity|].
  destruct (json_loads text) as [[p|rs| |e|r]|]; reflexivity.
Qed.

(** After an accepted login, a run of [query] submits one search. *)
Lemma query_submits_once (s : session V) (w : world) (text : pystr)
    (t : instant) (key : option pystr) (o : outcome V) :
  timeout_date s w = Ok t ->
  login_accepted xml_find_text w key ->
  query xml_find_text json_loads s w text = Some o ->
  submitted (trace o) = [add_missing_search text].
Proof.
  intros Ht (lbody & Hl & Hkey). unfold query, authenticate.
  rewrite Ht, Hl. simpl. rewrite Hkey. simpl.
  pose proof (execute_query_submitted xml_find_text (set_session_key key s)
                (submit_reply w) text) as HE.
  destruct (execute_query xml_find_text (set_session_key key s)
              (submit_reply w) text) as [[ok2 s2] tr2].
  simpl in HE.
  destruct ok2; simpl; [|intros [= <-]; exact HE].
  destruct (poll t text (set_query_start_time (clock_polling w) s2) (polls w))
    as [[[[|b] s3] tr3]|] eqn:EP; [| |discriminate].
  - pose proof (poll_submitted _ _ _ _ _ _ _ EP) as P.
    destruct (negb (query_cancelled (cancel_if (cancel_after_polling w) s3))).
    + pose proof (download_submitted
                    (cancel_if (cancel_after_polling w) s3) (download_reply w))
        as D.
      destruct (download_search_results json_loads _ (download_reply w))
        as [[r s4] tr4]. simpl in D.
      intros [= <-]. simpl.
      change (submitted ([Sent Login] ++ tr2 ++ tr3 ++ tr4)
              = [add_missing_search text]).
      rewrite !submitted_app, HE, P, D. reflexivity.
    + intros [= <-]. simpl.
      change (submitted ([Sent Login] ++ tr2 ++ tr3)
              = [add_missing_search text]).
      rewrite !submitted_app, HE, P. reflexivity.
  - pose proof (poll_submitted _ _ _ _ _ _ _ EP) as P.
    intros [= <-]. simpl.
    change (submitted ([Sent Login] ++ tr2 ++ tr3)
            = [add_missing_search text]).
    rewrite !submitted_app, HE, P. reflexivity.
Qed.

End SubmittedFacts.

(** X20. Every run of [query_with_time] with two datetimes that gets past
    the login submits exactly one search, and its text is
    [search earliest=<start> latest=<end>] followed by the rest of the
    query, whatever happens afterwards. *)
Theorem query_with_time_submits_built {V : Type} xml_find_text json_loads
    (debug : bool) (sess : session V) (w : world) (text : pystr)
    (s e : datetime) (t : instant) (key : option pystr) (o : outcome V) :
  timeout_date sess w = Ok t ->
  login_accepted xml_find_text w key ->
  query_with_time xml_find_text json_loads debug sess w text (Some s) (Some e)
  = Some o ->
  submitted (trace o)
  = [str "search " ++ str "earliest=" ++ strftime_splunk s ++ str " "
     ++ str "latest=" ++ strftime_splunk e ++ after_search text].
Proof.
  intros Ht Hl. unfold query_with_time, query_with_time_text.
  rewrite bounded_query_both. intros Hq.
  rewrite (query_submits_once _ _ _ _ _ _ _ _ Ht Hl Hq).
  unfold add_missing_search. rewrite starts_with_search_keyword. reflexivity.
Qed.

Lemma query_with_time_submits_built_witness :
  submitted
    (trace (mk_outcome (Ok false)
              (set_session_key (Some (str "k3y")) (new_session (str "00:30:00")))
              [Sent Login;
               Sent (Submit (str "search earliest=01/01/2024:00:00:00 latest=01/01/2024:00:00:10 index=main"));
               Logged (SearchRejected 503)]))
  = [str "search " ++ str "earliest="
     ++ strftime_splunk dt_2024_01_01_000000 ++ str " "
     ++ str "latest=" ++ strftime_splunk dt_2024_01_01_000010
     ++ after_search (str "index=main")].
Proof.
  apply (query_with_time_submits_built sample_xml sample_json true
           (new_session (str "00:30:00"))
           (mk_world T0 (Reply 200 LOGIN_BODY) (Reply 503 (str "busy")) T0
              [done_at 1] false (Reply 200 ROWS_BODY))
           (str "index=main") dt_2024_01_01_000000 dt_2024_01_01_000010
           (T0 + sec 1800)%Z (Some (str "k3y"))).
  - reflexivity.
  - sample_accepted.
  - vm_compute. reflexivity.
Defined.

(** ** More on [extract_event_timestamp] *)

Lemma take_digits_app (n : nat) (ds rest : pystr) :
  digits_of n ds -> Legacy.take_digits n (ds ++ rest) = Some (ds, rest).
Proof.
  intros [Hlen Hd]. revert n Hlen.
  induction Hd as [|c ds Hc _ IH]; intros n Hlen; simpl in Hlen; subst n;
    [reflexivity|].
  simpl. rewrite Hc, (IH _ eq_refl). reflexivity.
Qed.

Lemma take_char_one (c : ascii) (rest : pystr) :
  Legacy.take_char [c] ([c] ++ rest) = Some rest.
Proof. simpl. rewrite Ascii.eqb_refl. reflexivity. Qed.

(** The legacy pattern keeps the six groups of the date and the time and
    drops the milliseconds, the sign and the offset. *)
Lemma legacy_groups_text (Y M D h m s f : pystr) (sign : ascii)
    (oh om : pystr) :
  digits_of 4 Y -> digits_of 2 M -> digits_of 2 D -> digits_of 2 h ->
  digits_of 2 m -> digits_of 2 s -> digits_of 3 f ->
  sign = "-"%char \/ sign = "+"%char ->
  digits_of 2 oh -> digits_of 2 om ->
  Legacy.groups (legacy_text Y M D h m s f sign oh om)
  = Some [Y; M; D; h; m; s].
Proof.
  intros HY HM HD Hh Hm Hs Hf Hsign Hoh Hom.
  unfold Legacy.groups, legacy_text.
  assert (Hc : Legacy.take_char (str "-+") (sign :: oh ++ str ":" ++ om)
               = Some (oh ++ str ":" ++ om))
    by (destruct Hsign as [-> | ->]; reflexivity).
  rewrite (take_digits_app 4 Y _ HY). cbn [mbind option_bind].
  rewrite (take_char_one "-"%char). cbn [mbind option_bind].
  rewrite (take_digits_app 2 M _ HM). cbn [mbind option_bind].
  rewrite (take_char_one "-"%char). cbn [mbind option_bind].
  rewrite (take_digits_app 2 D _ HD). cbn [mbind option_bind].
  rewrite (take_char_one "T"%char). cbn [mbind option_bind].
  rewrite (take_digits_app 2 h _ Hh). cbn [mbind option_bind].
  rewrite (take_char_one ":"%char). cbn [mbind option_bind].
  rewrite (take_digits_app 2 m _ Hm). cbn [mbind option_bind].
  rewrite (take_char_one ":"%char). cbn [mbind option_bind].
  rewrite (take_digits_app 2 s _ Hs). cbn [mbind option_bind].
  rewrite (take_char_one "."%char). cbn [mbind option_bind].
  rewrite (take_digits_app 3 f _ Hf). cbn [mbind option_bind].
  rewrite Hc. cbn [mbind option_bind].
  rewrite (take_digits_app 2 oh _ Hoh). cbn [mbind option_bind].
  rewrite (take_char_one ":"%char). cbn [mbind option_bind].
  rewrite <- (app_nil_r om), (take_digits_app 2 om _ Hom). reflexivity.
Qed.

Section MoreTimestampFacts.

Variable tzinfo : Type.
Variable ZoneInfo : pystr -> zone_lookup tzinfo.
Variable LOCAL_TIMEZONE : tzinfo.
Variable local_time : stamp tzinfo.
Variable parse : pystr -> parse_result tzinfo.
Variable astimezone : stamp tzinfo -> tzinfo -> stamp tzinfo.

Lemma extract_unknown_zone (strptime : pystr -> result datetime)
    (event : gmap string pystr) (name text : pystr) :
  event !! "_time"%string = Some text ->
  ZoneInfo name = ZoneNotFound tzinfo ->
  extract_event_timestamp tzinfo ZoneInfo LOCAL_TIMEZONE local_time parse
    astimezone strptime event (Some name)
  = let r := extract_event_timestamp tzinfo ZoneInfo LOCAL_TIMEZONE
               local_time parse astimezone strptime event None in
    (r.1, ErrorUnknownZone name :: r.2).
Proof.
  intros He Hz. unfold extract_event_timestamp. rewrite He, Hz.
  destruct (parse text) as [d| |e]; simpl.
  - destruct (tz_of tzinfo d); reflexivity.
  - destruct (Legacy.groups text); [|reflexivity].
    destruct (strptime _); reflexivity.
  - reflexivity.
Qed.

Lemma extract_without_legacy (strptime1 strptime2 : pystr -> result datetime)
    (event : gmap string pystr) (timezone : option pystr) :
  (forall text, parse text <> ParsedOther tzinfo) ->
  extract_event_timestamp tzinfo ZoneInfo LOCAL_TIMEZONE local_time parse
    astimezone strptime1 event timezone
  = extract_event_timestamp tzinfo ZoneInfo LOCAL_TIMEZONE local_time parse
      astimezone strptime2 event timezone
  /\ forall text,
       ErrorTimeFormat text
       ∉ (extract_event_timestamp tzinfo ZoneInfo LOCAL_TIMEZONE local_time
            parse astimezone strptime1 event timezone).2.
Proof.
  intros Hp. unfold extract_event_timestamp.
  destruct (event !! "_time"%string) as [text|].
  2:{ split; [reflexivity|]. intros x Hin.
      apply elem_of_cons in Hin as [Hin|Hin]; [discriminate|].
      apply elem_of_nil in Hin. contradiction. }
  assert (Hlog : forall (name : pystr) x,
             ErrorTimeFormat x ∉ [ErrorUnknownZone name]).
  { intros name x Hin. apply elem_of_cons in Hin as [Hin|Hin];
      [discriminate|]. apply elem_of_nil in Hin. contradiction. }
  specialize (Hp text).
  destruct timezone as [name|].
  - destruct (ZoneInfo name) as [tz| |e].
    + destruct (parse text) as [d| |e']; [|contradiction|];
        [destruct (tz_of tzinfo d)|]; (split; [reflexivity|]);
        intros x Hin; apply elem_of_nil in Hin; contradiction.
    + destruct (parse text) as [d| |e']; [|contradiction|];
        [destruct (tz_of tzinfo d)|]; (split; [reflexivity|]);
        intros x; apply Hlog.
    + split; [reflexivity|]. intros x Hin. apply elem_of_nil in Hin.
      contradiction.
  - destruct (parse text) as [d| |e']; [|contradiction|];
      [destruct (tz_of tzinfo d)|]; (split; [reflexivity|]);
      intros x Hin; apply elem_of_nil in Hin; contradiction.
Qed.

End MoreTimestampFacts.

(** X21. An unknown time zone name is not an error of the call: the
    result is the one obtained without a time zone argument (the local
    zone is used), and the only difference is one more error record in
    the log, put first. *)
Theorem unknown_zone_falls_back (tzinfo : Type)
    (ZoneInfo : pystr -> zone_lookup tzinfo) (LOCAL_TIMEZONE : tzinfo)
    (local_time : stamp tzinfo) (parse : pystr -> parse_result tzinfo)
    (astimezone : stamp tzinfo -> tzinfo -> stamp tzinfo)
    (strptime : pystr -> result datetime)
    (event : gmap string pystr) (name text : pystr) :
  event !! "_time"%string = Some text ->
  ZoneInfo name = ZoneNotFound tzinfo ->
  extract_event_timestamp tzinfo ZoneInfo LOCAL_TIMEZONE local_time parse
    astimezone strptime event (Some name)
  = let r := extract_event_timestamp tzinfo ZoneInfo LOCAL_TIMEZONE
               local_time parse astimezone strptime event None in
    (r.1, ErrorUnknownZone name :: r.2).
Proof. apply extract_unknown_zone. Qed.

Lemma unknown_zone_falls_back_witness :
  extract_event_timestamp sample_zone sample_ZoneInfo sample_LOCAL_TIMEZONE
    sample_local_time sample_parse sample_astimezone sample_strptime
    {[ "_time"%string := TIME_10H ]} (Some (str "Mars/Phobos"))
  = let r := extract_event_timestamp sample_zone sample_ZoneInfo
               sample_LOCAL_TIMEZONE sample_local_time sample_parse
               sample_astimezone sample_strptime
               {[ "_time"%string := TIME_10H ]} None in
    (r.1, ErrorUnknownZone (str "Mars/Phobos") :: r.2).
Proof.
  apply (unknown_zone_falls_back sample_zone sample_ZoneInfo
           sample_LOCAL_TIMEZONE sample_local_time sample_parse
           sample_astimezone sample_strptime
           {[ "_time"%string := TIME_10H ]} (str "Mars/Phobos") TIME_10H).
  - reflexivity.
  - reflexivity.
Defined.

(** X22. A time zone name on which [ZoneInfo] raises something else than
    [ZoneInfoNotFoundError] makes the call raise it, before the time is
    parsed, when the record has a [_time]; a record without [_time] still
    yields the local time and a warning, the zone not being looked up. *)
Theorem zone_error_escapes (tzinfo : Type)
    (ZoneInfo : pystr -> zone_lookup tzinfo) (LOCAL_TIMEZONE : tzinfo)
    (local_time : stamp tzinfo) (parse : pystr -> parse_result tzinfo)
    (astimezone : stamp tzinfo -> tzinfo -> stamp tzinfo)
    (strptime : pystr -> result datetime)
    (event : gmap string pystr) (name : pystr) (e : exn) :
  ZoneInfo name = ZoneRaises tzinfo e ->
  extract_event_timestamp tzinfo ZoneInfo LOCAL_TIMEZONE local_time parse
    astimezone strptime event (Some name)
  = if bool_decide (is_Some (event !! "_time"%string))
    then (Raise e, []) else (Ok local_time, [WarnMissingTime]).
Proof.
  intros Hz. unfold extract_event_timestamp.
  destruct (event !! "_time"%string) as [text|]; [|reflexivity].
  rewrite Hz. reflexivity.
Qed.

Lemma zone_error_escapes_witness :
  extract_event_timestamp sample_zone strict_ZoneInfo sample_LOCAL_TIMEZONE
    sample_local_time sample_parse sample_astimezone sample_strptime
    {[ "_time"%string := TIME_10H ]} (Some (str "/etc/localtime"))
  = if bool_decide (is_Some (({[ "_time"%string := TIME_10H ]}
                               : gmap string pystr) !! "_time"%string))
    then (Raise ValueError, [])
    else (Ok sample_local_time, [WarnMissingTime]).
Proof.
  apply (zone_error_escapes sample_zone strict_ZoneInfo sample_LOCAL_TIMEZONE
           sample_local_time sample_parse sample_astimezone sample_strptime
           {[ "_time"%string := TIME_10H ]} (str "/etc/localtime") ValueError).
  reflexivity.
Defined.

(** X23. With a parser that returns a [datetime] or raises, and never
    another value, the legacy branch of lines 65-78 is not run: the result
    does not depend on [strptime], and the error record for a [_time]
    that does not match the pattern is never logged. *)
Theorem legacy_branch_unreached (tzinfo : Type)
    (ZoneInfo : pystr -> zone_lookup tzinfo) (LOCAL_TIMEZONE : tzinfo)
    (local_time : stamp tzinfo) (parse : pystr -> parse_result tzinfo)
    (astimezone : stamp tzinfo -> tzinfo -> stamp tzinfo)
    (strptime1 strptime2 : pystr -> result datetime)
    (event : gmap string pystr) (timezone : option pystr) :
  (forall text, parse text <> ParsedOther tzinfo) ->
  extract_event_timestamp tzinfo ZoneInfo LOCAL_TIMEZONE local_time parse
    astimezone strptime1 event timezone
  = extract_event_timestamp tzinfo ZoneInfo LOCAL_TIMEZONE local_time parse
      astimezone strptime2 event timezone
  /\ forall text,
       ErrorTimeFormat text
       ∉ (extract_event_timestamp tzinfo ZoneInfo LOCAL_TIMEZONE local_time
            parse astimezone strptime1 event timezone).2.
Proof. apply extract_without_legacy. Qed.

Lemma legacy_branch_unreached_witness :
  extract_event_timestamp sample_zone sample_ZoneInfo sample_LOCAL_TIMEZONE
    sample_local_time sample_parse sample_astimezone sample_strptime
    {[ "_time"%string := str "2024-13-45T99:99:99.000+00:00" ]}
    (Some (str "UTC"))
  = extract_event_timestamp sample_zone sample_ZoneInfo sample_LOCAL_TIMEZONE
      sample_local_time sample_parse sample_astimezone
      (fun _ => Raise ValueError)
      {[ "_time"%string := str "2024-13-45T99:99:99.000+00:00" ]}
      (Some (str "UTC"))
  /\ forall text,
       ErrorTimeFormat text
       ∉ (extract_event_timestamp sample_zone sample_ZoneInfo
            sample_LOCAL_TIMEZONE sample_local_time sample_parse
            sample_astimezone sample_strptime
            {[ "_time"%string := str "2024-13-45T99:99:99.000+00:00" ]}
            (Some (str "UTC"))).2.
Proof.
  apply (legacy_branch_unreached sample_zone sample_ZoneInfo
           sample_LOCAL_TIMEZONE sample_local_time sample_parse
           sample_astimezone sample_strptime (fun _ => Raise ValueError)).
  intros text. unfold sample_parse. case_bool_decide; discriminate.
Defined.

(** X24. On the legacy branch (the parser returned something that is not
    a [datetime]) a [_time] of the shape YYYY-MM-DDTHH:MM:SS.mmm+HH:MM is
    read from its first six groups only: the milliseconds, the sign and
    the offset play no part, the result being [strptime] of
    "YYYY-MM-DD HH:MM:SS" stamped with the resolved zone; an exception of
    [strptime] (a month 13, say) leaves the call. *)
Theorem legacy_branch_drops_offset (tzinfo : Type)
    (ZoneInfo : pystr -> zone_lookup tzinfo) (LOCAL_TIMEZONE : tzinfo)
    (local_time : stamp tzinfo) (parse : pystr -> parse_result tzinfo)
    (astimezone : stamp tzinfo -> tzinfo -> stamp tzinfo)
    (strptime : pystr -> result datetime)
    (event : gmap string pystr)
    (Y M D h m s f : pystr) (sign : ascii) (oh om : pystr) :
  digits_of 4 Y -> digits_of 2 M -> digits_of 2 D -> digits_of 2 h ->
  digits_of 2 m -> digits_of 2 s -> digits_of 3 f ->
  sign = "-"%char \/ sign = "+"%char ->
  digits_of 2 oh -> digits_of 2 om ->
  event !! "_time"%string = Some (legacy_text Y M D h m s f sign oh om) ->
  parse (legacy_text Y M D h m s f sign oh om) = ParsedOther tzinfo ->
  extract_event_timestamp tzinfo ZoneInfo LOCAL_TIMEZONE local_time parse
    astimezone strptime event None
  = match strptime (Y ++ str "-" ++ M ++ str "-" ++ D ++ str " " ++ h
                    ++ str ":" ++ m ++ str ":" ++ s) with
    | Ok d => (Ok (mk_stamp tzinfo d (Some LOCAL_TIMEZONE)), [])
    | Raise e => (Raise e, [])
    end.
Proof.
  intros HY HM HD Hh Hm Hs Hf Hsign Hoh Hom He Hp.
  unfold extract_event_timestamp. rewrite He, Hp.
  rewrite (legacy_groups_text _ _ _ _ _ _ _ _ _ _
             HY HM HD Hh Hm Hs Hf Hsign Hoh Hom).
  reflexivity.
Qed.

Lemma legacy_branch_drops_offset_witness :
  extract_event_timestamp sample_zone sample_ZoneInfo sample_LOCAL_TIMEZONE
    sample_local_time other_parse sample_astimezone sample_strptime
    {[ "_time"%string :=
         legacy_text (str "2024") (str "01") (str "01") (str "10")
           (str "00") (str "00") (str "123") "-" (str "08") (str "00") ]}
    None
  = match sample_strptime
            (str "2024" ++ str "-" ++ str "01" ++ str "-" ++ str "01"
             ++ str " " ++ str "10" ++ str ":" ++ str "00" ++ str ":"
             ++ str "00") with
    | Ok d => (Ok (mk_stamp sample_zone d (Some sample_LOCAL_TIMEZONE)), [])
    | Raise e => (Raise e, [])
    end.
Proof.
  apply (legacy_branch_drops_offset sample_zone sample_ZoneInfo
           sample_LOCAL_TIMEZONE sample_local_time other_parse
           sample_astimezone sample_strptime _
           (str "2024") (str "01") (str "01") (str "10") (str "00")
           (str "00") (str "123") "-"%char (str "08") (str "00"));
    try (split; [reflexivity|repeat constructor]);
    try reflexivity.
  left. reflexivity.
Defined.

(** ** [query_relative] *)

Example relative_bounds_default :
  relative_bounds default_relative (mk_datetime 2030 1 1 0 0 0)
    (Some (mk_datetime 2024 1 1 0 0 5)) None None
  = Ok (mk_datetime 2023 12 31 23 59 50, mk_datetime 2024 1 1 0 0 10).
Proof. vm_compute. reflexivity. Qed.

(** X25. A duration before the event (the argument, or the configured
    default when the argument is [None]) with a component that is not an
    integer makes [query_relative] raise [ValueError] before anything is
    sent, the object being as before; the other duration is not looked
    at. *)
Theorem query_relative_bad_duration {V : Type} xml_find_text json_loads
    (debug : bool) (defaults : relative_defaults) (now : datetime)
    (sess : session V) (w : world) (text : pystr)
    (event_time : option datetime) (before after : option pystr)
    (c : pystr) :
  c ∈ used_components (default (relative_duration_before defaults) before) ->
  PyInt.parse c = None ->
  query_relative xml_find_text json_loads debug defaults now sess w text
    event_time before after
  = Some (mk_outcome (Raise ValueError) sess []).
Proof.
  intros Hin Hc. unfold query_relative, relative_bounds.
  rewrite (create_timedelta_value_error _ _ Hin Hc). reflexivity.
Qed.

Lemma query_relative_bad_duration_witness :
  query_relative sample_xml sample_json true default_relative
    (mk_datetime 2024 1 1 0 0 5) (new_session (str "00:30:00"))
    (sample_world [done_at 1] (Reply 200 ROWS_BODY)) (str "index=main")
    None (Some (str "15s")) (Some (str "also bad"))
  = Some (mk_outcome (Raise ValueError) (new_session (str "00:30:00")) []).
Proof.
  apply (query_relative_bad_duration sample_xml sample_json true
           default_relative (mk_datetime 2024 1 1 0 0 5)
           (new_session (str "00:30:00")) _ (str "index=main")
           None (Some (str "15s")) (Some (str "also bad")) (str "15s")).
  - vm_compute. apply list_elem_of_here.
  - reflexivity.
Defined.

(** X26. When both bounds can be computed, [query_relative] runs
    [query_with_time] on two datetimes, so the assertions of lines 171-172
    hold and both clauses are injected: every run that gets past the
    login submits exactly [search earliest=<start> latest=<end>] followed
    by the rest of the query, with start the event time minus the first
    duration and end the event time plus the second. *)
Theorem query_relative_submits_window {V : Type} xml_find_text json_loads
    (debug : bool) (defaults : relative_defaults) (now : datetime)
    (sess : session V) (w : world) (text : pystr)
    (event_time : option datetime) (before after : option pystr)
    (td_before td_after : timedelta) (time_start time_end : datetime)
    (t : instant) (key : option pystr) (o : outcome V) :
  create_timedelta (default (relative_duration_before defaults) before)
  = Ok td_before ->
  create_timedelta (default (relative_duration_after defaults) after)
  = Ok td_after ->
  Calendar.sub (default now event_time) td_before = Ok time_start ->
  Calendar.add (default now event_time) td_after = Ok time_end ->
  timeout_date sess w = Ok t ->
  login_accepted xml_find_text w key ->
  query_relative xml_find_text json_loads debug defaults now sess w text
    event_time before after = Some o ->
  submitted (trace o)
  = [str "search " ++ str "earliest=" ++ strftime_splunk time_start
     ++ str " " ++ str "latest=" ++ strftime_splunk time_end
     ++ after_search text].
Proof.
  intros Hb Ha Hs He Ht Hl. unfold query_relative, relative_bounds.
  rewrite Hb. cbn [bind]. rewrite Hs. cbn [bind]. rewrite Ha. cbn [bind].
  rewrite He. cbn [bind].
  unfold query_with_time, query_with_time_text.
  rewrite bounded_query_both. intros Hq.
  rewrite (query_submits_once _ _ _ _ _ _ _ _ Ht Hl Hq).
  unfold add_missing_search. rewrite starts_with_search_keyword. reflexivity.
Qed.

Lemma query_relative_submits_window_witness :
  submitted
    (trace (mk_outcome (Ok false)
              (set_session_key (Some (str "k3y")) (new_session (str "00:30:00")))
              [Sent Login;
               Sent (Submit (str "search earliest=12/31/2023:23:59:50 latest=01/01/2024:00:00:10 index=main"));
               Logged (SearchRejected 503)]))
  = [str "search " ++ str "earliest="
     ++ strftime_splunk (mk_datetime 2023 12 31 23 59 50) ++ str " "
     ++ str "latest=" ++ strftime_splunk (mk_datetime 2024 1 1 0 0 10)
     ++ after_search (str "index=main")].
Proof.
  apply (query_relative_submits_window sample_xml sample_json true
           default_relative (mk_datetime 2030 1 1 0 0 0)
           (new_session (str "00:30:00"))
           (mk_world T0 (Reply 200 LOGIN_BODY) (Reply 503 (str "busy")) T0
              [done_at 1] false (Reply 200 ROWS_BODY))
           (str "index=main") (Some (mk_datetime 2024 1 1 0 0 5)) None None
           (mk_timedelta 0 15 0) (mk_timedelta 0 5 0)
           (mk_datetime 2023 12 31 23 59 50) (mk_datetime 2024 1 1 0 0 10)
           (T0 + sec 1800)%Z (Some (str "k3y"))).
  - reflexivity.
  - reflexivity.
  - vm_compute. reflexivity.
  - vm_compute. reflexivity.
  - reflexivity.
  - sample_accepted.
  - vm_compute. reflexivity.
Defined.
